(** * Quiz application backend: access-control decisions and the
      quiz-attempt lifecycle

    A shallow embedding of
    - [AuthUtils] (src/utils/auth.ts): the role and tenant decisions;
    - [QuizService.startQuizAttempt] and [QuizService.submitQuizAttempt]
      (services/quizService.ts), together with the Prisma calls they issue
      against the [quiz], [question] and [quizAttempt] tables.

    JavaScript numbers are IEEE-754 binary64 values; they are modelled with
    the Standard Library's [spec_float] at precision 53 and maximal exponent
    1024.  Dates are milliseconds since the epoch, as integers. *)

From stdpp Require Import base decidable option list gmap fin_maps strings.
From Stdlib Require Import ZArith Lia Strings.Ascii.
From Stdlib Require Import Floats.SpecFloat.

Local Open Scope string_scope.
Local Open Scope Z_scope.

(** ** JavaScript values *)

Module Js.

(** A value as it arrives in a JSON request body or is read from a JS
    object: [JUndefined] is what a property read yields for a missing key. *)
#[local] Unset Elimination Schemes.
Inductive JSValue : Type :=
| JUndefined
| JNull
| JBool (b : bool)
| JNumber (x : spec_float)
| JString (s : string)
| JArray (items : list JSValue)
| JObject (fields : list (string * JSValue)).
#[local] Set Elimination Schemes.

(** [obj[key]] on a plain object used as a map. *)
Definition get (obj : gmap string JSValue) (key : string) : JSValue :=
  default JUndefined (obj !! key).

(** [v === s] where [s] is a string: strict equality never coerces, so
    only a string with the same characters is equal. *)
Definition strict_eq_string (v : JSValue) (s : string) : bool :=
  match v with
  | JString t => bool_decide (t = s)
  | _ => false
  end.

(** *** Numbers *)

Definition prec : Z := 53.
Definition emax : Z := 1024.

(** The number an integer denotes (exact below 2^53). *)
Definition number_of_Z (z : Z) : spec_float :=
  binary_normalize prec emax z 0 false.

Definition div (x y : spec_float) : spec_float := SFdiv prec emax x y.
Definition mul (x y : spec_float) : spec_float := SFmul prec emax x y.

(** The integer closest to [(-1)^s * m * 2^e], ties going towards
    +infinity: [floor (x + 1/2)] computed exactly. *)
Definition round_half_up (s : bool) (m : positive) (e : Z) : Z :=
  let v := if s then Z.neg m else Z.pos m in
  if 0 <=? e then v * 2 ^ e
  else (2 * v + 2 ^ (- e)) `div` (2 ^ (- e + 1)).

(** [Math.round]: NaN, the infinities and the zeros are returned as they
    are; a finite value in [-0.5, 0) gives -0. *)
Definition Math_round (x : spec_float) : spec_float :=
  match x with
  | S754_finite s m e =>
      let n := round_half_up s m e in
      if n =? 0 then S754_zero s else number_of_Z n
  | _ => x
  end.

#[global] Instance spec_float_eq_dec : EqDecision spec_float.
Proof. solve_decision. Defined.

(** [Math.floor (a / b)] for integers [a] and a positive integer [b]. *)
Definition floor_div (a b : Z) : Z := a `div` b.

(** *** Strings

    A JavaScript string is a sequence of UTF-16 code units; it is held
    here as the bytes of its UTF-8 encoding, the form in which it arrives
    in a request body (a surrogate that stands alone as the three bytes of
    its code point).  Equality of strings is equality of these bytes. *)

(** The UTF-16 code units that the sequence led by byte [c] stands for: one
    for a sequence of one, two or three bytes, two (a surrogate pair) for a
    sequence of four; a continuation byte adds none. *)
Definition code_units (c : ascii) : nat :=
  let n := Ascii.nat_of_ascii c in
  if (n <? 128)%nat then 1%nat
  else if (n <? 192)%nat then 0%nat
  else if (n <? 240)%nat then 1%nat
  else 2%nat.

(** [s.length] *)
Fixpoint js_length (s : string) : nat :=
  match s with
  | EmptyString => 0%nat
  | String c rest => (code_units c + js_length rest)%nat
  end.

End Js.

(** ** src/utils/auth.ts *)

Module AuthUtils.

(** The [Role] enumeration of the Prisma client. *)
Inductive Role : Set :=
| SUPER_ADMIN
| GLOBAL_CONTENT_CREATOR
| ADMIN
| TEACHER
| STUDENT.

#[global] Instance Role_eq_dec : EqDecision Role.
Proof. solve_decision. Defined.

(** [IUser], with the fields the decisions read. [institutionId] is
    optional in the source. *)
Record IUser : Type := mkUser {
  id : string;
  name : string;
  role : Role;
  institutionId : option string;
  approved : bool
}.

(** [a === b] on roles and on optional strings. *)
Definition role_eq (a b : Role) : bool := bool_decide (a = b).
Definition inst_eq (a b : option string) : bool := bool_decide (a = b).

(** [roles.includes(r)] *)
Definition includes (roles : list Role) (r : Role) : bool :=
  existsb (role_eq r) roles.

Definition hasRole (user : IUser) (requiredRoles : list Role) : bool :=
  includes requiredRoles (role user).

Definition canAccessInstitution (user : IUser) (institution : string) : bool :=
  if role_eq (role user) SUPER_ADMIN || role_eq (role user) GLOBAL_CONTENT_CREATOR
  then true
  else inst_eq (institutionId user) (Some institution).

Definition canManageUsers (user targetUser : IUser) : bool :=
  if role_eq (role user) SUPER_ADMIN then true
  else if role_eq (role user) GLOBAL_CONTENT_CREATOR then
    includes [GLOBAL_CONTENT_CREATOR; ADMIN; TEACHER; STUDENT] (role targetUser)
  else if role_eq (role user) ADMIN
          && inst_eq (institutionId user) (institutionId targetUser) then
    includes [ADMIN; TEACHER; STUDENT] (role targetUser)
  else if role_eq (role user) TEACHER
          && inst_eq (institutionId user) (institutionId targetUser) then
    role_eq (role targetUser) STUDENT
  else false.

Definition canCreateQuiz (user : IUser) : bool :=
  includes [SUPER_ADMIN; GLOBAL_CONTENT_CREATOR; ADMIN; TEACHER] (role user).

Definition canTakeQuiz (user : IUser) : bool :=
  role_eq (role user) STUDENT.

(** The privilege order of the five roles, highest first in the source's
    comments ("global content creators and below"). *)
Definition rank (r : Role) : nat :=
  match r with
  | SUPER_ADMIN => 4
  | GLOBAL_CONTENT_CREATOR => 3
  | ADMIN => 2
  | TEACHER => 1
  | STUDENT => 0
  end%nat.

(** The rule table of the specification, one branch per role, the first
    matching role deciding alone. *)
Definition canManageUser_by_role (user targetUser : IUser) : bool :=
  match role user with
  | SUPER_ADMIN => true
  | GLOBAL_CONTENT_CREATOR =>
      includes [GLOBAL_CONTENT_CREATOR; ADMIN; TEACHER; STUDENT] (role targetUser)
  | ADMIN =>
      inst_eq (institutionId user) (institutionId targetUser)
      && includes [ADMIN; TEACHER; STUDENT] (role targetUser)
  | TEACHER =>
      inst_eq (institutionId user) (institutionId targetUser)
      && role_eq (role targetUser) STUDENT
  | STUDENT => false
  end.

End AuthUtils.

(** ** services/quizService.ts *)

Module QuizService.
Import Js.

(** *** Errors and results *)

(** What a service call can throw: a [CustomError] with its HTTP status, the
    plain [Error] of [validateSchema] (its message joins the messages of the
    violated rules; the rules are kept here by name), and a Prisma
    known-request error with its code. *)
Inductive Error : Type :=
| CustomError (message : string) (statusCode : Z)
| ValidationError (violations : list string)
| PrismaClientKnownRequestError (code : string).

Inductive Result (A : Type) : Type :=
| Ok (a : A)
| Err (e : Error).
Arguments Ok {A} a.
Arguments Err {A} e.

Definition is_ok {A} (r : Result A) : bool :=
  match r with Ok _ => true | Err _ => false end.

(** *** Rows of the three tables *)

Record Question : Type := mkQuestion {
  q_id : string;
  q_quizId : string;
  q_text : string;
  q_options : list string;
  q_answer : string;
  q_difficulty : string;
  q_points : Z
}.

(** A quiz row; [settings], [isActive], [isCompleted] and the two audit
    timestamps play no part in the attempt lifecycle and are left out. *)
Record Quiz : Type := mkQuiz {
  quiz_id : string;
  quiz_title : string;
  quiz_description : option string;
  quiz_createdById : string;
  quiz_subjectId : string;
  quiz_institutionId : option string;
  quiz_startTime : Z;
  quiz_endTime : Z;
  quiz_durationMins : Z
}.

Record QuizAttempt : Type := mkAttempt {
  att_id : string;
  att_quizId : string;
  att_studentId : string;
  att_answers : gmap string JSValue;
  att_score : Z;
  att_maxScore : Z;
  att_completed : bool;
  att_startedAt : Z;
  att_submittedAt : option Z;
  att_timeSpent : option Z
}.

(** The database: quizzes and attempts keyed by their primary key, the
    question table as its list of rows. *)
Record Store : Type := mkStore {
  quizzes : gmap string Quiz;
  questions : list Question;
  attempts : gmap string QuizAttempt
}.

Definition empty_store : Store := mkStore ∅ [] ∅.

Definition set_quizzes (st : Store) (m : gmap string Quiz) : Store :=
  mkStore m (questions st) (attempts st).
Definition set_questions (st : Store) (l : list Question) : Store :=
  mkStore (quizzes st) l (attempts st).
Definition set_attempts (st : Store) (m : gmap string QuizAttempt) : Store :=
  mkStore (quizzes st) (questions st) m.

(** *** Service calls: a store-passing computation that may throw *)

Definition M (A : Type) : Type := Store -> Store * Result A.

Definition ret {A} (a : A) : M A := fun st => (st, Ok a).

Definition bind {A B} (m : M A) (k : A -> M B) : M B :=
  fun st =>
    match m st with
    | (st', Ok a) => k a st'
    | (st', Err e) => (st', Err e)
    end.

Definition throw {A} (e : Error) : M A := fun st => (st, Err e).

Notation "'let*' x ':=' m 'in' k" := (bind m (fun x => k))
  (at level 10, x pattern, m at level 100, k at level 200).

(** *** Prisma calls *)

(** The rows of [question] that belong to a quiz: what
    [include: { questions: true }] loads. *)
Definition questions_of (st : Store) (quizId : string) : list Question :=
  List.filter (fun q => bool_decide (q_quizId q = quizId)) (questions st).

(** [prisma.quiz.findUnique({ where: { id }, include: { questions: true } })] *)
Definition prisma_quiz_findUnique (quizId : string) : M (option (Quiz * list Question)) :=
  fun st =>
    (st, Ok (match quizzes st !! quizId with
             | Some quiz => Some (quiz, questions_of st quizId)
             | None => None
             end)).

(** [where: { quizId, studentId, completed: false }] *)
Definition is_active_for (quizId studentId : string) (a : QuizAttempt) : bool :=
  bool_decide (att_quizId a = quizId)
  && bool_decide (att_studentId a = studentId)
  && negb (att_completed a).

Definition attempt_rows (st : Store) : list QuizAttempt :=
  (map_to_list (attempts st)).*2.

(** [prisma.quizAttempt.findFirst({ where: { quizId, studentId, completed: false } })] *)
Definition prisma_quizAttempt_findFirst (quizId studentId : string) : M (option QuizAttempt) :=
  fun st => (st, Ok (List.find (is_active_for quizId studentId) (attempt_rows st))).

(** [prisma.quizAttempt.create({ data })]: [row] carries the id the
    database generates for the new row; a primary key already in use is the
    unique-constraint failure P2002. *)
Definition prisma_quizAttempt_create (row : QuizAttempt) : M QuizAttempt :=
  fun st =>
    match attempts st !! att_id row with
    | Some _ => (st, Err (PrismaClientKnownRequestError "P2002"))
    | None => (set_attempts st (<[att_id row := row]> (attempts st)), Ok row)
    end.

(** [prisma.quizAttempt.findUnique({ where: { id },
      include: { quiz: { include: { questions: true } } } })];
    of the included quiz only its questions are read. *)
Definition prisma_quizAttempt_findUnique (attemptId : string)
  : M (option (QuizAttempt * list Question)) :=
  fun st =>
    (st, Ok (match attempts st !! attemptId with
             | Some a => Some (a, questions_of st (att_quizId a))
             | None => None
             end)).

(** The [data] of the update issued by [submitQuizAttempt]. *)
Record AttemptUpdate : Type := mkAttemptUpdate {
  upd_answers : gmap string JSValue;
  upd_score : Z;
  upd_completed : bool;
  upd_submittedAt : Z;
  upd_timeSpent : Z
}.

Definition apply_update (d : AttemptUpdate) (a : QuizAttempt) : QuizAttempt :=
  {| att_id := att_id a;
     att_quizId := att_quizId a;
     att_studentId := att_studentId a;
     att_answers := upd_answers d;
     att_score := upd_score d;
     att_maxScore := att_maxScore a;
     att_completed := upd_completed d;
     att_startedAt := att_startedAt a;
     att_submittedAt := Some (upd_submittedAt d);
     att_timeSpent := Some (upd_timeSpent d) |}.

(** [prisma.quizAttempt.update({ where: { id }, data })]; a missing row is
    the failure P2025. *)
Definition prisma_quizAttempt_update (attemptId : string) (d : AttemptUpdate) : M QuizAttempt :=
  fun st =>
    match attempts st !! attemptId with
    | None => (st, Err (PrismaClientKnownRequestError "P2025"))
    | Some a =>
        let a' := apply_update d a in
        (set_attempts st (<[attemptId := a']> (attempts st)), Ok a')
    end.

(** *** startQuizAttempt *)

(** A question as the student sees it. *)
Record QuestionView : Type := mkQuestionView {
  qv_id : string;
  qv_text : string;
  qv_options : list string;
  qv_difficulty : string;
  qv_points : Z
}.

Record QuizView : Type := mkQuizView {
  view_id : string;
  view_title : string;
  view_description : option string;
  view_durationMins : Z;
  view_startTime : Z;
  view_endTime : Z;
  view_questions : list QuestionView
}.

Record StartResult : Type := mkStartResult {
  start_attemptId : string;
  start_quiz : QuizView
}.

Definition question_view (q : Question) : QuestionView :=
  {| qv_id := q_id q;
     qv_text := q_text q;
     qv_options := q_options q;
     qv_difficulty := q_difficulty q;
     qv_points := q_points q |}.

Definition quiz_view (quiz : Quiz) (qs : list Question) : QuizView :=
  {| view_id := quiz_id quiz;
     view_title := quiz_title quiz;
     view_description := quiz_description quiz;
     view_durationMins := quiz_durationMins quiz;
     view_startTime := quiz_startTime quiz;
     view_endTime := quiz_endTime quiz;
     view_questions := List.map question_view qs |}.

(** [quiz.questions.reduce((sum, q) => sum + q.points, 0)] *)
Definition total_points (qs : list Question) : Z :=
  fold_left (fun sum q => sum + q_points q) qs 0.

Definition quiz_not_found : Error := CustomError "Quiz not found" 404.
Definition quiz_not_active : Error := CustomError "Quiz is not currently active" 400.
Definition attempt_already_active : Error :=
  CustomError "You already have an active attempt for this quiz" 400.

Definition new_attempt (newId quizId studentId : string) (maxScore startedAt : Z)
  : QuizAttempt :=
  {| att_id := newId;
     att_quizId := quizId;
     att_studentId := studentId;
     att_answers := ∅;
     att_score := 0;
     att_maxScore := maxScore;
     att_completed := false;
     att_startedAt := startedAt;
     att_submittedAt := None;
     att_timeSpent := None |}.

(** [now] and [startedAt] are the two clock readings [new Date()] of the
    call, [newId] the id the database gives the created row. *)
Definition startQuizAttempt (now startedAt : Z) (newId : string)
    (quizId studentId : string) : M StartResult :=
  let* found := prisma_quiz_findUnique quizId in
  match found with
  | None => throw quiz_not_found
  | Some (quiz, qs) =>
      if (now <? quiz_startTime quiz) || (now >? quiz_endTime quiz)
      then throw quiz_not_active
      else
        let* existingAttempt := prisma_quizAttempt_findFirst quizId studentId in
        match existingAttempt with
        | Some _ => throw attempt_already_active
        | None =>
            let maxScore := total_points qs in
            let* attempt :=
              prisma_quizAttempt_create
                (new_attempt newId quizId studentId maxScore startedAt) in
            ret {| start_attemptId := att_id attempt;
                   start_quiz := quiz_view quiz qs |}
        end
  end.

(** *** submitQuizAttempt *)

Record SubmitResult : Type := mkSubmitResult {
  res_attemptId : string;
  res_score : Z;
  res_maxScore : Z;
  res_percentage : spec_float;
  res_timeSpent : option Z;
  res_completed : bool
}.

(** One turn of the scoring loop over [(score, questionAnswers)]. *)
Definition score_question (answers : gmap string JSValue)
    (acc : Z * gmap string JSValue) (question : Question) : Z * gmap string JSValue :=
  let studentAnswer := get answers (q_id question) in
  (if strict_eq_string studentAnswer (q_answer question)
   then acc.1 + q_points question else acc.1,
   <[q_id question := studentAnswer]> acc.2).

Definition score_answers (answers : gmap string JSValue) (qs : list Question)
  : Z * gmap string JSValue :=
  fold_left (score_question answers) qs (0, ∅).

(** [Math.round((score / maxScore) * 100)] *)
Definition percentage (score maxScore : Z) : spec_float :=
  Math_round (mul (div (number_of_Z score) (number_of_Z maxScore)) (number_of_Z 100)).

Definition attempt_not_found : Error := CustomError "Quiz attempt not found" 404.
Definition unauthorized_attempt : Error :=
  CustomError "Unauthorized access to quiz attempt" 403.
Definition attempt_already_completed : Error :=
  CustomError "Quiz attempt already completed" 400.

(** [dateNow] is the reading of [Date.now()], [submittedAt] that of
    [new Date()]. *)
Definition submitQuizAttempt (dateNow submittedAt : Z)
    (attemptId : string) (answers : gmap string JSValue) (studentId : string)
  : M SubmitResult :=
  let* found := prisma_quizAttempt_findUnique attemptId in
  match found with
  | None => throw attempt_not_found
  | Some (attempt, qs) =>
      if negb (bool_decide (att_studentId attempt = studentId))
      then throw unauthorized_attempt
      else if att_completed attempt
      then throw attempt_already_completed
      else
        let scored := score_answers answers qs in
        let timeSpent := floor_div (dateNow - att_startedAt attempt) (1000 * 60) in
        let* updatedAttempt :=
          prisma_quizAttempt_update attemptId
            {| upd_answers := scored.2;
               upd_score := scored.1;
               upd_completed := true;
               upd_submittedAt := submittedAt;
               upd_timeSpent := timeSpent |} in
        ret {| res_attemptId := att_id updatedAttempt;
               res_score := att_score updatedAttempt;
               res_maxScore := att_maxScore updatedAttempt;
               res_percentage :=
                 percentage (att_score updatedAttempt) (att_maxScore updatedAttempt);
               res_timeSpent := att_timeSpent updatedAttempt;
               res_completed := att_completed updatedAttempt |}
  end.

(** *** The other writers of the three tables *)

(** [prisma.quiz.findUnique({ where: { id } })] *)
Definition prisma_quiz_find (quizId : string) : M (option Quiz) :=
  fun st => (st, Ok (quizzes st !! quizId)).

(** [prisma.quiz.create]: the write that [createQuiz] and
    [generateQuizWithAI] issue once their own checks (on the subject and
    institution tables, not part of this development) have passed. *)
Definition prisma_quiz_create (row : Quiz) : M Quiz :=
  fun st =>
    match quizzes st !! quiz_id row with
    | Some _ => (st, Err (PrismaClientKnownRequestError "P2002"))
    | None => (set_quizzes st (<[quiz_id row := row]> (quizzes st)), Ok row)
    end.

(** [IQuizUpdate], for the columns kept in [Quiz]. *)
Record IQuizUpdate : Type := mkQuizUpdate {
  qu_title : option string;
  qu_description : option string;
  qu_startTime : option Z;
  qu_endTime : option Z;
  qu_durationMins : option Z
}.

Definition apply_quiz_update (d : IQuizUpdate) (quiz : Quiz) : Quiz :=
  {| quiz_id := quiz_id quiz;
     quiz_title := default (quiz_title quiz) (qu_title d);
     quiz_description :=
       match qu_description d with
       | Some t => Some t
       | None => quiz_description quiz
       end;
     quiz_createdById := quiz_createdById quiz;
     quiz_subjectId := quiz_subjectId quiz;
     quiz_institutionId := quiz_institutionId quiz;
     quiz_startTime := default (quiz_startTime quiz) (qu_startTime d);
     quiz_endTime := default (quiz_endTime quiz) (qu_endTime d);
     quiz_durationMins := default (quiz_durationMins quiz) (qu_durationMins d) |}.

(** [prisma.quiz.update({ where: { id }, data })] *)
Definition prisma_quiz_update (quizId : string) (d : IQuizUpdate) : M Quiz :=
  fun st =>
    match quizzes st !! quizId with
    | None => (st, Err (PrismaClientKnownRequestError "P2025"))
    | Some quiz =>
        let quiz' := apply_quiz_update d quiz in
        (set_quizzes st (<[quizId := quiz']> (quizzes st)), Ok quiz')
    end.

Definition updateQuiz (quizId : string) (updateData : IQuizUpdate) : M Quiz :=
  prisma_quiz_update quizId updateData.

Definition scheduleQuiz (quizId : string) (startTime endTime durationMins : Z) : M Quiz :=
  prisma_quiz_update quizId
    {| qu_title := None;
       qu_description := None;
       qu_startTime := Some startTime;
       qu_endTime := Some endTime;
       qu_durationMins := Some durationMins |}.

(** [IQuestionCreate]; [points] is optional. *)
Record IQuestionCreate : Type := mkQuestionCreate {
  qc_quizId : string;
  qc_text : string;
  qc_options : list string;
  qc_answer : string;
  qc_difficulty : string;
  qc_points : option Z
}.

Definition is_lower_alnum (c : ascii) : bool :=
  let n := Ascii.nat_of_ascii c in
  ((97 <=? n) && (n <=? 122) || (48 <=? n) && (n <=? 57))%nat.

(** The pattern [/^c[a-z0-9]{24}$/]. *)
Definition matches_cuid (s : string) : bool :=
  match s with
  | String c rest =>
      bool_decide (c = "c"%char)
      && (String.length rest =? 24)%nat
      && forallb is_lower_alnum (String.list_ascii_of_string rest)
  | EmptyString => false
  end.

(** An item of [options]: [Joi.string().min(1).max(200)]. *)
Definition option_violations (o : string) : list string :=
  if (String.length o =? 0)%nat then ["options item: string.empty"]
  else if (200 <? js_length o)%nat then ["options item: string.max"]
  else [].

(** [Number.MAX_SAFE_INTEGER] *)
Definition MAX_SAFE_INTEGER : Z := 2 ^ 53 - 1.

(** The rules of [validationSchemas.questionCreate] that an input of this
    type can violate, each under the name of its Joi rule, in the order of
    the keys of the schema; all rules are checked ([abortEarly: false]).
    An empty string is refused as [string.empty] before any rule of its
    key is tried, and an unsafe number as [number.unsafe]; a value outside
    the list of [valid] is reported as [any.only] and then still checked
    as a string.  [min], [max] and [length] compare [value.length]. *)
Definition questionCreate_violations (d : IQuestionCreate) : list string :=
  (if (String.length (qc_quizId d) =? 0)%nat then ["quizId: string.empty"]
   else if matches_cuid (qc_quizId d) then []
   else ["quizId: string.pattern.base"])
  ++ (if (String.length (qc_text d) =? 0)%nat then ["text: string.empty"]
      else if (js_length (qc_text d) <? 5)%nat then ["text: string.min"]
      else if (1000 <? js_length (qc_text d))%nat then ["text: string.max"]
      else [])
  ++ flat_map option_violations (qc_options d)
  ++ (if (length (qc_options d) <? 2)%nat then ["options: array.min"]
      else if (6 <? length (qc_options d))%nat then ["options: array.max"]
      else [])
  ++ (if (String.length (qc_answer d) =? 0)%nat then ["answer: string.empty"] else [])
  ++ (if bool_decide (qc_difficulty d ∈ ["easy"; "medium"; "hard"])
      then []
      else "difficulty: any.only"
           :: (if (String.length (qc_difficulty d) =? 0)%nat
               then ["difficulty: string.empty"] else []))
  ++ (match qc_points d with
      | Some p =>
          if (p <? - MAX_SAFE_INTEGER) || (MAX_SAFE_INTEGER <? p)
          then ["points: number.unsafe"]
          else if p <? 1 then ["points: number.min"]
          else if 10 <? p then ["points: number.max"]
          else []
      | None => []
      end).

(** [validateSchema(validationSchemas.questionCreate, data)]: the value with
    the default of [points] filled in, or the plain [Error]. *)
Definition validate_questionCreate (d : IQuestionCreate) : Result IQuestionCreate :=
  match questionCreate_violations d with
  | [] =>
      Ok {| qc_quizId := qc_quizId d;
            qc_text := qc_text d;
            qc_options := qc_options d;
            qc_answer := qc_answer d;
            qc_difficulty := qc_difficulty d;
            qc_points := Some (default 1 (qc_points d)) |}
  | violations => Err (ValidationError violations)
  end.

(** [prisma.question.create({ data })], [newId] being the generated id. *)
Definition prisma_question_create (newId : string) (d : IQuestionCreate) : M Question :=
  fun st =>
    if existsb (fun q => bool_decide (q_id q = newId)) (questions st)
    then (st, Err (PrismaClientKnownRequestError "P2002"))
    else
      let row :=
        {| q_id := newId;
           q_quizId := qc_quizId d;
           q_text := qc_text d;
           q_options := qc_options d;
           q_answer := qc_answer d;
           q_difficulty := qc_difficulty d;
           q_points := default 1 (qc_points d) |} in
      (set_questions st (questions st ++ [row]), Ok row).

Definition addQuestion (newId : string) (questionData : IQuestionCreate) : M Question :=
  match validate_questionCreate questionData with
  | Err e => throw e
  | Ok validatedData =>
      let* quiz := prisma_quiz_find (qc_quizId validatedData) in
      match quiz with
      | None => throw quiz_not_found
      | Some _ =>
          let* question := prisma_question_create newId validatedData in
          ret question
      end
  end.

(** [prisma.quizAttempt.findMany({ where: { quizId } })] *)
Definition prisma_quizAttempt_findMany (quizId : string) : M (list QuizAttempt) :=
  fun st =>
    (st, Ok (List.filter (fun a => bool_decide (att_quizId a = quizId)) (attempt_rows st))).

(** [prisma.question.deleteMany({ where: { quizId } })] *)
Definition prisma_question_deleteMany (quizId : string) : M unit :=
  fun st =>
    (set_questions st
       (List.filter (fun q => negb (bool_decide (q_quizId q = quizId))) (questions st)),
     Ok tt).

(** [prisma.quiz.delete({ where: { id } })] *)
Definition prisma_quiz_delete (quizId : string) : M unit :=
  fun st =>
    match quizzes st !! quizId with
    | None => (st, Err (PrismaClientKnownRequestError "P2025"))
    | Some _ => (set_quizzes st (delete quizId (quizzes st)), Ok tt)
    end.

Definition quiz_has_attempts : Error :=
  CustomError "Cannot delete quiz with existing attempts" 400.

Definition deleteQuiz (quizId : string) : M string :=
  let* found := prisma_quizAttempt_findMany quizId in
  if (0 <? length found)%nat
  then throw quiz_has_attempts
  else
    let* _ := prisma_question_deleteMany quizId in
    let* _ := prisma_quiz_delete quizId in
    ret "Quiz deleted successfully".

(** *** Sequences of service calls *)

(** One call of a service operation that writes to the three tables, with
    the clock readings and generated ids it consumes. *)
Inductive Op : Type :=
| OpCreateQuiz (row : Quiz)
| OpUpdateQuiz (quizId : string) (updateData : IQuizUpdate)
| OpScheduleQuiz (quizId : string) (startTime endTime durationMins : Z)
| OpAddQuestion (newId : string) (questionData : IQuestionCreate)
| OpDeleteQuiz (quizId : string)
| OpStart (now startedAt : Z) (newId quizId studentId : string)
| OpSubmit (dateNow submittedAt : Z) (attemptId : string)
    (answers : gmap string JSValue) (studentId : string).

(** The store a call leaves behind, whether it returns or throws. *)
Definition exec (op : Op) (st : Store) : Store :=
  match op with
  | OpCreateQuiz row => (prisma_quiz_create row st).1
  | OpUpdateQuiz quizId d => (updateQuiz quizId d st).1
  | OpScheduleQuiz quizId s e d => (scheduleQuiz quizId s e d st).1
  | OpAddQuestion newId d => (addQuestion newId d st).1
  | OpDeleteQuiz quizId => (deleteQuiz quizId st).1
  | OpStart now startedAt newId quizId studentId =>
      (startQuizAttempt now startedAt newId quizId studentId st).1
  | OpSubmit dateNow submittedAt attemptId answers studentId =>
      (submitQuizAttempt dateNow submittedAt attemptId answers studentId st).1
  end.

Definition run (ops : list Op) (st : Store) : Store :=
  fold_left (fun s op => exec op s) ops st.

Definition is_start (op : Op) : bool :=
  match op with OpStart _ _ _ _ _ => true | _ => false end.

(** Whether the call is a [submitQuizAttempt] on [attemptId] that returns. *)
Definition submit_succeeds (attemptId : string) (op : Op) (st : Store) : bool :=
  match op with
  | OpSubmit dateNow submittedAt i answers studentId =>
      bool_decide (i = attemptId)
      && is_ok (submitQuizAttempt dateNow submittedAt i answers studentId st).2
  | _ => false
  end.

(** How many calls of the sequence, run one after the other, are returning
    submissions of [attemptId]. *)
Fixpoint submit_successes (attemptId : string) (ops : list Op) (st : Store) : nat :=
  match ops with
  | [] => 0
  | op :: rest =>
      ((if submit_succeeds attemptId op st then 1 else 0)
       + submit_successes attemptId rest (exec op st))%nat
  end.

(** *** Invariants of the store *)

(** At most one attempt in progress for each quiz and student. *)
Definition at_most_one_active (st : Store) : Prop :=
  forall i j a b,
    attempts st !! i = Some a -> attempts st !! j = Some b ->
    att_quizId a = att_quizId b -> att_studentId a = att_studentId b ->
    att_completed a = false -> att_completed b = false ->
    i = j.

(** Every stored question carries between 1 and 10 points. *)
Definition points_in_range (st : Store) : Prop :=
  Forall (fun q => 1 <= q_points q <= 10) (questions st).

(** The questions whose submitted answer is the expected one. *)
Definition answered_correctly (answers : gmap string JSValue) (qs : list Question)
  : list Question :=
  List.filter (fun q => strict_eq_string (get answers (q_id q)) (q_answer q)) qs.

(** [round(100 * score / maxScore)] over the rationals, ties upwards, for
    [0 < maxScore]: the integer [floor (100 * score / maxScore + 1/2)]. *)
Definition exact_percentage (score maxScore : Z) : Z :=
  (200 * score + maxScore) `div` (2 * maxScore).

(** Whether [percentage] is the exactly rounded quotient for every
    [maxScore] from 1 to [bound] and every score from 0 to [maxScore]. *)
Definition percentage_exact_upto (bound : Z) : bool :=
  forallb
    (fun maxScore =>
       forallb
         (fun score =>
            bool_decide (percentage score maxScore
                         = number_of_Z (exact_percentage score maxScore)))
         (seqZ 0 (maxScore + 1)))
    (seqZ 1 bound).

(** Two question rows that differ at most in [answer]. *)
Definition same_but_answer (q1 q2 : Question) : Prop :=
  q_id q1 = q_id q2 /\ q_quizId q1 = q_quizId q2 /\ q_text q1 = q_text q2
  /\ q_options q1 = q_options q2 /\ q_difficulty q1 = q_difficulty q2
  /\ q_points q1 = q_points q2.

Definition same_but_answers (st1 st2 : Store) : Prop :=
  quizzes st1 = quizzes st2 /\ attempts st1 = attempts st2
  /\ Forall2 same_but_answer (questions st1) (questions st2).

End QuizService.

(** ** Concurrent calls of startQuizAttempt

    An [async] function runs without interruption from one [await] to the
    next, and each awaited Prisma call is one operation of the database.
    A call of [startQuizAttempt] is therefore a sequence of three steps, one
    per awaited call, and concurrent calls interleave step by step. *)

Module Interleaving.
Import Js QuizService.

(** The arguments of a call, with the clock readings and the generated id
    it will consume. *)
Record StartCall : Type := mkStartCall {
  call_now : Z;
  call_startedAt : Z;
  call_newId : string;
  call_quizId : string;
  call_studentId : string
}.

(** Where a call stands: before each of its three awaited calls, with the
    local variables alive at that point, or returned. *)
Inductive StartState : Type :=
| AtFindQuiz
| AtFindFirst (quiz : Quiz) (qs : list Question)
| AtCreate (quiz : Quiz) (qs : list Question)
| Returned (r : Result StartResult).

(** The awaited call the state stands before, followed by the code up to
    the next [await]. *)
Definition start_step (c : StartCall) (s : StartState) (st : Store)
  : Store * StartState :=
  match s with
  | AtFindQuiz =>
      match prisma_quiz_findUnique (call_quizId c) st with
      | (st', Err e) => (st', Returned (Err e))
      | (st', Ok None) => (st', Returned (Err quiz_not_found))
      | (st', Ok (Some (quiz, qs))) =>
          if (call_now c <? quiz_startTime quiz) || (call_now c >? quiz_endTime quiz)
          then (st', Returned (Err quiz_not_active))
          else (st', AtFindFirst quiz qs)
      end
  | AtFindFirst quiz qs =>
      match prisma_quizAttempt_findFirst (call_quizId c) (call_studentId c) st with
      | (st', Err e) => (st', Returned (Err e))
      | (st', Ok (Some _)) => (st', Returned (Err attempt_already_active))
      | (st', Ok None) => (st', AtCreate quiz qs)
      end
  | AtCreate quiz qs =>
      let maxScore := total_points qs in
      match prisma_quizAttempt_create
              (new_attempt (call_newId c) (call_quizId c) (call_studentId c)
                 maxScore (call_startedAt c)) st with
      | (st', Err e) => (st', Returned (Err e))
      | (st', Ok attempt) =>
          (st', Returned (Ok {| start_attemptId := att_id attempt;
                                start_quiz := quiz_view quiz qs |}))
      end
  | Returned r => (st, Returned r)
  end.

(** The shared store and the calls in flight. *)
Record Pool : Type := mkPool {
  pool_store : Store;
  pool_calls : list (StartCall * StartState)
}.

(** The scheduler lets call number [i] take its next step. *)
Definition schedule_step (p : Pool) (i : nat) : Pool :=
  match pool_calls p !! i with
  | None => p
  | Some (c, s) =>
      let next := start_step c s (pool_store p) in
      {| pool_store := next.1;
         pool_calls := <[i := (c, next.2)]> (pool_calls p) |}
  end.

Definition run_schedule (schedule : list nat) (p : Pool) : Pool :=
  fold_left schedule_step schedule p.

Definition launch (st : Store) (calls : list StartCall) : Pool :=
  {| pool_store := st; pool_calls := List.map (fun c => (c, AtFindQuiz)) calls |}.

(** The calls that have returned without throwing. *)
Definition succeeded (p : Pool) : list StartCall :=
  List.map fst
    (List.filter (fun cs => match cs.2 with Returned (Ok _) => true | _ => false end)
       (pool_calls p)).

(** The calls that have thrown [e]. *)
Definition failed_with (e : Error) (p : Pool) : list StartCall :=
  List.map fst
    (List.filter
       (fun cs => match cs.2 with
                  | Returned (Err (CustomError m c)) =>
                      match e with
                      | CustomError m' c' => bool_decide (m = m') && (c =? c')
                      | _ => false
                      end
                  | _ => false
                  end)
       (pool_calls p)).

(** *** Concurrent calls of submitQuizAttempt

    A call of [submitQuizAttempt] awaits twice: [findUnique], after which
    the checks, the scoring loop and the reading of the clock run without
    interruption, and [update]. *)

Record SubmitCall : Type := mkSubmitCall {
  sub_dateNow : Z;
  sub_submittedAt : Z;
  sub_attemptId : string;
  sub_answers : gmap string JSValue;
  sub_studentId : string
}.

(** Before [findUnique], before [update] with the [data] it will write, or
    returned. *)
Inductive SubmitState : Type :=
| AtFindUnique
| AtUpdate (data : AttemptUpdate)
| SubmitReturned (r : Result SubmitResult).

Definition submit_step (c : SubmitCall) (s : SubmitState) (st : Store)
  : Store * SubmitState :=
  match s with
  | AtFindUnique =>
      match prisma_quizAttempt_findUnique (sub_attemptId c) st with
      | (st', Err e) => (st', SubmitReturned (Err e))
      | (st', Ok None) => (st', SubmitReturned (Err attempt_not_found))
      | (st', Ok (Some (attempt, qs))) =>
          if negb (bool_decide (att_studentId attempt = sub_studentId c))
          then (st', SubmitReturned (Err unauthorized_attempt))
          else if att_completed attempt
          then (st', SubmitReturned (Err attempt_already_completed))
          else
            let scored := score_answers (sub_answers c) qs in
            let timeSpent :=
              floor_div (sub_dateNow c - att_startedAt attempt) (1000 * 60) in
            (st', AtUpdate {| upd_answers := scored.2;
                              upd_score := scored.1;
                              upd_completed := true;
                              upd_submittedAt := sub_submittedAt c;
                              upd_timeSpent := timeSpent |})
      end
  | AtUpdate data =>
      match prisma_quizAttempt_update (sub_attemptId c) data st with
      | (st', Err e) => (st', SubmitReturned (Err e))
      | (st', Ok updatedAttempt) =>
          (st', SubmitReturned
                  (Ok {| res_attemptId := att_id updatedAttempt;
                         res_score := att_score updatedAttempt;
                         res_maxScore := att_maxScore updatedAttempt;
                         res_percentage :=
                           percentage (att_score updatedAttempt)
                             (att_maxScore updatedAttempt);
                         res_timeSpent := att_timeSpent updatedAttempt;
                         res_completed := att_completed updatedAttempt |}))
      end
  | SubmitReturned r => (st, SubmitReturned r)
  end.

Record SubmitPool : Type := mkSubmitPool {
  spool_store : Store;
  spool_calls : list (SubmitCall * SubmitState)
}.

(** The scheduler lets submission number [i] take its next step. *)
Definition submit_schedule_step (p : SubmitPool) (i : nat) : SubmitPool :=
  match spool_calls p !! i with
  | None => p
  | Some (c, s) =>
      let next := submit_step c s (spool_store p) in
      {| spool_store := next.1;
         spool_calls := <[i := (c, next.2)]> (spool_calls p) |}
  end.

Definition run_submit_schedule (schedule : list nat) (p : SubmitPool) : SubmitPool :=
  fold_left submit_schedule_step schedule p.

Definition launch_submits (st : Store) (calls : list SubmitCall) : SubmitPool :=
  {| spool_store := st;
     spool_calls := List.map (fun c => (c, AtFindUnique)) calls |}.

(** What each submission has returned or thrown, if it is done. *)
Definition submit_outcomes (p : SubmitPool) : list (option (Result SubmitResult)) :=
  List.map (fun cs => match cs.2 with
                      | SubmitReturned r => Some r
                      | _ => None
                      end)
    (spool_calls p).

(** The submissions that have returned without throwing. *)
Definition submitted (p : SubmitPool) : list SubmitCall :=
  List.map fst
    (List.filter
       (fun cs => match cs.2 with SubmitReturned (Ok _) => true | _ => false end)
       (spool_calls p)).

End Interleaving.

(** ** Concrete scenarios *)

Module Scenario.
Import Js QuizService Interleaving.

Definition quizA_id : string := "cquiz00000000000000000001".

(** A quiz open from time 1000 to time 2000. *)
Definition quizA : Quiz :=
  {| quiz_id := quizA_id;
     quiz_title := "Sums";
     quiz_description := None;
     quiz_createdById := "teacher1";
     quiz_subjectId := "csubj00000000000000000001";
     quiz_institutionId := Some "cinst00000000000000000001";
     quiz_startTime := 1000;
     quiz_endTime := 2000;
     quiz_durationMins := 30 |}.

Definition ask (text answer : string) (points : Z) : IQuestionCreate :=
  {| qc_quizId := quizA_id;
     qc_text := text;
     qc_options := [answer; "none of these"];
     qc_answer := answer;
     qc_difficulty := "easy";
     qc_points := Some points |}.

(** The quiz of the scoring example: two questions worth 1 and 2 points,
    answered by 4 and 5. *)
Definition two_questions : Store :=
  run [OpCreateQuiz quizA;
       OpAddQuestion "q1" (ask "What is 2 + 2?" "4" 1);
       OpAddQuestion "q2" (ask "What is 2 + 3?" "5" 2)]
      empty_store.

Definition two_questions_started : Store :=
  exec (OpStart 1500 1501 "att1" quizA_id "stud1") two_questions.

Definition answers_4_6 : gmap string JSValue :=
  {[ "q1" := JString "4"; "q2" := JString "6" ]}.

Definition answers_4_5 : gmap string JSValue :=
  {[ "q1" := JString "4"; "q2" := JString "5" ]}.

(** A quiz started with one question, to which a second one is added while
    the attempt is in progress. *)
Definition grown_after_start : Store :=
  run [OpCreateQuiz quizA;
       OpAddQuestion "q1" (ask "What is 2 + 2?" "4" 1);
       OpStart 1500 1501 "att1" quizA_id "stud1";
       OpAddQuestion "q2" (ask "What is 2 + 3?" "5" 2)]
      empty_store.

(** A quiz started without any question. *)
Definition started_empty : Store :=
  run [OpCreateQuiz quizA;
       OpStart 1500 1501 "att1" quizA_id "stud1"]
      empty_store.

(** The same, with a question added while the attempt is in progress. *)
Definition started_empty_then_grown : Store :=
  exec (OpAddQuestion "q1" (ask "What is 2 + 2?" "4" 1)) started_empty.

(** A quiz of five questions worth 40 points in all, started. *)
Definition forty_points_started : Store :=
  run [OpCreateQuiz quizA;
       OpAddQuestion "q1" (ask "What is 1 + 1?" "2" 10);
       OpAddQuestion "q2" (ask "What is 1 + 2?" "3" 10);
       OpAddQuestion "q3" (ask "What is 1 + 3?" "4" 3);
       OpAddQuestion "q4" (ask "What is 1 + 4?" "5" 10);
       OpAddQuestion "q5" (ask "What is 1 + 5?" "6" 7);
       OpStart 1500 1501 "att1" quizA_id "stud1"]
      empty_store.

(** The first three answers right, the fourth wrong, the fifth missing. *)
Definition answers_23_of_40 : gmap string JSValue :=
  {[ "q1" := JString "2"; "q2" := JString "3"; "q3" := JString "4";
     "q4" := JString "7" ]}.

(** Two calls of the same student for the same quiz. *)
Definition call1 : StartCall := mkStartCall 1500 1501 "att1" quizA_id "stud1".
Definition call2 : StartCall := mkStartCall 1502 1503 "att2" quizA_id "stud1".

(** Two submissions of the same attempt by its student, the first with one
    right answer, the second with both. *)
Definition submit1 : SubmitCall := mkSubmitCall 70000 70001 "att1" answers_4_6 "stud1".
Definition submit2 : SubmitCall := mkSubmitCall 80000 80001 "att1" answers_4_5 "stud1".

(** The letter e with an acute accent, U+00E9: two bytes, one code unit. *)
Definition e_acute : string :=
  String (Ascii.ascii_of_nat 195) (String (Ascii.ascii_of_nat 169) EmptyString).

Fixpoint repeat_string (n : nat) (s : string) : string :=
  match n with
  | O => EmptyString
  | S n' => String.append s (repeat_string n' s)
  end.

Definition teacher : AuthUtils.IUser :=
  AuthUtils.mkUser "u1" "Tess" AuthUtils.TEACHER (Some "inst1") true.
Definition admin : AuthUtils.IUser :=
  AuthUtils.mkUser "u2" "Adam" AuthUtils.ADMIN (Some "inst1") true.
Definition super_admin : AuthUtils.IUser :=
  AuthUtils.mkUser "u0" "Sam" AuthUtils.SUPER_ADMIN None true.

End Scenario.

(** ** src/utils/auth.ts, continued, and middleware/auth.ts *)

Module AccessChecks.
Import AuthUtils.

(** What [canViewResults] reads of its second argument. *)
Record AttemptRef : Type := mkAttemptRef {
  ref_studentId : string;
  ref_institutionId : option string
}.

Definition canViewResults (user : IUser) (quizAttempt : AttemptRef) : bool :=
  if bool_decide (id user = ref_studentId quizAttempt) then true
  else if includes [ADMIN; TEACHER] (role user) then
    inst_eq (institutionId user) (ref_institutionId quizAttempt)
  else if includes [SUPER_ADMIN; GLOBAL_CONTENT_CREATOR] (role user) then true
  else false.

(** A string in a condition: the empty string is falsy. *)
Definition truthy (s : string) : bool := negb (String.length s =? 0)%nat.

(** [authHeader.substring(7)] *)
Definition substring_from (n : nat) (s : string) : string :=
  String.substring n (String.length s - n) s.

Definition extractTokenFromHeader (authHeader : option string) : option string :=
  match authHeader with
  | None => None
  | Some h =>
      if negb (truthy h) || negb (String.prefix "Bearer " h) then None
      else Some (substring_from 7 h)
  end.

(** What a middleware does: hand over to the next handler, or answer with
    a status and a message. *)
Inductive Outcome (A : Type) : Type :=
| Next (a : A)
| Respond (status : Z) (message : string).
Arguments Next {A} a.
Arguments Respond {A} status message.

Record IJWTPayload : Type := mkPayload {
  payload_userId : string;
  payload_role : Role;
  payload_institutionId : option string
}.

(** [authenticate].  [verifyToken] is [AuthUtils.verifyToken] ([None] when
    it throws) and [findUser] the lookup [prisma.user.findUnique] by id; the
    outcome [Next user] stands for [req.user = user; next()]. *)
Definition authenticate (verifyToken : string -> option IJWTPayload)
    (findUser : string -> option IUser) (authorization : option string)
  : Outcome IUser :=
  match extractTokenFromHeader authorization with
  | None => Respond 401 "Access token is required"
  | Some token =>
      if negb (truthy token) then Respond 401 "Access token is required"
      else
        match verifyToken token with
        | None => Respond 401 "Invalid or expired token"
        | Some payload =>
            match findUser (payload_userId payload) with
            | None => Respond 401 "User not found"
            | Some user =>
                if negb (approved user)
                then Respond 403 "Account is pending approval"
                else Next user
            end
        end
  end.

(** [IAuthMiddlewareOptions]: each option may be left out. *)
Record IAuthMiddlewareOptions : Type := mkOptions {
  requiredRoles : option (list Role);
  requireApproval : option bool;
  requireInstitution : option bool
}.

Definition no_options : IAuthMiddlewareOptions := mkOptions None None None.

(** [req.user.institutionId] in a condition. *)
Definition has_institution (u : IUser) : bool :=
  match institutionId u with
  | Some i => truthy i
  | None => false
  end.

Definition authorize (options : IAuthMiddlewareOptions) (user : option IUser)
  : Outcome unit :=
  let roles := default [] (requiredRoles options) in
  let approval := default true (requireApproval options) in
  let institution := default false (requireInstitution options) in
  match user with
  | None => Respond 401 "Authentication required"
  | Some u =>
      if (0 <? length roles)%nat && negb (hasRole u roles)
      then Respond 403 "Insufficient permissions"
      else if approval && negb (approved u)
      then Respond 403 "Account is pending approval"
      else if institution && negb (has_institution u)
      then Respond 403 "Institution access required"
      else Next tt
  end.

Definition requireQuizCreationAccess (user : option IUser) : Outcome unit :=
  match user with
  | None => Respond 401 "Authentication required"
  | Some u =>
      if negb (canCreateQuiz u) then Respond 403 "Cannot create quizzes"
      else Next tt
  end.

Definition requireQuizParticipationAccess (user : option IUser) : Outcome unit :=
  match user with
  | None => Respond 401 "Authentication required"
  | Some u =>
      if negb (canTakeQuiz u) then Respond 403 "Cannot participate in quizzes"
      else Next tt
  end.

(** The roles the route [GET /quizzes/:id/statistics] asks [authorize] for. *)
Definition statistics_options : IAuthMiddlewareOptions :=
  mkOptions (Some [SUPER_ADMIN; GLOBAL_CONTENT_CREATOR; ADMIN; TEACHER]) None None.

End AccessChecks.

(** ** middleware/errorHandler.ts *)

Module ErrorHandler.
Import QuizService.

(** What can reach [errorHandler]: an error of the services ([CustomError],
    the plain [Error] of [validateSchema], whose [name] is "Error", or a
    Prisma known-request error), or one of the other kinds it tells apart. *)
Inductive Thrown : Type :=
| FromService (e : Error)
| PrismaClientValidationError
| JsonWebTokenError
| TokenExpiredError
| NamedValidationError (message : string)
| JsonSyntaxError
| OtherError (message : string).

Record Handled : Type := mkHandled {
  handled_status : Z;
  handled_message : string;
  handled_operational : bool
}.

Definition errorHandler (error : Thrown) : Handled :=
  match error with
  | FromService (CustomError message statusCode) =>
      mkHandled statusCode message true
  | FromService (PrismaClientKnownRequestError code) =>
      if bool_decide (code = "P2002")
      then mkHandled 409 "A record with this unique field already exists" true
      else if bool_decide (code = "P2025")
      then mkHandled 404 "Record not found" true
      else if bool_decide (code = "P2003")
      then mkHandled 400 "Invalid foreign key reference" true
      else if bool_decide (code = "P2014")
      then mkHandled 400 "Invalid ID format" true
      else mkHandled 400 "Database operation failed" true
  | PrismaClientValidationError => mkHandled 400 "Invalid data provided" true
  | JsonWebTokenError => mkHandled 401 "Invalid token" true
  | TokenExpiredError => mkHandled 401 "Token expired" true
  | NamedValidationError message => mkHandled 400 message true
  | JsonSyntaxError => mkHandled 400 "Invalid JSON syntax" true
  | FromService (ValidationError _) | OtherError _ =>
      mkHandled 500 "Internal server error" false
  end.

End ErrorHandler.

(** ** services/quizService.ts: getQuizResults *)

Module QuizResults.
Import Js AuthUtils QuizService.

(** The columns of the attempt's student that the query selects. *)
Record StudentInfo : Type := mkStudentInfo {
  student_id : string;
  student_name : string;
  student_phoneNumber : string
}.

(** An attempt with its included [student]. *)
Record AttemptWithStudent : Type := mkWithStudent {
  with_attempt : QuizAttempt;
  with_student : option StudentInfo
}.

(** The [quiz] part of the result; the two totals are present in the
    answer to staff only. *)
Record ResultsQuiz : Type := mkResultsQuiz {
  rq_id : string;
  rq_title : string;
  rq_description : option string;
  rq_totalQuestions : option nat;
  rq_totalPoints : option Z
}.

Record Statistics : Type := mkStatistics {
  stat_totalAttempts : nat;
  stat_averageScore : spec_float;
  stat_completionRate : spec_float
}.

Record Results : Type := mkResults {
  results_quiz : ResultsQuiz;
  results_attempts : list AttemptWithStudent;
  results_statistics : option Statistics
}.

(** The attempts that [include: { attempts: ... }] loads with a quiz. *)
Definition attempts_of (st : Store) (quizId : string) : list QuizAttempt :=
  List.filter (fun a => bool_decide (att_quizId a = quizId)) (attempt_rows st).

Definition number_of_nat (n : nat) : spec_float := number_of_Z (Z.of_nat n).

(** [attempts.reduce((sum, a) => sum + a.score, 0)] *)
Definition total_score (l : list AttemptWithStudent) : Z :=
  fold_left (fun sum a => sum + att_score (with_attempt a)) l 0.

Definition statistics (l : list AttemptWithStudent) : Statistics :=
  {| stat_totalAttempts := length l;
     stat_averageScore :=
       if (0 <? length l)%nat
       then Math_round (div (number_of_Z (total_score l)) (number_of_nat (length l)))
       else number_of_Z 0;
     stat_completionRate :=
       if (0 <? length l)%nat
       then Math_round
              (mul (div (number_of_nat
                           (length (List.filter
                                      (fun a => att_completed (with_attempt a)) l)))
                        (number_of_nat (length l)))
                   (number_of_Z 100))
       else number_of_Z 0 |}.

Definition no_attempt_found : Error :=
  CustomError "No attempt found for this quiz" 404.

(** [students] is the lookup of the included [student] in the user table,
    restricted to the selected columns. *)
Definition getQuizResults (students : string -> option StudentInfo)
    (quizId userId : string) (userRole : Role) : M Results :=
  fun st =>
    match quizzes st !! quizId with
    | None => (st, Err quiz_not_found)
    | Some quiz =>
        let attempts :=
          List.map (fun a => mkWithStudent a (students (att_studentId a)))
            (attempts_of st quizId) in
        let qs := questions_of st quizId in
        let canViewAll :=
          includes [SUPER_ADMIN; GLOBAL_CONTENT_CREATOR; ADMIN; TEACHER] userRole in
        let isCreator := bool_decide (quiz_createdById quiz = userId) in
        if negb canViewAll && negb isCreator
        then
          match List.find
                  (fun a => bool_decide (att_studentId (with_attempt a) = userId))
                  attempts with
          | None => (st, Err no_attempt_found)
          | Some studentAttempt =>
              (st, Ok {| results_quiz :=
                           mkResultsQuiz (quiz_id quiz) (quiz_title quiz)
                             (quiz_description quiz) None None;
                         results_attempts := [studentAttempt];
                         results_statistics := None |})
          end
        else
          (st, Ok {| results_quiz :=
                       mkResultsQuiz (quiz_id quiz) (quiz_title quiz)
                         (quiz_description quiz) (Some (length qs))
                         (Some (total_points qs));
                     results_attempts := attempts;
                     results_statistics := Some (statistics attempts) |})
    end.

End QuizResults.

(** ** services/authService.ts: one-time passwords *)

Module OtpService.
Import QuizService.

Record OTP : Type := mkOTP {
  otp_id : string;
  otp_phoneNumber : string;
  otp_code : string;
  otp_expiresAt : Z
}.

(** The [oTP] table is a map from its unique key [phoneNumber] to rows. *)

Definition is_digit (c : ascii) : bool :=
  let n := Ascii.nat_of_ascii c in ((48 <=? n) && (n <=? 57))%nat.

Definition is_digit_1_9 (c : ascii) : bool :=
  let n := Ascii.nat_of_ascii c in ((49 <=? n) && (n <=? 57))%nat.

(** The pattern [/^\+?[1-9]\d{1,14}$/]. *)
Definition matches_phone (s : string) : bool :=
  let body :=
    match s with
    | String c rest => if bool_decide (c = "+"%char) then rest else s
    | EmptyString => s
    end in
  match body with
  | String c rest =>
      is_digit_1_9 c
      && (1 <=? String.length rest)%nat && (String.length rest <=? 14)%nat
      && forallb is_digit (String.list_ascii_of_string rest)
  | EmptyString => false
  end.

(** The pattern [/^\d{6}$/]. *)
Definition matches_six_digits (s : string) : bool :=
  (String.length s =? 6)%nat && forallb is_digit (String.list_ascii_of_string s).

(** The rules of [validationSchemas.otpVerification] an input can violate. *)
Definition otpVerification_violations (phoneNumber code : string) : list string :=
  (if (String.length phoneNumber =? 0)%nat then ["phoneNumber: string.empty"]
   else if matches_phone phoneNumber then []
   else ["phoneNumber: string.pattern.base"])
  ++ (if (String.length code =? 0)%nat then ["code: string.empty"]
      else (if (Js.js_length code =? 6)%nat then [] else ["code: string.length"])
           ++ (if matches_six_digits code then [] else ["code: string.pattern.base"])).

Definition validate_otpVerification (phoneNumber code : string) : Result (string * string) :=
  match otpVerification_violations phoneNumber code with
  | [] => Ok (phoneNumber, code)
  | violations => Err (ValidationError violations)
  end.

(** [now] is the reading of [Date.now()], [otpCode] the code drawn by
    [AuthUtils.generateOTP], [newId] the id of a created row. *)
Definition sendOTP (now : Z) (otpCode newId : string) (phoneNumber : string)
    (table : gmap string OTP) : gmap string OTP * Result string :=
  match validate_otpVerification phoneNumber "000000" with
  | Err e => (table, Err e)
  | Ok (validPhone, _) =>
      let expiresAt := now + 10 * 60 * 1000 in
      match table !! validPhone with
      | Some row =>
          (<[validPhone := mkOTP (otp_id row) (otp_phoneNumber row) otpCode expiresAt]>
             table,
           Ok "OTP sent successfully")
      | None =>
          if existsb (fun row => bool_decide (otp_id row = newId)) (map_to_list table).*2
          then (table, Err (PrismaClientKnownRequestError "P2002"))
          else
            (<[validPhone := mkOTP newId validPhone otpCode expiresAt]> table,
             Ok "OTP sent successfully")
      end
  end.

(** [prisma.oTP.delete({ where: { id } })] on a table that holds the row. *)
Definition delete_by_id (rowId : string) (table : gmap string OTP) : gmap string OTP :=
  filter (fun kv => otp_id kv.2 <> rowId) table.

Definition otp_not_found : Error := CustomError "OTP not found or expired" 400.
Definition otp_expired : Error := CustomError "OTP has expired" 400.
Definition otp_invalid : Error := CustomError "Invalid OTP code" 400.

(** [now] is the reading of [new Date()]. *)
Definition verifyOTP (now : Z) (phoneNumber code : string)
    (table : gmap string OTP) : gmap string OTP * Result string :=
  match validate_otpVerification phoneNumber code with
  | Err e => (table, Err e)
  | Ok (validPhone, validCode) =>
      match table !! validPhone with
      | None => (table, Err otp_not_found)
      | Some otpRecord =>
          if now >? otp_expiresAt otpRecord
          then (delete_by_id (otp_id otpRecord) table, Err otp_expired)
          else if negb (bool_decide (otp_code otpRecord = validCode))
          then (table, Err otp_invalid)
          else (delete_by_id (otp_id otpRecord) table, Ok "OTP verified successfully")
      end
  end.

End OtpService.

(** ** References between the tables *)

Module Integrity.
Import QuizService.

(** Every question and every attempt belongs to a stored quiz. *)
Definition references_kept (st : Store) : Prop :=
  Forall (fun q => is_Some (quizzes st !! q_quizId q)) (questions st)
  /\ forall i a, attempts st !! i = Some a -> is_Some (quizzes st !! att_quizId a).

End Integrity.

(** ** services/authService.ts: login and profile *)

Module Accounts.
Import AuthUtils AccessChecks QuizService.

(** A row of the user table; [createdAt] and [updatedAt] are left out. *)
Record User : Type := mkUserRow {
  user_id : string;
  user_phoneNumber : string;
  user_email : option string;
  user_name : string;
  user_password : string;
  user_role : Role;
  user_institutionId : option string;
  user_approved : bool;
  user_profilePic : option string
}.

(** The user as the services return it: every column but [password]. *)
Record PublicUser : Type := mkPublicUser {
  pub_id : string;
  pub_phoneNumber : string;
  pub_email : option string;
  pub_name : string;
  pub_role : Role;
  pub_institutionId : option string;
  pub_approved : bool;
  pub_profilePic : option string
}.

Definition public (u : User) : PublicUser :=
  {| pub_id := user_id u;
     pub_phoneNumber := user_phoneNumber u;
     pub_email := user_email u;
     pub_name := user_name u;
     pub_role := user_role u;
     pub_institutionId := user_institutionId u;
     pub_approved := user_approved u;
     pub_profilePic := user_profilePic u |}.

(** The rules of [validationSchemas.userLogin] an input can violate. *)
Definition userLogin_violations (phoneNumber password : string) : list string :=
  (if (String.length phoneNumber =? 0)%nat then ["phoneNumber: string.empty"]
   else if OtpService.matches_phone phoneNumber then []
   else ["phoneNumber: string.pattern.base"])
  ++ (if (String.length password =? 0)%nat then ["password: string.empty"] else []).

Definition invalid_credentials : Error :=
  CustomError "Invalid phone number or password" 401.
Definition pending_approval : Error :=
  CustomError "Account is pending approval" 403.

(** [login].  [comparePassword] is [AuthUtils.comparePassword] (bcrypt) and
    [generateToken] is [AuthUtils.generateToken]; the user table is read
    through its unique [phoneNumber]. *)
Definition login (comparePassword : string -> string -> bool)
    (generateToken : IJWTPayload -> string)
    (phoneNumber password : string) (users : list User)
  : Result (PublicUser * string) :=
  match userLogin_violations phoneNumber password with
  | violation :: more => Err (ValidationError (violation :: more))
  | [] =>
      match List.find (fun u => bool_decide (user_phoneNumber u = phoneNumber)) users with
      | None => Err invalid_credentials
      | Some user =>
          if negb (user_approved user) then Err pending_approval
          else if negb (comparePassword password (user_password user))
          then Err invalid_credentials
          else
            Ok (public user,
                generateToken
                  {| payload_userId := user_id user;
                     payload_role := user_role user;
                     payload_institutionId := user_institutionId user |})
      end
  end.

(** [Partial<IUser>] as [updateProfile] receives it, with the [password] a
    caller may add. *)
Record ProfileUpdate : Type := mkProfileUpdate {
  pu_id : option string;
  pu_phoneNumber : option string;
  pu_email : option string;
  pu_name : option string;
  pu_role : option Role;
  pu_institutionId : option string;
  pu_approved : option bool;
  pu_profilePic : option string;
  pu_password : option string
}.

(** The update applied to the row: [id], [phoneNumber], [role] and
    [approved] of the payload are dropped, a non-empty [password] is
    hashed. *)
Definition apply_profile_update (hashPassword : string -> string)
    (d : ProfileUpdate) (u : User) : User :=
  {| user_id := user_id u;
     user_phoneNumber := user_phoneNumber u;
     user_email := match pu_email d with Some e => Some e | None => user_email u end;
     user_name := default (user_name u) (pu_name d);
     user_password :=
       match pu_password d with
       | Some p => if truthy p then hashPassword p else p
       | None => user_password u
       end;
     user_role := user_role u;
     user_institutionId :=
       match pu_institutionId d with
       | Some i => Some i
       | None => user_institutionId u
       end;
     user_approved := user_approved u;
     user_profilePic :=
       match pu_profilePic d with
       | Some i => Some i
       | None => user_profilePic u
       end |}.

(** [updateProfile]; [hashPassword] is [AuthUtils.hashPassword] with the
    salt it draws. *)
Definition updateProfile (hashPassword : string -> string)
    (userId : string) (updateData : ProfileUpdate) (users : list User)
  : list User * Result PublicUser :=
  match List.find (fun u => bool_decide (user_id u = userId)) users with
  | None => (users, Err (PrismaClientKnownRequestError "P2025"))
  | Some row =>
      let updatedUser := apply_profile_update hashPassword updateData row in
      (List.map (fun u => if bool_decide (user_id u = userId)
                          then apply_profile_update hashPassword updateData u
                          else u) users,
       Ok (public updatedUser))
  end.

End Accounts.

(** * Properties *)

(** ** Access control *)

Section AccessControl.
Import AuthUtils.

Lemma role_eq_true a b : role_eq a b = true <-> a = b.
Proof. unfold role_eq. apply bool_decide_eq_true. Qed.

Lemma inst_eq_true a b : inst_eq a b = true <-> a = b.
Proof. unfold inst_eq. apply bool_decide_eq_true. Qed.

(** C1. [canAccessInstitution] is true for a SUPER_ADMIN and for a
    GLOBAL_CONTENT_CREATOR whatever the institution; for every other role
    it is true exactly when the user's own institution is the requested
    one. *)
Theorem canAccessInstitution_spec (user : IUser) (institution : string) :
  (role user = SUPER_ADMIN \/ role user = GLOBAL_CONTENT_CREATOR ->
     canAccessInstitution user institution = true)
  /\ (role user <> SUPER_ADMIN -> role user <> GLOBAL_CONTENT_CREATOR ->
        (canAccessInstitution user institution = true
         <-> institutionId user = Some institution)).
Proof.
  unfold canAccessInstitution. split.
  - intros [-> | ->]; reflexivity.
  - intros Hsa Hgcc.
    destruct (role user) eqn:Hr; try congruence; cbn; apply inst_eq_true.
Qed.

(** A TEACHER reaches the own institution only; a SUPER_ADMIN any. *)
Lemma canAccessInstitution_spec_witness :
  canAccessInstitution Scenario.super_admin "inst1" = true
  /\ (canAccessInstitution Scenario.teacher "inst1" = true
      <-> Some "inst1" = Some "inst1").
Proof.
  split.
  - apply (proj1 (canAccessInstitution_spec Scenario.super_admin "inst1")).
    left; reflexivity.
  - apply (proj2 (canAccessInstitution_spec Scenario.teacher "inst1"));
      cbn; discriminate.
Defined.

(** C8. [canManageUsers] never answers true for a target whose role ranks
    strictly above the user's; a STUDENT manages nobody, a TEACHER only
    STUDENTs of the same institution, an ADMIN only ADMIN, TEACHER and
    STUDENT users of the same institution, a GLOBAL_CONTENT_CREATOR never a
    SUPER_ADMIN; and the function agrees everywhere with the rule table in
    which the first matching role branch decides alone. *)
Theorem canManageUsers_respects_rank (user targetUser : IUser) :
  ((rank (role user) < rank (role targetUser))%nat ->
     canManageUsers user targetUser = false)
  /\ (role user = STUDENT -> canManageUsers user targetUser = false)
  /\ (role user = TEACHER ->
        (canManageUsers user targetUser = true
         <-> institutionId user = institutionId targetUser
             /\ role targetUser = STUDENT))
  /\ (role user = ADMIN ->
        (canManageUsers user targetUser = true
         <-> institutionId user = institutionId targetUser
             /\ (role targetUser = ADMIN \/ role targetUser = TEACHER
                 \/ role targetUser = STUDENT)))
  /\ (role user = GLOBAL_CONTENT_CREATOR -> role targetUser = SUPER_ADMIN ->
        canManageUsers user targetUser = false)
  /\ canManageUsers user targetUser = canManageUser_by_role user targetUser.
Proof.
  unfold canManageUsers, canManageUser_by_role.
  destruct user as [i n r io a], targetUser as [i' n' r' io' a']; cbn.
  repeat split.
  - destruct r, r'; cbn; intros H; try lia; try reflexivity;
      destruct (inst_eq io io'); reflexivity.
  - intros ->; reflexivity.
  - subst r. cbn in *. destruct (inst_eq io io') eqn:E; [|discriminate].
    now apply inst_eq_true.
  - subst r. cbn in *. destruct (inst_eq io io'); [|discriminate].
    now apply role_eq_true.
  - subst r. cbn. intros [E ->]. apply inst_eq_true in E. now rewrite E.
  - subst r. cbn in *. destruct (inst_eq io io') eqn:E; [|discriminate].
    now apply inst_eq_true.
  - subst r. cbn in *. destruct (inst_eq io io'); [|discriminate].
    destruct r'; cbn in *; try discriminate; auto.
  - subst r. cbn. intros [E Hr]. apply inst_eq_true in E. rewrite E.
    destruct Hr as [-> | [-> | ->]]; reflexivity.
  - intros -> ->; reflexivity.
  - destruct r; cbn; try reflexivity; destruct (inst_eq io io'); reflexivity.
Qed.

(** A TEACHER cannot manage an ADMIN of the same institution. *)
Lemma canManageUsers_respects_rank_witness :
  canManageUsers Scenario.teacher Scenario.admin = false.
Proof.
  apply (proj1 (canManageUsers_respects_rank Scenario.teacher Scenario.admin)).
  cbn. lia.
Defined.

End AccessControl.

(** ** The attempt lifecycle, one call at a time *)

Section Lifecycle.
Import Js QuizService.

(** *** The two service calls, unfolded *)

Lemma startQuizAttempt_unfold now startedAt newId quizId studentId st :
  startQuizAttempt now startedAt newId quizId studentId st =
  match quizzes st !! quizId with
  | None => (st, Err quiz_not_found)
  | Some quiz =>
      if (now <? quiz_startTime quiz) || (now >? quiz_endTime quiz)
      then (st, Err quiz_not_active)
      else
        match List.find (is_active_for quizId studentId) (attempt_rows st) with
        | Some _ => (st, Err attempt_already_active)
        | None =>
            match attempts st !! newId with
            | Some _ => (st, Err (PrismaClientKnownRequestError "P2002"))
            | None =>
                (set_attempts st
                   (<[newId := new_attempt newId quizId studentId
                                 (total_points (questions_of st quizId)) startedAt]>
                      (attempts st)),
                 Ok {| start_attemptId := newId;
                       start_quiz := quiz_view quiz (questions_of st quizId) |})
            end
        end
  end.
Proof.
  unfold startQuizAttempt, bind, prisma_quiz_findUnique. cbn.
  destruct (quizzes st !! quizId) as [quiz|]; [|reflexivity].
  destruct ((now <? quiz_startTime quiz) || (now >? quiz_endTime quiz));
    [reflexivity|].
  unfold prisma_quizAttempt_findFirst.
  destruct (List.find _ _); [reflexivity|].
  unfold prisma_quizAttempt_create, new_attempt at 1. cbn.
  destruct (attempts st !! newId); reflexivity.
Qed.

Lemma submitQuizAttempt_unfold dateNow submittedAt attemptId answers studentId st :
  submitQuizAttempt dateNow submittedAt attemptId answers studentId st =
  match attempts st !! attemptId with
  | None => (st, Err attempt_not_found)
  | Some a =>
      if negb (bool_decide (att_studentId a = studentId))
      then (st, Err unauthorized_attempt)
      else if att_completed a then (st, Err attempt_already_completed)
      else
        let scored := score_answers answers (questions_of st (att_quizId a)) in
        let a' :=
          apply_update
            {| upd_answers := scored.2;
               upd_score := scored.1;
               upd_completed := true;
               upd_submittedAt := submittedAt;
               upd_timeSpent := floor_div (dateNow - att_startedAt a) (1000 * 60) |}
            a in
        (set_attempts st (<[attemptId := a']> (attempts st)),
         Ok {| res_attemptId := att_id a;
               res_score := scored.1;
               res_maxScore := att_maxScore a;
               res_percentage := percentage scored.1 (att_maxScore a);
               res_timeSpent := Some (floor_div (dateNow - att_startedAt a) (1000 * 60));
               res_completed := true |})
  end.
Proof.
  unfold submitQuizAttempt, bind, prisma_quizAttempt_findUnique. cbn.
  destruct (attempts st !! attemptId) as [a|] eqn:Ha; [|reflexivity].
  destruct (negb (bool_decide (att_studentId a = studentId))); [reflexivity|].
  destruct (att_completed a); [reflexivity|].
  unfold prisma_quizAttempt_update. rewrite Ha. reflexivity.
Qed.

(** *** Reading the attempt table *)

Lemma attempt_rows_In st a :
  In a (attempt_rows st) <-> exists i, attempts st !! i = Some a.
Proof.
  unfold attempt_rows. rewrite <- list_elem_of_In, list_elem_of_fmap. split.
  - intros [[i b] [-> Hin]]. exists i. now apply elem_of_map_to_list in Hin.
  - intros [i Hi]. exists (i, a). split; [reflexivity|].
    now apply elem_of_map_to_list.
Qed.

Lemma find_active_None st quizId studentId :
  List.find (is_active_for quizId studentId) (attempt_rows st) = None
  <-> forall i a, attempts st !! i = Some a -> is_active_for quizId studentId a = false.
Proof.
  split.
  - intros Hnone i a Hi.
    apply (find_none _ _ Hnone). apply attempt_rows_In. eauto.
  - intros Hall. destruct (List.find _ _) as [a|] eqn:Hf; [|reflexivity].
    apply find_some in Hf as [Hin Hact].
    apply attempt_rows_In in Hin as [i Hi].
    rewrite (Hall i a Hi) in Hact. discriminate.
Qed.

Lemma find_active_Some st quizId studentId a :
  List.find (is_active_for quizId studentId) (attempt_rows st) = Some a ->
  exists i, attempts st !! i = Some a /\ is_active_for quizId studentId a = true.
Proof.
  intros Hf. apply find_some in Hf as [Hin Hact].
  apply attempt_rows_In in Hin as [i Hi]. eauto.
Qed.

Lemma is_active_for_true quizId studentId a :
  is_active_for quizId studentId a = true
  <-> att_quizId a = quizId /\ att_studentId a = studentId /\ att_completed a = false.
Proof.
  unfold is_active_for.
  rewrite !andb_true_iff, !bool_decide_eq_true, negb_true_iff. tauto.
Qed.

(** *** What a call can do to the attempt table *)

Lemma attempts_set_quizzes st m : attempts (set_quizzes st m) = attempts st.
Proof. reflexivity. Qed.

Lemma attempts_set_questions st l : attempts (set_questions st l) = attempts st.
Proof. reflexivity. Qed.

Lemma addQuestion_attempts newId d st :
  attempts (addQuestion newId d st).1 = attempts st.
Proof.
  unfold addQuestion. destruct (validate_questionCreate d) as [v|e]; [|reflexivity].
  unfold bind, prisma_quiz_find. cbn.
  destruct (quizzes st !! qc_quizId v); [|reflexivity].
  unfold prisma_question_create. destruct (existsb _ _); reflexivity.
Qed.

Lemma deleteQuiz_attempts quizId st :
  attempts (deleteQuiz quizId st).1 = attempts st.
Proof.
  unfold deleteQuiz, bind, prisma_quizAttempt_findMany.
  destruct (Nat.ltb 0 _); [reflexivity|].
  unfold prisma_question_deleteMany, prisma_quiz_delete. cbn.
  destruct (quizzes st !! quizId); reflexivity.
Qed.

Lemma quiz_update_attempts quizId d st :
  attempts (prisma_quiz_update quizId d st).1 = attempts st.
Proof. unfold prisma_quiz_update. destruct (quizzes st !! quizId); reflexivity. Qed.

Lemma quiz_create_attempts row st :
  attempts (prisma_quiz_create row st).1 = attempts st.
Proof. unfold prisma_quiz_create. destruct (quizzes st !! quiz_id row); reflexivity. Qed.

(** A call leaves the attempt table as it is, or it is a [startQuizAttempt]
    that inserts a fresh in-progress row for a pair that had none, or a
    [submitQuizAttempt] that completes an in-progress row of its caller. *)
Lemma exec_attempts_cases op st :
  attempts (exec op st) = attempts st
  \/ (exists now startedAt newId quizId studentId,
        op = OpStart now startedAt newId quizId studentId
        /\ attempts st !! newId = None
        /\ (forall i a, attempts st !! i = Some a ->
                        is_active_for quizId studentId a = false)
        /\ attempts (exec op st)
           = <[newId := new_attempt newId quizId studentId
                          (total_points (questions_of st quizId)) startedAt]>
               (attempts st))
  \/ (exists dateNow submittedAt attemptId answers studentId a d,
        op = OpSubmit dateNow submittedAt attemptId answers studentId
        /\ attempts st !! attemptId = Some a
        /\ att_completed a = false
        /\ att_studentId a = studentId
        /\ upd_completed d = true
        /\ upd_score d = (score_answers answers (questions_of st (att_quizId a))).1
        /\ attempts (exec op st) = <[attemptId := apply_update d a]> (attempts st)).
Proof.
  destruct op as [row|quizId d|quizId s e dm|newId d|quizId
                 |now startedAt newId quizId studentId
                 |dateNow submittedAt attemptId answers studentId]; cbn [exec].
  - left. apply quiz_create_attempts.
  - left. apply quiz_update_attempts.
  - left. apply quiz_update_attempts.
  - left. apply addQuestion_attempts.
  - left. apply deleteQuiz_attempts.
  - rewrite startQuizAttempt_unfold.
    destruct (quizzes st !! quizId) as [quiz|]; [|now left].
    destruct (_ || _); [now left|].
    destruct (List.find _ _) eqn:Hf; [now left|].
    destruct (attempts st !! newId) eqn:Hn; [now left|].
    right; left. exists now, startedAt, newId, quizId, studentId.
    repeat split; try assumption. now apply find_active_None.
  - rewrite submitQuizAttempt_unfold.
    destruct (attempts st !! attemptId) as [a|] eqn:Ha; [|now left].
    destruct (bool_decide (att_studentId a = studentId)) eqn:Hs; cbn; [|now left].
    apply bool_decide_eq_true in Hs.
    destruct (att_completed a) eqn:Hc; [now left|].
    right; right. do 7 eexists. repeat split; try eassumption; reflexivity.
Qed.

(** A completed attempt is never written again. *)
Lemma completed_attempt_frozen op st i a :
  attempts st !! i = Some a -> att_completed a = true ->
  attempts (exec op st) !! i = Some a.
Proof.
  intros Hi Hc.
  destruct (exec_attempts_cases op st)
    as [-> | [(now & startedAt & newId & quizId & studentId & _ & Hn & _ & ->)
             | (dn & sa & attemptId & ans & sid & a0 & d & _ & Ha0 & Hc0 & _ & _ & _ & ->)]].
  - assumption.
  - rewrite lookup_insert_ne; [assumption|]. intros ->. congruence.
  - rewrite lookup_insert_ne; [assumption|]. intros ->. congruence.
Qed.

(** No call removes an attempt or changes the quiz, the student or the
    maximal score of one. *)
Lemma attempt_identity_kept op st i a :
  attempts st !! i = Some a ->
  exists a', attempts (exec op st) !! i = Some a'
             /\ att_quizId a' = att_quizId a
             /\ att_studentId a' = att_studentId a
             /\ att_maxScore a' = att_maxScore a
             /\ (att_completed a = true -> a' = a).
Proof.
  intros Hi.
  destruct (exec_attempts_cases op st)
    as [-> | [(now & startedAt & newId & quizId & studentId & _ & Hn & _ & ->)
             | (dn & sa & attemptId & ans & sid & a0 & d & _ & Ha0 & Hc0 & _ & _ & _ & ->)]].
  - exists a. auto.
  - exists a. rewrite lookup_insert_ne; [auto|]. intros ->. congruence.
  - destruct (decide (attemptId = i)) as [->|Hne].
    + rewrite lookup_insert_eq. exists (apply_update d a0).
      assert (a0 = a) as -> by congruence.
      repeat split; try reflexivity. congruence.
    + exists a. rewrite lookup_insert_ne; auto.
Qed.

Lemma at_most_one_active_exec op st :
  at_most_one_active st -> at_most_one_active (exec op st).
Proof.
  intros Hinv.
  destruct (exec_attempts_cases op st)
    as [E | [(now & startedAt & newId & quizId & studentId & _ & Hn & Hnone & E)
            | (dn & sa & attemptId & ans & sid & a0 & d & _ & Ha0 & Hc0 & _ & Hd & _ & E)]];
    unfold at_most_one_active; rewrite E; [exact Hinv| |].
  - intros i j a b Hi Hj Hq Hs Ha Hb.
    destruct (decide (newId = i)) as [<-|Hi'], (decide (newId = j)) as [<-|Hj'];
      [reflexivity| | |].
    + rewrite lookup_insert_eq in Hi. rewrite lookup_insert_ne in Hj by assumption.
      injection Hi as <-. cbn in Hq, Hs.
      assert (is_active_for quizId studentId b = true)
        by (apply is_active_for_true; auto).
      rewrite (Hnone j b Hj) in H. discriminate.
    + rewrite lookup_insert_eq in Hj. rewrite lookup_insert_ne in Hi by assumption.
      injection Hj as <-. cbn in Hq, Hs.
      assert (is_active_for quizId studentId a = true)
        by (apply is_active_for_true; auto).
      rewrite (Hnone i a Hi) in H. discriminate.
    + rewrite lookup_insert_ne in Hi, Hj by assumption. eapply Hinv; eauto.
  - intros i j a b Hi Hj Hq Hs Ha Hb.
    destruct (decide (attemptId = i)) as [->|Hi'].
    { rewrite lookup_insert_eq in Hi. injection Hi as <-. cbn in Ha. congruence. }
    destruct (decide (attemptId = j)) as [->|Hj'].
    { rewrite lookup_insert_eq in Hj. injection Hj as <-. cbn in Hb. congruence. }
    rewrite lookup_insert_ne in Hi, Hj by assumption. eapply Hinv; eauto.
Qed.

Lemma at_most_one_active_run ops st :
  at_most_one_active st -> at_most_one_active (run ops st).
Proof.
  revert st. induction ops as [|op ops IH]; intros st Hinv; [exact Hinv|].
  cbn. apply IH, at_most_one_active_exec, Hinv.
Qed.

Lemma at_most_one_active_empty : at_most_one_active empty_store.
Proof. intros i j a b Hi. cbn in Hi. rewrite lookup_empty in Hi. discriminate. Qed.

End Lifecycle.

(** ** One attempt in progress per quiz and student *)

Section OneActiveAttempt.
Import Js QuizService.

(** Counting rows: with unique keys, at most one row satisfies a predicate
    that no two keys satisfy together. *)
Lemma filter_values_at_most_one {A} (P : A -> bool) (l : list (string * A)) :
  NoDup l.*1 ->
  (forall i j a b, (i, a) ∈ l -> (j, b) ∈ l -> P a = true -> P b = true -> i = j) ->
  (length (List.filter P l.*2) <= 1)%nat.
Proof.
  induction l as [|[i a] l IH]; intros Hnd Huniq; cbn; [lia|].
  apply NoDup_cons in Hnd as [Hi Hnd].
  destruct (P a) eqn:Ha.
  - assert (List.filter P l.*2 = []) as ->; [|cbn; lia].
    destruct (List.filter P l.*2) as [|b rest] eqn:Hf; [reflexivity|].
    exfalso.
    assert (In b (List.filter P l.*2)) as Hb by (rewrite Hf; now left).
    apply filter_In in Hb as [Hb HPb].
    apply list_elem_of_In, list_elem_of_fmap in Hb as [[j b'] [-> Hj]].
    assert (i = j) as ->.
    { eapply Huniq; [left|right; eassumption| |]; eassumption. }
    apply Hi, list_elem_of_fmap. exists (j, b'). auto.
  - apply IH; [assumption|].
    intros j k b c Hj Hk. apply Huniq; now right.
Qed.

Lemma at_most_one_active_count st quizId studentId :
  at_most_one_active st ->
  (length (List.filter (is_active_for quizId studentId) (attempt_rows st)) <= 1)%nat.
Proof.
  intros Hinv. unfold attempt_rows.
  apply filter_values_at_most_one; [apply NoDup_fst_map_to_list|].
  intros i j a b Hi Hj Ha Hb.
  apply elem_of_map_to_list in Hi, Hj.
  apply is_active_for_true in Ha as (Hqa & Hsa & Hca), Hb as (Hqb & Hsb & Hcb).
  eapply Hinv; eauto; congruence.
Qed.

(** C2. In every store reached by a sequence of service calls, each quiz
    and student have at most one attempt with [completed = false]; every
    call preserves this.  [startQuizAttempt], once past the existence and
    time-window checks, throws "You already have an active attempt for this
    quiz" when such an attempt exists, and a returning call found none and
    inserted exactly one new row; no call other than [startQuizAttempt]
    creates a row, and no call turns [completed] back to [false]. *)
Theorem one_active_attempt_per_pair :
  (forall ops quizId studentId,
      (length (List.filter (is_active_for quizId studentId)
                 (attempt_rows (run ops empty_store))) <= 1)%nat)
  /\ (forall op st, at_most_one_active st -> at_most_one_active (exec op st))
  /\ (forall now startedAt newId quizId studentId st quiz i a,
        quizzes st !! quizId = Some quiz ->
        quiz_startTime quiz <= now <= quiz_endTime quiz ->
        attempts st !! i = Some a ->
        att_quizId a = quizId -> att_studentId a = studentId ->
        att_completed a = false ->
        startQuizAttempt now startedAt newId quizId studentId st
        = (st, Err attempt_already_active))
  /\ (forall now startedAt newId quizId studentId st st' r,
        startQuizAttempt now startedAt newId quizId studentId st = (st', Ok r) ->
        (forall i a, attempts st !! i = Some a ->
                     is_active_for quizId studentId a = false)
        /\ attempts st !! newId = None
        /\ attempts st'
           = <[newId := new_attempt newId quizId studentId
                          (total_points (questions_of st quizId)) startedAt]>
               (attempts st))
  /\ (forall op st i,
        is_start op = false -> attempts st !! i = None ->
        attempts (exec op st) !! i = None)
  /\ (forall op st i a,
        attempts st !! i = Some a -> att_completed a = true ->
        exists a', attempts (exec op st) !! i = Some a' /\ att_completed a' = true).
Proof.
  repeat split.
  - intros ops quizId studentId. apply at_most_one_active_count.
    apply at_most_one_active_run, at_most_one_active_empty.
  - apply at_most_one_active_exec.
  - intros now startedAt newId quizId studentId st quiz i a Hq Hwin Hi Haq Has Hac.
    rewrite startQuizAttempt_unfold, Hq.
    assert ((now <? quiz_startTime quiz) || (now >? quiz_endTime quiz) = false) as ->.
    { apply orb_false_iff. split; [apply Z.ltb_ge|rewrite Z.gtb_ltb; apply Z.ltb_ge]; lia. }
    destruct (List.find _ _) eqn:Hf; [reflexivity|].
    exfalso. rewrite find_active_None in Hf.
    assert (is_active_for quizId studentId a = true) as Hact
      by (apply is_active_for_true; auto).
    rewrite (Hf i a Hi) in Hact. discriminate.
  - revert H. rewrite startQuizAttempt_unfold.
    destruct (quizzes st !! quizId); [|discriminate].
    destruct (_ || _); [discriminate|].
    destruct (List.find _ _) eqn:Hf; [discriminate|].
    intros _. now apply find_active_None.
  - revert H. rewrite startQuizAttempt_unfold.
    destruct (quizzes st !! quizId); [|discriminate].
    destruct (_ || _); [discriminate|].
    destruct (List.find _ _); [discriminate|].
    now destruct (attempts st !! newId).
  - revert H. rewrite startQuizAttempt_unfold.
    destruct (quizzes st !! quizId); [|discriminate].
    destruct (_ || _); [discriminate|].
    destruct (List.find _ _); [discriminate|].
    destruct (attempts st !! newId); [discriminate|].
    intros [= <- _]. reflexivity.
  - intros op st i Hop Hi.
    destruct (exec_attempts_cases op st)
      as [-> | [(now & startedAt & newId & quizId & studentId & -> & _)
               | (dn & sa & attemptId & ans & sid & a0 & d & _ & Ha0 & _ & _ & _ & _ & ->)]].
    + assumption.
    + discriminate.
    + rewrite lookup_insert_ne; [assumption|]. intros ->. congruence.
  - intros op st i a Hi Hc. exists a. split; [|assumption].
    now apply completed_attempt_frozen.
Qed.

(** A second start of the same student on the same open quiz is refused. *)
Lemma one_active_attempt_per_pair_witness :
  startQuizAttempt 1600 1601 "att2" Scenario.quizA_id "stud1"
    Scenario.two_questions_started
  = (Scenario.two_questions_started, Err attempt_already_active).
Proof.
  apply (proj1 (proj2 (proj2 one_active_attempt_per_pair))
           1600 1601 "att2" Scenario.quizA_id "stud1"
           Scenario.two_questions_started Scenario.quizA "att1"
           (new_attempt "att1" Scenario.quizA_id "stud1" 3 1501)).
  - vm_compute. reflexivity.
  - cbn. lia.
  - vm_compute. reflexivity.
  - reflexivity.
  - reflexivity.
  - reflexivity.
Defined.

End OneActiveAttempt.

(** ** A completed attempt is final *)

Section CompletedIsFinal.
Import Js QuizService Interleaving.

Lemma submit_on_completed dateNow submittedAt attemptId answers studentId st a :
  attempts st !! attemptId = Some a -> att_completed a = true ->
  submitQuizAttempt dateNow submittedAt attemptId answers studentId st
  = (st, Err (if bool_decide (att_studentId a = studentId)
              then attempt_already_completed else unauthorized_attempt)).
Proof.
  intros Ha Hc. rewrite submitQuizAttempt_unfold, Ha, Hc.
  destruct (bool_decide _); reflexivity.
Qed.

(** A returning submission leaves its attempt completed, with the score it
    computed. *)
Lemma submit_succeeds_completes attemptId op st :
  submit_succeeds attemptId op st = true ->
  exists a a', attempts st !! attemptId = Some a
               /\ att_completed a = false
               /\ attempts (exec op st) !! attemptId = Some a'
               /\ att_completed a' = true.
Proof.
  destruct op as [| | | | | |dateNow submittedAt i answers studentId];
    try discriminate.
  cbn [submit_succeeds exec]. intros H.
  apply andb_true_iff in H as [Hi Hok]. apply bool_decide_eq_true in Hi as ->.
  revert Hok. rewrite submitQuizAttempt_unfold.
  destruct (attempts st !! attemptId) as [a|] eqn:Ha; [|discriminate].
  destruct (negb _); [discriminate|].
  destruct (att_completed a) eqn:Hc; [discriminate|].
  intros _. cbn. rewrite lookup_insert_eq.
  do 2 eexists. repeat split; try reflexivity. assumption.
Qed.

Lemma no_submit_after_completed attemptId ops :
  forall st a,
    attempts st !! attemptId = Some a -> att_completed a = true ->
    submit_successes attemptId ops st = 0%nat.
Proof.
  induction ops as [|op ops IH]; intros st a Ha Hc; [reflexivity|].
  cbn [submit_successes].
  rewrite (IH (exec op st) a); [|now apply completed_attempt_frozen|assumption].
  destruct (submit_succeeds attemptId op st) eqn:Hs; [|reflexivity].
  apply submit_succeeds_completes in Hs as (a0 & _ & Ha0 & Hc0 & _). congruence.
Qed.

Lemma at_most_one_submit attemptId ops :
  forall st, (submit_successes attemptId ops st <= 1)%nat.
Proof.
  induction ops as [|op ops IH]; intros st; cbn [submit_successes]; [lia|].
  destruct (submit_succeeds attemptId op st) eqn:Hs.
  - apply submit_succeeds_completes in Hs as (a & a' & _ & _ & Ha' & Hc').
    rewrite (no_submit_after_completed attemptId ops _ a' Ha' Hc'). lia.
  - specialize (IH (exec op st)). lia.
Qed.

(** Taken without interruption, the two steps of a submission are
    [submitQuizAttempt]. *)
Lemma submit_steps_uninterrupted c st :
  let s1 := submit_step c AtFindUnique st in
  let s2 := submit_step c s1.2 s1.1 in
  s2 = ((submitQuizAttempt (sub_dateNow c) (sub_submittedAt c) (sub_attemptId c)
           (sub_answers c) (sub_studentId c) st).1,
        SubmitReturned
          (submitQuizAttempt (sub_dateNow c) (sub_submittedAt c) (sub_attemptId c)
             (sub_answers c) (sub_studentId c) st).2).
Proof.
  rewrite submitQuizAttempt_unfold. cbn zeta.
  unfold submit_step, prisma_quizAttempt_findUnique, prisma_quizAttempt_update.
  destruct (attempts st !! sub_attemptId c) as [a|] eqn:Ha; cbn [fst snd];
    [|reflexivity].
  destruct (negb _); cbn [fst snd]; [reflexivity|].
  destruct (att_completed a); cbn [fst snd]; [reflexivity|].
  rewrite Ha. reflexivity.
Qed.

(** C3 fails on the code.  Two submissions of one attempt by its student,
    each reading the attempt before the other has written to it, both
    return.  When the first has returned, the attempt is completed with
    score 1; the second, which read [completed = false] earlier, then
    updates the row by its id alone: it is not refused, and the completed
    attempt's score, answers and submission time are written a second time
    (the score goes from 1 to 3).  Run one after the other, the same two
    calls give one result and the refusal "Quiz attempt already completed",
    and the score stays 1. *)
Theorem concurrent_submits_rewrite_completed_attempt :
  let started :=
    launch_submits Scenario.two_questions_started
      [Scenario.submit1; Scenario.submit2] in
  let first_returned := run_submit_schedule [0; 1; 0]%nat started in
  let interleaved := run_submit_schedule [0; 1; 0; 1]%nat started in
  let one_by_one := run_submit_schedule [0; 0; 1; 1]%nat started in
  let result score percent :=
    {| res_attemptId := "att1";
       res_score := score;
       res_maxScore := 3;
       res_percentage := number_of_Z percent;
       res_timeSpent := Some 1;
       res_completed := true |} in
  let stored answers score submittedAt :=
    apply_update
      {| upd_answers := answers;
         upd_score := score;
         upd_completed := true;
         upd_submittedAt := submittedAt;
         upd_timeSpent := 1 |}
      (new_attempt "att1" Scenario.quizA_id "stud1" 3 1501) in
  attempts (spool_store started) !! "att1"
  = Some (new_attempt "att1" Scenario.quizA_id "stud1" 3 1501)
  /\ att_completed (new_attempt "att1" Scenario.quizA_id "stud1" 3 1501) = false
  /\ submit_outcomes first_returned = [Some (Ok (result 1 33)); None]
  /\ attempts (spool_store first_returned) !! "att1"
     = Some (stored Scenario.answers_4_6 1 70001)
  /\ att_completed (stored Scenario.answers_4_6 1 70001) = true
  /\ submit_outcomes interleaved
     = [Some (Ok (result 1 33)); Some (Ok (result 3 100))]
  /\ submitted interleaved = [Scenario.submit1; Scenario.submit2]
  /\ attempts (spool_store interleaved) !! "att1"
     = Some (stored Scenario.answers_4_5 3 80001)
  /\ att_score (stored Scenario.answers_4_5 3 80001)
     <> att_score (stored Scenario.answers_4_6 1 70001)
  /\ submit_outcomes one_by_one
     = [Some (Ok (result 1 33)); Some (Err attempt_already_completed)]
  /\ submitted one_by_one = [Scenario.submit1]
  /\ attempts (spool_store one_by_one) !! "att1"
     = Some (stored Scenario.answers_4_6 1 70001).
Proof.
  intros started first_returned interleaved one_by_one result stored.
  repeat split; try (vm_compute; reflexivity).
  vm_compute. discriminate.
Qed.

(** X21. When the service calls run one at a time, each to its end before
    the next begins: on an attempt with [completed = true],
    [submitQuizAttempt] throws and leaves the store as it was, whoever
    calls; called by the attempt's student it throws "Quiz attempt already
    completed".  No such call changes a completed attempt; any call that
    changes a stored attempt is a returning submission that takes
    [completed] from [false] to [true] and writes the computed score, and
    at most one submission of an attempt returns. *)
Theorem completed_attempt_is_final_one_call_at_a_time :
  (forall dateNow submittedAt attemptId answers studentId st a,
      attempts st !! attemptId = Some a -> att_completed a = true ->
      (exists e, submitQuizAttempt dateNow submittedAt attemptId answers studentId st
                 = (st, Err e))
      /\ (att_studentId a = studentId ->
          submitQuizAttempt dateNow submittedAt attemptId answers studentId st
          = (st, Err attempt_already_completed))
      /\ (forall ops, attempts (run ops st) !! attemptId = Some a)
      /\ (forall ops, submit_successes attemptId ops st = 0%nat))
  /\ (forall op st i a a',
        attempts st !! i = Some a -> attempts (exec op st) !! i = Some a' ->
        a' <> a ->
        submit_succeeds i op st = true
        /\ att_completed a = false /\ att_completed a' = true
        /\ exists answers,
             att_score a'
             = (score_answers answers (questions_of st (att_quizId a))).1)
  /\ (forall attemptId ops st, (submit_successes attemptId ops st <= 1)%nat).
Proof.
  split; [|split].
  - intros dateNow submittedAt attemptId answers studentId st a Ha Hc.
    pose proof (submit_on_completed dateNow submittedAt attemptId answers
                  studentId st a Ha Hc) as Hsub.
    repeat split.
    + eexists. exact Hsub.
    + intros Hs. rewrite Hsub. now rewrite bool_decide_eq_true_2.
    + intros ops. clear Hsub. revert st Ha.
      induction ops as [|op ops IH]; intros st Ha; [exact Ha|].
      cbn. apply IH. now apply completed_attempt_frozen.
    + intros ops. now apply (no_submit_after_completed attemptId ops st a).
  - intros op st i a a' Ha Ha' Hne.
    destruct op as [row|quizId d|quizId s e dm|newId d|quizId
                   |now startedAt newId quizId studentId
                   |dateNow submittedAt attemptId answers studentId];
      cbn [exec] in Ha'.
    + rewrite quiz_create_attempts in Ha'. congruence.
    + unfold updateQuiz in Ha'. rewrite quiz_update_attempts in Ha'. congruence.
    + unfold scheduleQuiz in Ha'. rewrite quiz_update_attempts in Ha'. congruence.
    + rewrite addQuestion_attempts in Ha'. congruence.
    + rewrite deleteQuiz_attempts in Ha'. congruence.
    + exfalso. revert Ha'. rewrite startQuizAttempt_unfold.
      destruct (quizzes st !! quizId); [|cbn; congruence].
      destruct (_ || _); [cbn; congruence|].
      destruct (List.find _ _); [cbn; congruence|].
      destruct (attempts st !! newId) eqn:Hn; [cbn; congruence|]. cbn.
      rewrite lookup_insert_ne; [congruence|]. intros ->. congruence.
    + cbn [submit_succeeds]. revert Ha'. rewrite submitQuizAttempt_unfold.
      destruct (attempts st !! attemptId) as [a0|] eqn:Ha0; [|cbn; congruence].
      destruct (negb _) eqn:Hown; [cbn; congruence|].
      destruct (att_completed a0) eqn:Hc0; [cbn; congruence|]. cbn.
      destruct (decide (attemptId = i)) as [->|Hi].
      * rewrite lookup_insert_eq. intros [= <-].
        assert (a0 = a) as -> by congruence.
        rewrite bool_decide_eq_true_2 by reflexivity.
        repeat split; try assumption. exists answers. reflexivity.
      * rewrite lookup_insert_ne by assumption. congruence.
  - intros attemptId ops st. apply at_most_one_submit.
Qed.

(** A second submission of the scoring example, made after the first has
    returned, is refused and changes nothing. *)
Lemma completed_attempt_is_final_one_call_at_a_time_witness :
  let st := exec (OpSubmit 70000 70001 "att1" Scenario.answers_4_6 "stud1")
              Scenario.two_questions_started in
  submitQuizAttempt 80000 80001 "att1" Scenario.answers_4_5 "stud1" st
  = (st, Err attempt_already_completed).
Proof.
  intros st.
  refine (proj1 (proj2 (proj1 completed_attempt_is_final_one_call_at_a_time
            80000 80001 "att1" Scenario.answers_4_5 "stud1" st
            (apply_update
               {| upd_answers := {[ "q1" := JString "4"; "q2" := JString "6" ]};
                  upd_score := 1;
                  upd_completed := true;
                  upd_submittedAt := 70001;
                  upd_timeSpent := 1 |}
               (new_attempt "att1" Scenario.quizA_id "stud1" 3 1501))
            _ _)) _).
  - vm_compute. reflexivity.
  - reflexivity.
  - reflexivity.
Defined.

End CompletedIsFinal.

(** ** Scoring *)

Section Scoring.
Import Js QuizService.

Lemma fold_points_acc qs : forall acc,
  fold_left (fun sum q => sum + q_points q) qs acc = acc + total_points qs.
Proof.
  unfold total_points.
  induction qs as [|q qs IH]; intros acc; cbn [fold_left]; [lia|].
  rewrite IH, (IH (0 + q_points q)). lia.
Qed.

Lemma total_points_cons q qs : total_points (q :: qs) = q_points q + total_points qs.
Proof. unfold total_points at 1. cbn. apply fold_points_acc. Qed.

Lemma total_points_app qs1 qs2 :
  total_points (qs1 ++ qs2) = total_points qs1 + total_points qs2.
Proof.
  induction qs1 as [|q qs1 IH]; [reflexivity|].
  rewrite <- app_comm_cons.
  rewrite !total_points_cons, IH. lia.
Qed.

(** The loop adds the points of the correctly answered questions. *)
Lemma score_loop_fst answers qs : forall acc,
  (fold_left (score_question answers) qs acc).1
  = acc.1 + total_points (answered_correctly answers qs).
Proof.
  induction qs as [|q qs IH]; intros acc;
    cbn [fold_left answered_correctly List.filter].
  - unfold total_points. cbn. lia.
  - rewrite IH. unfold score_question at 1. cbn [fst].
    fold (answered_correctly answers qs).
    destruct (strict_eq_string _ _); [rewrite total_points_cons|]; lia.
Qed.

(** The loop records, for each question, what the payload holds under the
    question's id, and nothing else. *)
Lemma score_loop_snd answers qs : forall acc k,
  (fold_left (score_question answers) qs acc).2 !! k
  = if bool_decide (k ∈ List.map q_id qs) then Some (get answers k) else acc.2 !! k.
Proof.
  induction qs as [|q qs IH]; intros acc k; cbn.
  - rewrite bool_decide_eq_false_2; [reflexivity|]. apply not_elem_of_nil.
  - rewrite IH. cbn.
    destruct (decide (k ∈ List.map q_id qs)) as [Hin|Hnin].
    + rewrite !bool_decide_eq_true_2; [reflexivity| |assumption]. now right.
    + rewrite (bool_decide_eq_false_2 _ Hnin).
      destruct (decide (q_id q = k)) as [->|Hne].
      * rewrite lookup_insert_eq, bool_decide_eq_true_2; [reflexivity|left].
      * rewrite lookup_insert_ne by assumption.
        rewrite bool_decide_eq_false_2; [reflexivity|].
        intros Hk. apply elem_of_cons in Hk as [->|Hk]; auto.
Qed.

(** Only the payload's entries under question ids are read. *)
Lemma score_loop_ext answers answers' qs :
  (forall q, In q qs -> answers' !! q_id q = answers !! q_id q) ->
  forall acc,
    fold_left (score_question answers') qs acc
    = fold_left (score_question answers) qs acc.
Proof.
  induction qs as [|q qs IH]; intros Hagree acc; cbn; [reflexivity|].
  rewrite IH by (intros q' Hq'; apply Hagree; now right).
  unfold score_question, get. rewrite (Hagree q) by now left. reflexivity.
Qed.

Lemma strict_eq_string_true v s : strict_eq_string v s = true <-> v = JString s.
Proof.
  destruct v; cbn; try (split; [discriminate|congruence]).
  rewrite bool_decide_eq_true. split; congruence.
Qed.

(** C4. For an attempt in progress and its student, [submitQuizAttempt]
    returns; the score is the sum of [points] over the quiz's questions whose
    recorded answer is exactly the string [question.answer]; the stored
    answers hold, under each question id, the payload's value for that id
    ([undefined] when absent) and nothing under other keys; a value other
    than that very string, [undefined] in particular, scores nothing; two
    payloads that agree on the question ids give the same outcome.  On the
    quiz with questions worth 1 and 2 points answered by 4 and 5, the
    payload q1 = 4, q2 = 6 gives score 1, maxScore 3 and percentage 33. *)
Theorem submit_scores_exact_matches :
  (forall dateNow submittedAt attemptId answers studentId st a,
      attempts st !! attemptId = Some a ->
      att_completed a = false -> att_studentId a = studentId ->
      exists st' r a',
        submitQuizAttempt dateNow submittedAt attemptId answers studentId st
        = (st', Ok r)
        /\ attempts st' !! attemptId = Some a'
        /\ res_score r
           = total_points
               (answered_correctly answers (questions_of st (att_quizId a)))
        /\ att_score a' = res_score r
        /\ (forall k,
              att_answers a' !! k
              = if bool_decide (k ∈ List.map q_id (questions_of st (att_quizId a)))
                then Some (get answers k) else None)
        /\ (forall answers',
              (forall q, In q (questions_of st (att_quizId a)) ->
                         answers' !! q_id q = answers !! q_id q) ->
              submitQuizAttempt dateNow submittedAt attemptId answers' studentId st
              = submitQuizAttempt dateNow submittedAt attemptId answers studentId st))
  /\ (forall v s, strict_eq_string v s = true <-> v = JString s)
  /\ strict_eq_string (JString "A") "a" = false
  /\ (forall (answers : gmap string JSValue) q,
        answers !! q_id q = None ->
        get answers (q_id q) = JUndefined
        /\ strict_eq_string (get answers (q_id q)) (q_answer q) = false)
  /\ List.map (fun q => (q_id q, q_points q, q_answer q))
       (questions Scenario.two_questions)
     = [("q1", 1, "4"); ("q2", 2, "5")]
  /\ (submitQuizAttempt 70000 70001 "att1" Scenario.answers_4_6 "stud1"
        Scenario.two_questions_started).2
     = Ok {| res_attemptId := "att1";
             res_score := 1;
             res_maxScore := 3;
             res_percentage := number_of_Z 33;
             res_timeSpent := Some 1;
             res_completed := true |}.
Proof.
  split; [|split; [|split; [|split; [|split]]]].
  - intros dateNow submittedAt attemptId answers studentId st a Ha Hc Hs.
    pose proof (fun ans =>
                  submitQuizAttempt_unfold dateNow submittedAt attemptId ans
                    studentId st) as Hsub.
    rewrite Ha, Hc, (bool_decide_eq_true_2 _ Hs) in Hsub. cbn [negb] in Hsub.
    rewrite (Hsub answers).
    do 3 eexists. split; [reflexivity|].
    split; [apply lookup_insert_eq|].
    cbn [res_score att_score att_answers apply_update upd_answers upd_score].
    split; [unfold score_answers; now rewrite score_loop_fst|].
    split; [reflexivity|].
    split.
    + intros k. unfold score_answers. rewrite score_loop_snd. cbn [snd].
      now rewrite lookup_empty.
    + intros answers' Hagree. rewrite (Hsub answers').
      unfold score_answers. now rewrite (score_loop_ext answers answers').
  - apply strict_eq_string_true.
  - reflexivity.
  - intros answers q Hq. unfold get. rewrite Hq. split; reflexivity.
  - vm_compute. reflexivity.
  - vm_compute. reflexivity.
Qed.

(** The scoring example, through the general statement. *)
Lemma submit_scores_exact_matches_witness :
  exists st' r a',
    submitQuizAttempt 70000 70001 "att1" Scenario.answers_4_6 "stud1"
      Scenario.two_questions_started = (st', Ok r)
    /\ attempts st' !! "att1" = Some a'
    /\ res_score r
       = total_points
           (answered_correctly Scenario.answers_4_6
              (questions_of Scenario.two_questions_started Scenario.quizA_id))
    /\ att_score a' = res_score r.
Proof.
  destruct (proj1 submit_scores_exact_matches 70000 70001 "att1"
              Scenario.answers_4_6 "stud1" Scenario.two_questions_started
              (new_attempt "att1" Scenario.quizA_id "stud1" 3 1501))
    as (st' & r & a' & H1 & H2 & H3 & H4 & _).
  - vm_compute. reflexivity.
  - reflexivity.
  - reflexivity.
  - exists st', r, a'. auto.
Defined.

End Scoring.

(** ** The maximal score and the questions scored *)

Section MaxScore.
Import Js QuizService.

Lemma validated_points d v :
  validate_questionCreate d = Ok v -> 1 <= default 1 (qc_points v) <= 10.
Proof.
  unfold validate_questionCreate.
  destruct (questionCreate_violations d) eqn:Hv; [|discriminate].
  intros [= <-]. cbn.
  unfold questionCreate_violations in Hv.
  repeat (apply app_eq_nil in Hv as [_ Hv]).
  destruct (qc_points d) as [p|]; cbn; [|lia].
  destruct (_ || _); [discriminate|].
  destruct (p <? 1) eqn:E1; [discriminate|].
  destruct (10 <? p) eqn:E2; [discriminate|].
  apply Z.ltb_ge in E1, E2. lia.
Qed.

Lemma points_in_range_exec op st :
  points_in_range st -> points_in_range (exec op st).
Proof.
  unfold points_in_range. intros Hr.
  destruct op as [row|quizId d|quizId s e dm|newId d|quizId
                 |now startedAt newId quizId studentId
                 |dateNow submittedAt attemptId answers studentId]; cbn [exec].
  - unfold prisma_quiz_create. now destruct (quizzes st !! quiz_id row).
  - unfold updateQuiz, prisma_quiz_update. now destruct (quizzes st !! quizId).
  - unfold scheduleQuiz, prisma_quiz_update. now destruct (quizzes st !! quizId).
  - unfold addQuestion.
    destruct (validate_questionCreate d) as [v|err] eqn:Hv; [|exact Hr].
    unfold bind, prisma_quiz_find. cbn.
    destruct (quizzes st !! qc_quizId v); [|exact Hr].
    unfold prisma_question_create. destruct (existsb _ _); [exact Hr|]. cbn.
    apply Forall_app. split; [exact Hr|].
    constructor; [|constructor]. cbn. exact (validated_points d v Hv).
  - unfold deleteQuiz, bind, prisma_quizAttempt_findMany.
    destruct (Nat.ltb 0 _); [exact Hr|].
    unfold prisma_question_deleteMany, prisma_quiz_delete. cbn.
    assert (Forall (fun q => 1 <= q_points q <= 10)
              (List.filter (fun q => negb (bool_decide (q_quizId q = quizId)))
                 (questions st))) as Hf.
    { apply Forall_forall. intros q Hq. apply list_elem_of_In, filter_In in Hq as [Hq _].
      rewrite Forall_forall in Hr. apply Hr. now apply list_elem_of_In. }
    now destruct (quizzes st !! quizId).
  - rewrite startQuizAttempt_unfold.
    destruct (quizzes st !! quizId); [|exact Hr].
    destruct (_ || _); [exact Hr|].
    destruct (List.find _ _); [exact Hr|].
    now destruct (attempts st !! newId).
  - rewrite submitQuizAttempt_unfold.
    destruct (attempts st !! attemptId) as [a|]; [|exact Hr].
    destruct (negb _); [exact Hr|].
    now destruct (att_completed a).
Qed.

Lemma points_in_range_run ops : forall st,
  points_in_range st -> points_in_range (run ops st).
Proof.
  induction ops as [|op ops IH]; intros st Hr; [exact Hr|].
  cbn. apply IH, points_in_range_exec, Hr.
Qed.

Lemma points_in_range_quiz st quizId :
  points_in_range st -> Forall (fun q => 0 <= q_points q) (questions_of st quizId).
Proof.
  unfold points_in_range, questions_of. rewrite !Forall_forall.
  intros Hr q Hq. apply list_elem_of_In, filter_In in Hq as [Hq _].
  apply list_elem_of_In, Hr in Hq. lia.
Qed.

(** With non-negative points, a part of the questions is worth at most the
    whole. *)
Lemma total_points_filter (p : Question -> bool) qs :
  Forall (fun q => 0 <= q_points q) qs ->
  0 <= total_points (List.filter p qs) <= total_points qs.
Proof.
  induction 1 as [|q qs Hq _ IH]; cbn [List.filter].
  - unfold total_points. cbn. lia.
  - destruct (p q); rewrite !total_points_cons; lia.
Qed.

Lemma run_keeps_maxScore ops : forall st i a,
  attempts st !! i = Some a ->
  exists a', attempts (run ops st) !! i = Some a'
             /\ att_quizId a' = att_quizId a
             /\ att_maxScore a' = att_maxScore a.
Proof.
  induction ops as [|op ops IH]; intros st i a Ha; [exists a; auto|].
  destruct (attempt_identity_kept op st i a Ha) as (a1 & Ha1 & Hq1 & _ & Hm1 & _).
  destruct (IH (exec op st) i a1 Ha1) as (a' & Ha' & Hq' & Hm').
  exists a'. cbn. repeat split; [assumption|congruence|congruence].
Qed.

(** C5, as the code has it.  The attempt created by [startQuizAttempt]
    carries as [maxScore] the sum of [points] over the quiz's questions stored
    at that time, and no later call changes the [maxScore] of an attempt.
    [submitQuizAttempt] scores over the quiz's questions stored at the time
    of the submission: the score is at most the sum of their points, and at
    most [maxScore] when these questions are the ones that were summed at
    the start. *)
Theorem maxScore_fixed_score_over_stored_questions :
  (forall now startedAt newId quizId studentId st st' r,
      startQuizAttempt now startedAt newId quizId studentId st = (st', Ok r) ->
      exists a, attempts st' !! newId = Some a
                /\ att_quizId a = quizId
                /\ att_maxScore a = total_points (questions_of st quizId))
  /\ (forall ops st i a,
        attempts st !! i = Some a ->
        exists a', attempts (run ops st) !! i = Some a'
                   /\ att_quizId a' = att_quizId a
                   /\ att_maxScore a' = att_maxScore a)
  /\ (forall dateNow submittedAt attemptId answers studentId st st' r,
        submitQuizAttempt dateNow submittedAt attemptId answers studentId st
        = (st', Ok r) ->
        exists a a',
          attempts st !! attemptId = Some a
          /\ attempts st' !! attemptId = Some a'
          /\ res_maxScore r = att_maxScore a
          /\ att_maxScore a' = att_maxScore a
          /\ res_score r
             = total_points
                 (answered_correctly answers (questions_of st (att_quizId a)))
          /\ (points_in_range st ->
              0 <= res_score r <= total_points (questions_of st (att_quizId a)))
          /\ (points_in_range st ->
              forall qs0, att_maxScore a = total_points qs0 ->
                          questions_of st (att_quizId a) = qs0 ->
                          res_score r <= res_maxScore r))
  /\ (forall ops, points_in_range (run ops empty_store)).
Proof.
  split; [|split; [|split]].
  - intros now startedAt newId quizId studentId st st' r.
    rewrite startQuizAttempt_unfold.
    destruct (quizzes st !! quizId); [|discriminate].
    destruct (_ || _); [discriminate|].
    destruct (List.find _ _); [discriminate|].
    destruct (attempts st !! newId); [discriminate|].
    intros [= <- _]. eexists. split; [apply lookup_insert_eq|]. split; reflexivity.
  - intros ops st i a. apply run_keeps_maxScore.
  - intros dateNow submittedAt attemptId answers studentId st st' r.
    rewrite submitQuizAttempt_unfold.
    destruct (attempts st !! attemptId) as [a|] eqn:Ha; [|discriminate].
    destruct (negb _); [discriminate|].
    destruct (att_completed a); [discriminate|].
    intros [= <- <-]. do 2 eexists.
    split; [reflexivity|]. split; [apply lookup_insert_eq|].
    cbn [res_maxScore res_score att_maxScore apply_update fst].
    assert (Hscore : (score_answers answers (questions_of st (att_quizId a))).1
                     = total_points
                         (answered_correctly answers (questions_of st (att_quizId a))))
      by (unfold score_answers; now rewrite score_loop_fst).
    rewrite Hscore.
    pose proof (fun H => total_points_filter
                  (fun q => strict_eq_string (get answers (q_id q)) (q_answer q))
                  _ (points_in_range_quiz st (att_quizId a) H)) as Hle.
    fold (answered_correctly answers (questions_of st (att_quizId a))) in Hle.
    repeat split; try reflexivity.
    + now apply Hle.
    + now apply Hle.
    + intros Hr qs0 Hm Hqs. rewrite Hm, <- Hqs. now apply Hle.
  - intros ops. apply points_in_range_run. constructor.
Qed.

(** The scoring example: started and submitted with unchanged questions,
    the score stays within [maxScore]. *)
Lemma maxScore_fixed_score_over_stored_questions_witness :
  exists a, attempts Scenario.two_questions_started !! "att1" = Some a
            /\ att_quizId a = Scenario.quizA_id
            /\ att_maxScore a
               = total_points (questions_of Scenario.two_questions Scenario.quizA_id).
Proof.
  refine (proj1 maxScore_fixed_score_over_stored_questions
            1500 1501 "att1" Scenario.quizA_id "stud1" Scenario.two_questions
            Scenario.two_questions_started
            {| start_attemptId := "att1";
               start_quiz :=
                 quiz_view Scenario.quizA
                   (questions_of Scenario.two_questions Scenario.quizA_id) |} _).
  vm_compute. reflexivity.
Defined.

(** The claim as written fails: a question added while the attempt is in
    progress is scored at submission, and the score passes [maxScore]. *)
Lemma snapshot_scoring_counterexample :
  let started :=
    run [OpCreateQuiz Scenario.quizA;
         OpAddQuestion "q1" (Scenario.ask "What is 2 + 2?" "4" 1);
         OpStart 1500 1501 "att1" Scenario.quizA_id "stud1"] empty_store in
  let later :=
    exec (OpAddQuestion "q2" (Scenario.ask "What is 2 + 3?" "5" 2)) started in
  exists st' r,
    submitQuizAttempt 70000 70001 "att1" Scenario.answers_4_5 "stud1" later
    = (st', Ok r)
    /\ res_maxScore r = total_points (questions_of started Scenario.quizA_id)
    /\ res_maxScore r = 1
    /\ res_score r = 3
    /\ ~ (res_score r <= res_maxScore r)
    /\ res_score r
       <> total_points
            (answered_correctly Scenario.answers_4_5
               (questions_of started Scenario.quizA_id)).
Proof.
  intros started later.
  destruct (submitQuizAttempt 70000 70001 "att1" Scenario.answers_4_5 "stud1" later)
    as [st' res] eqn:Hsub.
  assert (res = Ok {| res_attemptId := "att1";
                      res_score := 3;
                      res_maxScore := 1;
                      res_percentage := number_of_Z 300;
                      res_timeSpent := Some 1;
                      res_completed := true |}) as ->.
  { change res with (st', res).2. rewrite <- Hsub. vm_compute. reflexivity. }
  do 2 eexists. split; [reflexivity|]. cbn [res_maxScore res_score].
  repeat split; try (vm_compute; congruence).
Qed.

End MaxScore.

(** ** The time window *)

Section TimeWindow.
Import Js QuizService Interleaving.

Lemma outside_window now quiz :
  (now <? quiz_startTime quiz) || (now >? quiz_endTime quiz) = false
  <-> quiz_startTime quiz <= now <= quiz_endTime quiz.
Proof.
  rewrite orb_false_iff, Z.gtb_ltb, !Z.ltb_ge. lia.
Qed.

(** C6. For a quiz of the store, [startQuizAttempt] gets past the
    time-window check exactly when [startTime <= now <= endTime]: inside
    the window the call goes on to look for an attempt in progress and does
    not throw "Quiz is not currently active"; outside, it throws that error
    and changes nothing, in particular before [startTime] and after
    [endTime]. *)
Theorem start_inside_window_only now startedAt newId quizId studentId st quiz :
  quizzes st !! quizId = Some quiz ->
  (quiz_startTime quiz <= now <= quiz_endTime quiz
   <-> start_step (mkStartCall now startedAt newId quizId studentId) AtFindQuiz st
       = (st, AtFindFirst quiz (questions_of st quizId)))
  /\ (quiz_startTime quiz <= now <= quiz_endTime quiz
      <-> (startQuizAttempt now startedAt newId quizId studentId st).2
          <> Err quiz_not_active)
  /\ (~ quiz_startTime quiz <= now <= quiz_endTime quiz ->
      startQuizAttempt now startedAt newId quizId studentId st
      = (st, Err quiz_not_active))
  /\ (now < quiz_startTime quiz ->
      startQuizAttempt now startedAt newId quizId studentId st
      = (st, Err quiz_not_active))
  /\ (quiz_endTime quiz < now ->
      startQuizAttempt now startedAt newId quizId studentId st
      = (st, Err quiz_not_active)).
Proof.
  intros Hq.
  assert (Hout : ~ quiz_startTime quiz <= now <= quiz_endTime quiz ->
                 startQuizAttempt now startedAt newId quizId studentId st
                 = (st, Err quiz_not_active)).
  { intros Hw. rewrite startQuizAttempt_unfold, Hq.
    destruct (_ || _) eqn:E; [reflexivity|].
    apply outside_window in E. contradiction. }
  split; [|split; [|split; [|split]]].
  - cbn. unfold prisma_quiz_findUnique. rewrite Hq. cbn.
    destruct (_ || _) eqn:E.
    + split; [|discriminate]. intros Hw. apply outside_window in Hw. congruence.
    + split; [reflexivity|]. intros _. now apply outside_window.
  - split.
    + intros Hw. rewrite startQuizAttempt_unfold, Hq.
      apply outside_window in Hw. rewrite Hw.
      destruct (List.find _ _); [discriminate|].
      destruct (attempts st !! newId); discriminate.
    + intros Hne.
      destruct (decide (quiz_startTime quiz <= now <= quiz_endTime quiz))
        as [Hw|Hw]; [assumption|].
      rewrite (Hout Hw) in Hne. now contradiction Hne.
  - exact Hout.
  - intros Hlt. apply Hout. lia.
  - intros Hgt. apply Hout. lia.
Qed.

(** Before the window opens the quiz of the scoring example refuses the
    start. *)
Lemma start_inside_window_only_witness :
  startQuizAttempt 999 1000 "att1" Scenario.quizA_id "stud1" Scenario.two_questions
  = (Scenario.two_questions, Err quiz_not_active).
Proof.
  refine (proj1 (proj2 (proj2 (proj2
            (start_inside_window_only 999 1000 "att1" Scenario.quizA_id "stud1"
               Scenario.two_questions Scenario.quizA _)))) _).
  - vm_compute. reflexivity.
  - cbn. lia.
Defined.

End TimeWindow.

(** ** The view returned to the student *)

Section StudentView.
Import Js QuizService.

Lemma same_but_answer_view q1 q2 :
  same_but_answer q1 q2 -> question_view q1 = question_view q2.
Proof.
  intros (Hi & _ & Ht & Ho & Hd & Hp). unfold question_view. congruence.
Qed.

Lemma same_but_answers_questions_of st1 st2 quizId :
  Forall2 same_but_answer (questions st1) (questions st2) ->
  Forall2 same_but_answer (questions_of st1 quizId) (questions_of st2 quizId).
Proof.
  unfold questions_of. induction 1 as [|q1 q2 l1 l2 Hq _ IH]; cbn; [constructor|].
  destruct Hq as (Hi & Hz & Hrest). rewrite <- Hz.
  destruct (bool_decide _); [constructor|]; try assumption.
  repeat split; tauto || assumption.
Qed.

Lemma same_but_answers_views qs1 qs2 :
  Forall2 same_but_answer qs1 qs2 ->
  List.map question_view qs1 = List.map question_view qs2
  /\ total_points qs1 = total_points qs2.
Proof.
  induction 1 as [|q1 q2 l1 l2 Hq _ [IHv IHp]]; [split; reflexivity|].
  cbn [List.map]. rewrite !total_points_cons, IHv, IHp.
  rewrite (same_but_answer_view q1 q2 Hq).
  destruct Hq as (_ & _ & _ & _ & _ & ->). split; reflexivity.
Qed.

(** C7. A returning [startQuizAttempt] yields the id of the attempt it
    created and a view of the quiz whose questions are the quiz's questions
    reduced to [id], [text], [options], [difficulty] and [points]; two stores
    that differ only in the answers of their questions yield the same
    result. *)
Theorem start_view_hides_answers :
  (forall now startedAt newId quizId studentId st st' r,
      startQuizAttempt now startedAt newId quizId studentId st = (st', Ok r) ->
      start_attemptId r = newId
      /\ (exists a, attempts st' !! start_attemptId r = Some a
                    /\ attempts st !! start_attemptId r = None)
      /\ exists quiz,
           quizzes st !! quizId = Some quiz
           /\ start_quiz r = quiz_view quiz (questions_of st quizId)
           /\ Forall2 (fun q v =>
                         v = {| qv_id := q_id q;
                                qv_text := q_text q;
                                qv_options := q_options q;
                                qv_difficulty := q_difficulty q;
                                qv_points := q_points q |})
                (questions_of st quizId) (view_questions (start_quiz r)))
  /\ (forall now startedAt newId quizId studentId st1 st2,
        same_but_answers st1 st2 ->
        (startQuizAttempt now startedAt newId quizId studentId st1).2
        = (startQuizAttempt now startedAt newId quizId studentId st2).2).
Proof.
  split.
  - intros now startedAt newId quizId studentId st st' r.
    rewrite startQuizAttempt_unfold.
    destruct (quizzes st !! quizId) as [quiz|]; [|discriminate].
    destruct (_ || _); [discriminate|].
    destruct (List.find _ _); [discriminate|].
    destruct (attempts st !! newId) eqn:Hn; [discriminate|].
    intros [= <- <-]. cbn [start_attemptId start_quiz].
    split; [reflexivity|]. split.
    + eexists. split; [apply lookup_insert_eq|assumption].
    + exists quiz. repeat split. cbn [view_questions quiz_view].
      induction (questions_of st quizId); cbn; constructor; auto.
  - intros now startedAt newId quizId studentId st1 st2 (Hq & Ha & Hqs).
    rewrite !startQuizAttempt_unfold. unfold attempt_rows. rewrite <- Hq, <- Ha.
    pose proof (same_but_answers_views _ _
                  (same_but_answers_questions_of st1 st2 quizId Hqs)) as [Hv Hp].
    destruct (quizzes st1 !! quizId) as [quiz|]; [|reflexivity].
    destruct (_ || _); [reflexivity|].
    destruct (List.find _ _); [reflexivity|].
    destruct (attempts st1 !! newId); [reflexivity|].
    cbn. unfold quiz_view. now rewrite Hv.
Qed.

(** The scoring example with its two answers swapped shows the same view. *)
Lemma start_view_hides_answers_witness :
  let swapped :=
    set_questions Scenario.two_questions
      [mkQuestion "q1" Scenario.quizA_id "What is 2 + 2?" ["4"; "none of these"]
         "5" "easy" 1;
       mkQuestion "q2" Scenario.quizA_id "What is 2 + 3?" ["5"; "none of these"]
         "4" "easy" 2] in
  (startQuizAttempt 1500 1501 "att1" Scenario.quizA_id "stud1"
     Scenario.two_questions).2
  = (startQuizAttempt 1500 1501 "att1" Scenario.quizA_id "stud1" swapped).2.
Proof.
  intros swapped.
  apply (proj2 start_view_hides_answers 1500 1501 "att1" Scenario.quizA_id "stud1"
           Scenario.two_questions swapped).
  split; [reflexivity|]. split; [reflexivity|].
  vm_compute. repeat constructor.
Defined.

End StudentView.

(** ** Concurrent starts *)

Section ConcurrentStarts.
Import Js QuizService Interleaving.

(** Taken without interruption, the three steps of a call are
    [startQuizAttempt]. *)
Lemma start_steps_uninterrupted c st :
  let s1 := start_step c AtFindQuiz st in
  let s2 := start_step c s1.2 s1.1 in
  let s3 := start_step c s2.2 s2.1 in
  s3 = ((startQuizAttempt (call_now c) (call_startedAt c) (call_newId c)
           (call_quizId c) (call_studentId c) st).1,
        Returned (startQuizAttempt (call_now c) (call_startedAt c) (call_newId c)
                    (call_quizId c) (call_studentId c) st).2).
Proof.
  rewrite startQuizAttempt_unfold. cbn zeta.
  unfold start_step, prisma_quiz_findUnique, prisma_quizAttempt_findFirst,
    prisma_quizAttempt_create.
  destruct (quizzes st !! call_quizId c) as [quiz|]; cbn [fst snd]; [|reflexivity].
  destruct (_ || _); cbn [fst snd]; [reflexivity|].
  destruct (List.find _ _); cbn [fst snd]; [reflexivity|].
  cbn [att_id new_attempt].
  destruct (attempts st !! call_newId c); reflexivity.
Qed.

(** C9 fails on the code.  Two calls of [startQuizAttempt] by one student
    for one quiz, each reading the attempt table before the other has
    written to it, both return: nobody is refused and the student holds two
    attempts in progress.  Run one after the other, the same two calls give
    one attempt and one refusal. *)
Theorem concurrent_starts_both_succeed :
  let interleaved :=
    run_schedule [0; 1; 0; 1; 0; 1]%nat
      (launch Scenario.two_questions [Scenario.call1; Scenario.call2]) in
  let one_by_one :=
    run_schedule [0; 0; 0; 1; 1; 1]%nat
      (launch Scenario.two_questions [Scenario.call1; Scenario.call2]) in
  succeeded interleaved = [Scenario.call1; Scenario.call2]
  /\ failed_with attempt_already_active interleaved = []
  /\ attempts (pool_store interleaved) !! "att1"
     = Some (new_attempt "att1" Scenario.quizA_id "stud1" 3 1501)
  /\ attempts (pool_store interleaved) !! "att2"
     = Some (new_attempt "att2" Scenario.quizA_id "stud1" 3 1503)
  /\ ~ at_most_one_active (pool_store interleaved)
  /\ succeeded one_by_one = [Scenario.call1]
  /\ failed_with attempt_already_active one_by_one = [Scenario.call2].
Proof.
  intros interleaved one_by_one.
  assert (H1 : attempts (pool_store interleaved) !! "att1"
               = Some (new_attempt "att1" Scenario.quizA_id "stud1" 3 1501))
    by (vm_compute; reflexivity).
  assert (H2 : attempts (pool_store interleaved) !! "att2"
               = Some (new_attempt "att2" Scenario.quizA_id "stud1" 3 1503))
    by (vm_compute; reflexivity).
  repeat split; try assumption; try (vm_compute; reflexivity).
  intros Hinv.
  specialize (Hinv "att1" "att2" _ _ H1 H2 eq_refl eq_refl eq_refl eq_refl).
  discriminate.
Qed.

End ConcurrentStarts.

(** ** The percentage *)

Section Percentage.
Import Js QuizService.

Lemma percentage_exact_39 : percentage_exact_upto 39 = true.
Proof. vm_compute. reflexivity. Qed.

Lemma percentage_exact_small score maxScore :
  1 <= maxScore <= 39 -> 0 <= score <= maxScore ->
  percentage score maxScore = number_of_Z (exact_percentage score maxScore).
Proof.
  intros Hm Hs. pose proof percentage_exact_39 as H.
  unfold percentage_exact_upto in H. rewrite forallb_forall in H.
  specialize (H maxScore). rewrite forallb_forall in H.
  eapply bool_decide_eq_true_1, H.
  - apply list_elem_of_In, elem_of_seqZ. lia.
  - apply list_elem_of_In, elem_of_seqZ. lia.
Qed.

(** C10, as the code has it.  [submitQuizAttempt] divides by [maxScore]
    without looking at it: for an attempt in progress and its student the
    call returns and marks the attempt completed whatever [maxScore] is, and
    the percentage is [Math.round] of the double-precision product
    [(score / maxScore) * 100].  With [maxScore = 0] and [score = 0] this is
    NaN.  For [1 <= maxScore <= 39] and [0 <= score <= maxScore] it is the
    exact quotient [100 * score / maxScore] rounded to the nearest integer,
    ties upwards. *)
Theorem submit_percentage_unguarded
    dateNow submittedAt attemptId answers studentId st a :
  attempts st !! attemptId = Some a ->
  att_completed a = false -> att_studentId a = studentId ->
  exists st' r a',
    submitQuizAttempt dateNow submittedAt attemptId answers studentId st = (st', Ok r)
    /\ attempts st' !! attemptId = Some a'
    /\ att_completed a' = true
    /\ res_completed r = true
    /\ res_maxScore r = att_maxScore a
    /\ res_percentage r
       = Math_round (mul (div (number_of_Z (res_score r))
                              (number_of_Z (res_maxScore r)))
                         (number_of_Z 100))
    /\ (att_maxScore a = 0 -> res_score r = 0 -> res_percentage r = S754_nan)
    /\ (1 <= att_maxScore a <= 39 -> 0 <= res_score r <= att_maxScore a ->
        res_percentage r
        = number_of_Z (exact_percentage (res_score r) (res_maxScore r))).
Proof.
  intros Ha Hc Hs.
  rewrite submitQuizAttempt_unfold, Ha, Hc, (bool_decide_eq_true_2 _ Hs).
  cbn [negb]. do 3 eexists. split; [reflexivity|].
  split; [apply lookup_insert_eq|].
  cbn [res_completed res_maxScore res_percentage res_score att_completed
       apply_update upd_completed].
  repeat split.
  - intros -> ->. reflexivity.
  - intros Hm Hsc. now apply percentage_exact_small.
Qed.

(** An attempt started on a quiz without questions: the percentage is NaN. *)
Lemma submit_percentage_unguarded_witness :
  exists st' r a',
    submitQuizAttempt 70000 70001 "att1" Scenario.answers_4_5 "stud1"
      Scenario.started_empty = (st', Ok r)
    /\ attempts st' !! "att1" = Some a'
    /\ att_completed a' = true
    /\ res_percentage r = S754_nan.
Proof.
  destruct (submit_percentage_unguarded 70000 70001 "att1" Scenario.answers_4_5
              "stud1" Scenario.started_empty
              (new_attempt "att1" Scenario.quizA_id "stud1" 0 1501))
    as (st' & r & a' & Hsub & Ha' & Hc' & _ & Hm & _ & Hnan & _).
  - vm_compute. reflexivity.
  - reflexivity.
  - reflexivity.
  - exists st', r, a'. repeat split; try assumption.
    apply Hnan; [reflexivity|].
    change r with (match (st', Ok r).2 with Ok x => x | Err _ => r end).
    rewrite <- Hsub. vm_compute. reflexivity.
Defined.

(** The claim as written fails twice.  With 23 points out of 40 the code
    returns 57, where the exact quotient 57.5 rounds to 58 (and so does
    [Math.round(100 * 23 / 40)]); with [maxScore = 0] and a question added
    while the attempt was in progress the score is 1 and the percentage is
    +Infinity, not NaN. *)
Lemma submit_percentage_counterexample :
  (exists st' r,
      submitQuizAttempt 70000 70001 "att1" Scenario.answers_23_of_40 "stud1"
        Scenario.forty_points_started = (st', Ok r)
      /\ res_score r = 23 /\ res_maxScore r = 40
      /\ res_percentage r = number_of_Z 57
      /\ exact_percentage 23 40 = 58
      /\ Math_round (div (mul (number_of_Z 100) (number_of_Z 23)) (number_of_Z 40))
         = number_of_Z 58
      /\ res_percentage r
         <> number_of_Z (exact_percentage (res_score r) (res_maxScore r)))
  /\ (exists st' r,
        submitQuizAttempt 70000 70001 "att1" Scenario.answers_4_5 "stud1"
          Scenario.started_empty_then_grown = (st', Ok r)
        /\ res_maxScore r = 0 /\ res_score r = 1
        /\ res_percentage r = S754_infinity false
        /\ res_percentage r <> S754_nan).
Proof.
  split.
  - destruct (submitQuizAttempt 70000 70001 "att1" Scenario.answers_23_of_40
                "stud1" Scenario.forty_points_started) as [st' res] eqn:Hsub.
    assert (res = Ok {| res_attemptId := "att1";
                        res_score := 23;
                        res_maxScore := 40;
                        res_percentage := number_of_Z 57;
                        res_timeSpent := Some 1;
                        res_completed := true |}) as ->.
    { change res with (st', res).2. rewrite <- Hsub. vm_compute. reflexivity. }
    do 2 eexists. split; [reflexivity|]. cbn [res_maxScore res_score res_percentage].
    repeat split; try (vm_compute; congruence).
  - destruct (submitQuizAttempt 70000 70001 "att1" Scenario.answers_4_5
                "stud1" Scenario.started_empty_then_grown) as [st' res] eqn:Hsub.
    assert (res = Ok {| res_attemptId := "att1";
                        res_score := 1;
                        res_maxScore := 0;
                        res_percentage := S754_infinity false;
                        res_timeSpent := Some 1;
                        res_completed := true |}) as ->.
    { change res with (st', res).2. rewrite <- Hsub. vm_compute. reflexivity. }
    do 2 eexists. split; [reflexivity|]. cbn [res_maxScore res_score res_percentage].
    repeat split; discriminate.
Qed.

End Percentage.

(** ** Further access checks *)

Section AccessChecksProperties.
Import AuthUtils AccessChecks.

(** X1. Creating and taking quizzes exclude each other and cover all roles:
    [canTakeQuiz] is the negation of [canCreateQuiz], so a signed-in user
    gets past exactly one of the two route guards
    [requireQuizCreationAccess] and [requireQuizParticipationAccess]. *)
Theorem create_and_take_are_complementary (user : IUser) :
  canTakeQuiz user = negb (canCreateQuiz user)
  /\ (requireQuizParticipationAccess (Some user) = Next tt
      <-> requireQuizCreationAccess (Some user) <> Next tt)
  /\ (requireQuizCreationAccess (Some user) = Next tt <-> role user <> STUDENT).
Proof.
  unfold requireQuizParticipationAccess, requireQuizCreationAccess,
    canTakeQuiz, canCreateQuiz.
  destruct (role user); vm_compute; intuition congruence.
Qed.

(** X2. [canViewResults] always lets the attempt's student in and never
    lets another STUDENT in; whoever else is let in on an attempt that
    carries an institution can also access that institution, and an ADMIN or
    TEACHER is let in on it exactly when it is the own institution. *)
Theorem canViewResults_keeps_tenants (user : IUser) (att : AttemptRef) :
  (id user = ref_studentId att -> canViewResults user att = true)
  /\ (id user <> ref_studentId att -> role user = STUDENT ->
      canViewResults user att = false)
  /\ (forall i,
        id user <> ref_studentId att -> ref_institutionId att = Some i ->
        canViewResults user att = true -> canAccessInstitution user i = true)
  /\ (forall i,
        id user <> ref_studentId att -> ref_institutionId att = Some i ->
        role user = ADMIN \/ role user = TEACHER ->
        (canViewResults user att = true <-> institutionId user = Some i)).
Proof.
  unfold canViewResults, canAccessInstitution. repeat split.
  - intros ->. now rewrite bool_decide_eq_true_2.
  - intros Hne ->. now rewrite bool_decide_eq_false_2.
  - intros i Hne Hi. rewrite bool_decide_eq_false_2, Hi by assumption.
    destruct (role user); cbn; auto; discriminate.
  - rewrite bool_decide_eq_false_2, H0 by assumption.
    destruct H1 as [-> | ->]; cbn; apply inst_eq_true.
  - rewrite bool_decide_eq_false_2, H0 by assumption.
    destruct H1 as [-> | ->]; cbn; apply inst_eq_true.
Qed.

Lemma canViewResults_keeps_tenants_witness :
  canViewResults Scenario.teacher (mkAttemptRef "stud1" (Some "inst1")) = true
  <-> institutionId Scenario.teacher = Some "inst1".
Proof.
  apply (proj2 (proj2 (proj2
           (canViewResults_keeps_tenants Scenario.teacher
              (mkAttemptRef "stud1" (Some "inst1"))))) "inst1").
  - cbn. discriminate.
  - reflexivity.
  - right. reflexivity.
Defined.

Lemma substring_all s : String.substring 0 (String.length s) s = s.
Proof. induction s as [|c s IH]; cbn; [reflexivity|]. now rewrite IH. Qed.

Lemma append_cons c p t :
  String.append (String c p) t = String c (String.append p t).
Proof. reflexivity. Qed.

(** A string that starts with [p] is [p] followed by what comes after. *)
Lemma prefix_split p : forall h,
  String.prefix p h = true ->
  h = String.append p (substring_from (String.length p) h).
Proof.
  unfold substring_from.
  induction p as [|a p IH]; intros h Hp.
  - change (h = String.substring 0 (String.length h - 0) h).
    rewrite Nat.sub_0_r. symmetry. apply substring_all.
  - destruct h as [|b h]; cbn in Hp; [discriminate|].
    destruct (Ascii.ascii_dec a b) as [->|]; [|discriminate].
    rewrite append_cons. f_equal. simpl. now apply IH.
Qed.

Lemma substring_from_append p t :
  substring_from (String.length p) (String.append p t) = t.
Proof.
  unfold substring_from. induction p as [|a p IH].
  - change (String.substring 0 (String.length t - 0) t = t).
    rewrite Nat.sub_0_r. apply substring_all.
  - rewrite append_cons. simpl. exact IH.
Qed.

Lemma prefix_append p t : String.prefix p (String.append p t) = true.
Proof.
  induction p as [|a p IH]; [now destruct t|].
  rewrite append_cons. simpl.
  destruct (Ascii.ascii_dec a a); [exact IH|congruence].
Qed.

Lemma extractToken_bearer :
  (forall t, extractTokenFromHeader (Some (String.append "Bearer " t)) = Some t)
  /\ (forall h t,
        extractTokenFromHeader h = Some t -> h = Some (String.append "Bearer " t)).
Proof.
  split.
  - intros t. unfold extractTokenFromHeader.
    rewrite (prefix_append "Bearer " t).
    change (Some (substring_from (String.length "Bearer ")
                    (String.append "Bearer " t)) = Some t).
    now rewrite substring_from_append.
  - intros [h|] t; [|discriminate]. unfold extractTokenFromHeader.
    destruct (truthy h); [|discriminate].
    destruct (String.prefix "Bearer " h) eqn:Hp; [|discriminate].
    cbn [negb orb]. intros [= <-]. f_equal.
    exact (prefix_split "Bearer " h Hp).
Qed.

(** X3. [extractTokenFromHeader] returns a token exactly for the headers
    made of "Bearer " followed by that token (which may be empty), and
    nothing for a missing header or another scheme. *)
Theorem extractToken_inverts_bearer :
  (forall t, extractTokenFromHeader (Some (String.append "Bearer " t)) = Some t)
  /\ (forall h t,
        extractTokenFromHeader h = Some t -> h = Some (String.append "Bearer " t))
  /\ (forall h, (forall t, h <> Some (String.append "Bearer " t)) ->
                extractTokenFromHeader h = None).
Proof.
  split; [apply extractToken_bearer|]. split; [apply extractToken_bearer|].
  intros h Hno. destruct (extractTokenFromHeader h) as [t|] eqn:He; [|reflexivity].
  apply extractToken_bearer in He. now apply Hno in He.
Qed.

Lemma extractToken_inverts_bearer_witness :
  Some "Bearer abc.def" = Some (String.append "Bearer " "abc.def").
Proof.
  apply (proj1 (proj2 extractToken_inverts_bearer) (Some "Bearer abc.def") "abc.def").
  reflexivity.
Defined.

Section Authenticate.
Variable verifyToken : string -> option IJWTPayload.
Variable findUser : string -> option IUser.

(** X4. [authenticate] hands a user over exactly when the header is
    "Bearer " followed by a non-empty token that verifies, the token's user
    exists and that user is approved: no unapproved or unknown user gets
    through, and the user handed over is the stored one, not the token's
    claims. *)
Theorem authenticate_admits_approved_users_only
    (authorization : option string) (user : IUser) :
  authenticate verifyToken findUser authorization = Next user
  <-> exists token payload,
        authorization = Some (String.append "Bearer " token)
        /\ token <> ""
        /\ verifyToken token = Some payload
        /\ findUser (payload_userId payload) = Some user
        /\ approved user = true.
Proof.
  unfold authenticate. split.
  - destruct (extractTokenFromHeader authorization) as [token|] eqn:He;
      [|discriminate].
    apply (proj2 extractToken_bearer) in He.
    destruct (truthy token) eqn:Ht; [|discriminate]. cbn [negb].
    destruct (verifyToken token) as [payload|] eqn:Hv; [|discriminate].
    destruct (findUser (payload_userId payload)) as [u|] eqn:Hu; [|discriminate].
    destruct (approved u) eqn:Ha; [|discriminate]. cbn [negb].
    intros [= <-]. exists token, payload. repeat split; try assumption.
    intros ->. discriminate.
  - intros (token & payload & -> & Hne & Hv & Hu & Ha).
    rewrite (proj1 extractToken_bearer).
    assert (truthy token = true) as -> by (destruct token; [congruence|reflexivity]).
    cbn [negb]. now rewrite Hv, Hu, Ha.
Qed.

End Authenticate.

(** A verifier that accepts one token, and a user table with two users. *)
Lemma authenticate_admits_approved_users_only_witness :
  let verify := fun t => if bool_decide (t = "abc.def")
                         then Some (mkPayload "u1" TEACHER (Some "inst1")) else None in
  let find := fun i => if bool_decide (i = "u1") then Some Scenario.teacher else None in
  authenticate verify find (Some "Bearer abc.def") = Next Scenario.teacher.
Proof.
  intros verify find.
  apply (proj2 (authenticate_admits_approved_users_only verify find
                  (Some "Bearer abc.def") Scenario.teacher)).
  exists "abc.def", (mkPayload "u1" TEACHER (Some "inst1")).
  repeat split; try reflexivity. discriminate.
Defined.

Lemma has_institution_true (u : IUser) :
  has_institution u = true <-> exists i, institutionId u = Some i /\ i <> "".
Proof.
  unfold has_institution. destruct (institutionId u) as [i|].
  - destruct i as [|c i]; cbn; split.
    + discriminate.
    + intros (i & [= <-] & Hi). congruence.
    + intros _. eexists. split; [reflexivity|discriminate].
    + reflexivity.
  - split; [discriminate|]. intros (i & Hi & _). discriminate.
Qed.

Lemma includes_true roles r : includes roles r = true <-> In r roles.
Proof.
  unfold includes. rewrite existsb_exists. split.
  - intros (x & Hin & Hx). apply role_eq_true in Hx. now subst.
  - intros Hin. exists r. split; [assumption|]. now apply role_eq_true.
Qed.

(** X5. [authorize] lets a signed-in user pass exactly when the three
    checks hold: the user's role is among the required roles (no
    restriction when the list is empty or left out), the user is approved
    (asked by default), and, when asked, the user has a non-empty
    institution id.  With no options this is "approved"; with the staff
    roles of the statistics route it is "approved and allowed to create
    quizzes". A missing user is answered 401. *)
Theorem authorize_passes_iff (options : IAuthMiddlewareOptions) (user : IUser) :
  (authorize options (Some user) = Next tt
   <-> (default [] (requiredRoles options) = []
        \/ In (role user) (default [] (requiredRoles options)))
       /\ (default true (requireApproval options) = true -> approved user = true)
       /\ (default false (requireInstitution options) = true ->
           exists i, institutionId user = Some i /\ i <> ""))
  /\ (authorize no_options (Some user) = Next tt <-> approved user = true)
  /\ (authorize statistics_options (Some user) = Next tt
      <-> canCreateQuiz user = true /\ approved user = true)
  /\ authorize options None = Respond 401 "Authentication required".
Proof.
  assert (Hgen : forall opts,
             authorize opts (Some user) = Next tt
             <-> (default [] (requiredRoles opts) = []
                  \/ In (role user) (default [] (requiredRoles opts)))
                 /\ (default true (requireApproval opts) = true ->
                     approved user = true)
                 /\ (default false (requireInstitution opts) = true ->
                     exists i, institutionId user = Some i /\ i <> "")).
  { intros opts. unfold authorize, hasRole.
    set (roles := default [] (requiredRoles opts)).
    set (ap := default true (requireApproval opts)).
    set (ins := default false (requireInstitution opts)).
    rewrite <- (has_institution_true user).
    assert (Hrole : (0 <? length roles)%nat && negb (includes roles (role user))
                    = false
                    <-> roles = [] \/ In (role user) roles).
    { destruct roles as [|r0 roles']; [cbn; intuition congruence|].
      change (0 <? length (r0 :: roles'))%nat with true. cbn [andb].
      rewrite negb_false_iff, includes_true. intuition congruence. }
    rewrite <- Hrole.
    destruct ((0 <? length roles)%nat && negb (includes roles (role user)));
      [intuition congruence|].
    destruct ap, (approved user), ins, (has_institution user); cbn [andb negb];
      intuition congruence. }
  split; [apply Hgen|]. split; [|split; [|reflexivity]].
  - rewrite Hgen. cbn. intuition congruence.
  - rewrite Hgen. unfold canCreateQuiz. rewrite includes_true. cbn.
    intuition congruence.
Qed.

End AccessChecksProperties.

(** ** How errors of the services are answered *)

Section ErrorAnswers.
Import Js QuizService ErrorHandler.



(** Lengths are those of JavaScript: a text of 501 two-byte letters has
    501 code units and passes [max(1000)], one of four such letters fails
    [min(5)], and a character outside the basic plane counts twice. *)
Lemma js_length_counts_code_units :
  js_length "What is 2 + 2?" = 14%nat
  /\ js_length (Scenario.repeat_string 501 Scenario.e_acute) = 501%nat
  /\ questionCreate_violations
       (Scenario.ask (Scenario.repeat_string 501 Scenario.e_acute) "4" 1) = []
  /\ questionCreate_violations
       (Scenario.ask (Scenario.repeat_string 4 Scenario.e_acute) "4" 1)
     = ["text: string.min"]
  /\ js_length (String (Ascii.ascii_of_nat 240) (String (Ascii.ascii_of_nat 159)
                  (String (Ascii.ascii_of_nat 152)
                     (String (Ascii.ascii_of_nat 128) EmptyString)))) = 2%nat.
Proof. repeat split; vm_compute; reflexivity. Qed.

(** X7. A question that breaks a rule of the schema is refused before
    anything is read or written, and the plain [Error] that [validateSchema]
    throws is answered by [errorHandler] with 500 "Internal server error",
    as a non-operational error; a well-formed question for a missing quiz
    is answered 404. *)
Theorem invalid_question_is_answered_500 newId d st :
  (questionCreate_violations d <> [] ->
   addQuestion newId d st
   = (st, Err (ValidationError (questionCreate_violations d)))
   /\ errorHandler (FromService (ValidationError (questionCreate_violations d)))
      = mkHandled 500 "Internal server error" false)
  /\ (questionCreate_violations d = [] -> quizzes st !! qc_quizId d = None ->
      addQuestion newId d st = (st, Err quiz_not_found)
      /\ errorHandler (FromService quiz_not_found)
         = mkHandled 404 "Quiz not found" true).
Proof.
  unfold addQuestion, validate_questionCreate. split.
  - intros Hv. destruct (questionCreate_violations d); [congruence|].
    split; reflexivity.
  - intros -> Hq. unfold bind, prisma_quiz_find. cbn. rewrite Hq.
    split; reflexivity.
Qed.

(** A question of four letters, each of two bytes. *)
Lemma invalid_question_is_answered_500_witness :
  addQuestion "q9"
    (Scenario.ask (Scenario.repeat_string 4 Scenario.e_acute) "4" 1)
    Scenario.two_questions
  = (Scenario.two_questions, Err (ValidationError ["text: string.min"])).
Proof.
  refine (proj1 (proj1 (invalid_question_is_answered_500 "q9"
                          (Scenario.ask (Scenario.repeat_string 4 Scenario.e_acute)
                             "4" 1)
                          Scenario.two_questions) _)).
  vm_compute. discriminate.
Defined.

End ErrorAnswers.

(** ** Maintaining quizzes: questions, schedule, deletion *)

Section QuizMaintenance.
Import Js QuizService QuizResults Integrity.

Lemma deleteQuiz_unfold quizId st :
  deleteQuiz quizId st =
  if (0 <? length (attempts_of st quizId))%nat
  then (st, Err quiz_has_attempts)
  else
    let kept :=
      List.filter (fun q => negb (bool_decide (q_quizId q = quizId))) (questions st) in
    match quizzes st !! quizId with
    | None => (set_questions st kept, Err (PrismaClientKnownRequestError "P2025"))
    | Some _ =>
        (mkStore (delete quizId (quizzes st)) kept (attempts st),
         Ok "Quiz deleted successfully")
    end.
Proof.
  unfold deleteQuiz, bind, prisma_quizAttempt_findMany, attempts_of.
  destruct (Nat.ltb 0 _); [reflexivity|].
  unfold prisma_question_deleteMany, prisma_quiz_delete. cbn.
  destruct (quizzes st !! quizId); reflexivity.
Qed.

Lemma attempts_of_nil st quizId :
  attempts_of st quizId = []
  <-> forall i a, attempts st !! i = Some a -> att_quizId a <> quizId.
Proof.
  unfold attempts_of. split.
  - intros Hnil i a Hi Hq.
    assert (In a (List.filter (fun a => bool_decide (att_quizId a = quizId))
                    (attempt_rows st))) as Hin.
    { apply filter_In. split; [apply attempt_rows_In; eauto|].
      now apply bool_decide_eq_true. }
    rewrite Hnil in Hin. destruct Hin.
  - intros Hall.
    destruct (List.filter _ _) as [|a l] eqn:Hf; [reflexivity|]. exfalso.
    assert (In a (a :: l)) as Hin by now left.
    rewrite <- Hf in Hin. apply filter_In in Hin as [Hin Hq].
    apply attempt_rows_In in Hin as [i Hi]. apply bool_decide_eq_true in Hq.
    exact (Hall i a Hi Hq).
Qed.

Lemma questions_without quizId other (l : list Question) :
  List.filter (fun q => bool_decide (q_quizId q = other))
    (List.filter (fun q => negb (bool_decide (q_quizId q = quizId))) l)
  = if bool_decide (other = quizId) then []
    else List.filter (fun q => bool_decide (q_quizId q = other)) l.
Proof.
  destruct (decide (other = quizId)) as [->|Ho].
  - rewrite (bool_decide_eq_true_2 (quizId = quizId) eq_refl).
    induction l as [|q l IH]; cbn; [reflexivity|].
    destruct (decide (q_quizId q = quizId)) as [Hq|Hq].
    + now rewrite (bool_decide_eq_true_2 _ Hq).
    + rewrite (bool_decide_eq_false_2 _ Hq). cbn.
      now rewrite (bool_decide_eq_false_2 _ Hq).
  - rewrite (bool_decide_eq_false_2 _ Ho).
    induction l as [|q l IH]; cbn; [reflexivity|].
    destruct (decide (q_quizId q = quizId)) as [Hq|Hq].
    + rewrite (bool_decide_eq_true_2 _ Hq). cbn. rewrite IH.
      rewrite bool_decide_eq_false_2; [reflexivity|congruence].
    + rewrite (bool_decide_eq_false_2 _ Hq). cbn. now rewrite IH.
Qed.

(** X8. [deleteQuiz] refuses, without writing, a quiz that any attempt
    refers to, completed or not.  A stored quiz without attempts is removed
    together with exactly its own questions: the questions of other quizzes
    and all attempts stay.  For an id without quiz and without attempts the
    call still deletes the questions filed under that id before failing
    with P2025. *)
Theorem deleteQuiz_removes_quiz_and_questions quizId st :
  (forall i a, attempts st !! i = Some a -> att_quizId a = quizId ->
               deleteQuiz quizId st = (st, Err quiz_has_attempts))
  /\ ((forall i a, attempts st !! i = Some a -> att_quizId a <> quizId) ->
      forall quiz, quizzes st !! quizId = Some quiz ->
        exists st',
          deleteQuiz quizId st = (st', Ok "Quiz deleted successfully")
          /\ quizzes st' = delete quizId (quizzes st)
          /\ questions_of st' quizId = []
          /\ (forall other, other <> quizId ->
                            questions_of st' other = questions_of st other)
          /\ attempts st' = attempts st)
  /\ ((forall i a, attempts st !! i = Some a -> att_quizId a <> quizId) ->
      quizzes st !! quizId = None ->
      exists st',
        deleteQuiz quizId st = (st', Err (PrismaClientKnownRequestError "P2025"))
        /\ questions_of st' quizId = []
        /\ quizzes st' = quizzes st /\ attempts st' = attempts st).
Proof.
  rewrite deleteQuiz_unfold. repeat split.
  - intros i a Hi Hq.
    destruct (attempts_of st quizId) as [|b l] eqn:Hf; [|reflexivity].
    exfalso. eapply attempts_of_nil; eauto.
  - intros Hnone quiz Hquiz. apply attempts_of_nil in Hnone. rewrite Hnone, Hquiz.
    cbn [length Nat.ltb Nat.leb]. eexists. split; [reflexivity|].
    unfold questions_of. cbn [quizzes questions attempts].
    split; [reflexivity|]. split; [|split; [|reflexivity]].
    + rewrite questions_without. now rewrite bool_decide_eq_true_2.
    + intros other Ho. rewrite questions_without.
      now rewrite (bool_decide_eq_false_2 _ Ho).
  - intros Hnone Hquiz. apply attempts_of_nil in Hnone. rewrite Hnone, Hquiz.
    cbn [length Nat.ltb Nat.leb]. eexists. split; [reflexivity|].
    unfold questions_of. cbn [quizzes questions attempts set_questions].
    split; [|split; reflexivity].
    rewrite questions_without. now rewrite bool_decide_eq_true_2.
Qed.

(** The quiz of the scoring example can be deleted before anybody starts
    it, and not afterwards. *)
Lemma deleteQuiz_removes_quiz_and_questions_witness :
  deleteQuiz Scenario.quizA_id Scenario.two_questions_started
  = (Scenario.two_questions_started, Err quiz_has_attempts)
  /\ exists st',
       deleteQuiz Scenario.quizA_id Scenario.two_questions
       = (st', Ok "Quiz deleted successfully")
       /\ quizzes st' = delete Scenario.quizA_id (quizzes Scenario.two_questions)
       /\ questions_of st' Scenario.quizA_id = [].
Proof.
  split.
  - apply (proj1 (deleteQuiz_removes_quiz_and_questions Scenario.quizA_id
                    Scenario.two_questions_started)
             "att1" (new_attempt "att1" Scenario.quizA_id "stud1" 3 1501));
      vm_compute; reflexivity.
  - destruct (proj1 (proj2 (deleteQuiz_removes_quiz_and_questions
                              Scenario.quizA_id Scenario.two_questions)))
      with (quiz := Scenario.quizA) as (st' & H1 & H2 & H3 & _).
    + intros i a Hi. vm_compute in Hi. discriminate.
    + vm_compute. reflexivity.
    + exists st'. auto.
Defined.

Lemma addQuestion_unfold newId d st :
  addQuestion newId d st =
  match questionCreate_violations d with
  | [] =>
      match quizzes st !! qc_quizId d with
      | None => (st, Err quiz_not_found)
      | Some _ =>
          if existsb (fun q => bool_decide (q_id q = newId)) (questions st)
          then (st, Err (PrismaClientKnownRequestError "P2002"))
          else
            let row :=
              {| q_id := newId;
                 q_quizId := qc_quizId d;
                 q_text := qc_text d;
                 q_options := qc_options d;
                 q_answer := qc_answer d;
                 q_difficulty := qc_difficulty d;
                 q_points := default 1 (qc_points d) |} in
            (set_questions st (questions st ++ [row]), Ok row)
      end
  | violation :: more => (st, Err (ValidationError (violation :: more)))
  end.
Proof.
  unfold addQuestion, validate_questionCreate.
  destruct (questionCreate_violations d); [|reflexivity].
  unfold bind, prisma_quiz_find. cbn.
  destruct (quizzes st !! qc_quizId d); [|reflexivity].
  unfold prisma_question_create. cbn. destruct (existsb _ _); reflexivity.
Qed.

Lemma questions_of_snoc st quizId row :
  questions_of (set_questions st (questions st ++ [row])) quizId
  = if bool_decide (q_quizId row = quizId)
    then (questions_of st quizId ++ [row])%list else questions_of st quizId.
Proof.
  unfold questions_of. cbn. rewrite List.filter_app. cbn.
  destruct (bool_decide _); [reflexivity|apply app_nil_r].
Qed.

(** X10. A returning [addQuestion] appends one question to its quiz: the
    question carries the given points, or 1 when none are given, always
    between 1 and 10, and the quiz's total grows by as much; the questions
    of other quizzes, the quizzes and the attempts are as before.  A call
    that throws writes nothing. *)
Theorem addQuestion_grows_one_quiz newId d st st' :
  (forall q,
      addQuestion newId d st = (st', Ok q) ->
      q_id q = newId
      /\ q_points q = default 1 (qc_points d)
      /\ 1 <= q_points q <= 10
      /\ is_Some (quizzes st !! qc_quizId d)
      /\ questions_of st' (qc_quizId d) = (questions_of st (qc_quizId d) ++ [q])%list
      /\ total_points (questions_of st' (qc_quizId d))
         = total_points (questions_of st (qc_quizId d)) + q_points q
      /\ (forall other, other <> qc_quizId d ->
                        questions_of st' other = questions_of st other)
      /\ quizzes st' = quizzes st /\ attempts st' = attempts st)
  /\ (forall e, addQuestion newId d st = (st', Err e) -> st' = st).
Proof.
  split.
  - intros q Hadd.
    assert (Hpts : 1 <= default 1 (qc_points d) <= 10).
    { destruct (validate_questionCreate d) as [v|e] eqn:Hv.
      - pose proof (validated_points d v Hv) as Hp.
        unfold validate_questionCreate in Hv.
        destruct (questionCreate_violations d); [|discriminate].
        injection Hv as <-. exact Hp.
      - unfold addQuestion in Hadd. rewrite Hv in Hadd. discriminate. }
    revert Hadd. rewrite addQuestion_unfold.
    destruct (questionCreate_violations d); [|discriminate].
    destruct (quizzes st !! qc_quizId d) eqn:Hq; [|discriminate].
    destruct (existsb _ _); [discriminate|].
    intros [= <- <-]. cbn [q_id q_points].
    split; [reflexivity|]. split; [reflexivity|]. split; [exact Hpts|].
    split; [eauto|].
    rewrite questions_of_snoc. cbn [q_quizId].
    rewrite bool_decide_eq_true_2 by reflexivity.
    split; [reflexivity|]. split.
    { rewrite total_points_app. f_equal. }
    split; [|split; reflexivity].
    intros other Ho. rewrite questions_of_snoc. cbn [q_quizId].
    rewrite bool_decide_eq_false_2; [reflexivity|congruence].
  - intros e. rewrite addQuestion_unfold.
    destruct (questionCreate_violations d); [|now intros [= <- _]].
    destruct (quizzes st !! qc_quizId d); [|now intros [= <- _]].
    destruct (existsb _ _); [now intros [= <- _]|discriminate].
Qed.

(** A third question, worth 4 points, for the quiz of the scoring example. *)
Lemma addQuestion_grows_one_quiz_witness :
  exists st' q,
    addQuestion "q3" (Scenario.ask "What is 3 + 3?" "6" 4) Scenario.two_questions
    = (st', Ok q)
    /\ q_points q = 4
    /\ total_points (questions_of st' Scenario.quizA_id)
       = total_points (questions_of Scenario.two_questions Scenario.quizA_id)
         + q_points q.
Proof.
  pose (row := mkQuestion "q3" Scenario.quizA_id "What is 3 + 3?"
                 ["6"; "none of these"] "6" "easy" 4).
  pose (st' := set_questions Scenario.two_questions
                 (questions Scenario.two_questions ++ [row])).
  assert (H : addQuestion "q3" (Scenario.ask "What is 3 + 3?" "6" 4)
                Scenario.two_questions = (st', Ok row))
    by (vm_compute; reflexivity).
  exists st', row. split; [exact H|].
  destruct (proj1 (addQuestion_grows_one_quiz "q3"
                     (Scenario.ask "What is 3 + 3?" "6" 4)
                     Scenario.two_questions st') row H)
    as (_ & Hp & _ & _ & _ & Ht & _).
  split; assumption.
Defined.

Lemma scheduleQuiz_unfold quizId s e dm st :
  scheduleQuiz quizId s e dm st =
  match quizzes st !! quizId with
  | None => (st, Err (PrismaClientKnownRequestError "P2025"))
  | Some quiz =>
      let quiz' :=
        {| quiz_id := quiz_id quiz;
           quiz_title := quiz_title quiz;
           quiz_description := quiz_description quiz;
           quiz_createdById := quiz_createdById quiz;
           quiz_subjectId := quiz_subjectId quiz;
           quiz_institutionId := quiz_institutionId quiz;
           quiz_startTime := s;
           quiz_endTime := e;
           quiz_durationMins := dm |} in
      (set_quizzes st (<[quizId := quiz']> (quizzes st)), Ok quiz')
  end.
Proof.
  unfold scheduleQuiz, prisma_quiz_update.
  destruct (quizzes st !! quizId); reflexivity.
Qed.

(** X11. [scheduleQuiz] stores whatever window it is given, also one that
    ends before it starts.  After it, [startQuizAttempt] gets past the
    time-window check exactly at the times of the new window, so that after
    a window with [endTime < startTime] every start is refused with "Quiz is
    not currently active".  Questions and attempts are untouched; for a
    missing quiz the call fails with P2025 and writes nothing. *)
Theorem scheduleQuiz_sets_the_window quizId s e dm st :
  (forall quiz,
      quizzes st !! quizId = Some quiz ->
      exists st' quiz',
        scheduleQuiz quizId s e dm st = (st', Ok quiz')
        /\ quizzes st' !! quizId = Some quiz'
        /\ quiz_startTime quiz' = s /\ quiz_endTime quiz' = e
        /\ quiz_durationMins quiz' = dm
        /\ questions st' = questions st /\ attempts st' = attempts st
        /\ (forall now startedAt newId studentId,
              (startQuizAttempt now startedAt newId quizId studentId st').2
              <> Err quiz_not_active
              <-> s <= now <= e)
        /\ (e < s ->
            forall now startedAt newId studentId,
              startQuizAttempt now startedAt newId quizId studentId st'
              = (st', Err quiz_not_active)))
  /\ (quizzes st !! quizId = None ->
      scheduleQuiz quizId s e dm st
      = (st, Err (PrismaClientKnownRequestError "P2025"))).
Proof.
  rewrite scheduleQuiz_unfold. split.
  - intros quiz ->. cbn zeta. do 2 eexists. split; [reflexivity|].
    cbn [quizzes questions attempts set_quizzes quiz_startTime quiz_endTime
         quiz_durationMins].
    split; [apply lookup_insert_eq|]. do 5 (split; [reflexivity|]). split.
    + intros now startedAt newId studentId. rewrite startQuizAttempt_unfold.
      cbn [quizzes set_quizzes]. rewrite lookup_insert_eq.
      cbn [quiz_startTime quiz_endTime].
      destruct ((now <? s) || (now >? e)) eqn:Hw.
      * split; [intros H; now contradiction H|].
        intros Hin. rewrite orb_true_iff, Z.gtb_ltb, !Z.ltb_lt in Hw. lia.
      * rewrite orb_false_iff, Z.gtb_ltb, !Z.ltb_ge in Hw.
        split; [intros _; lia|]. intros _.
        destruct (List.find _ _); [discriminate|].
        match goal with |- context [attempts ?x !! newId] =>
          destruct (attempts x !! newId) end; discriminate.
    + intros Hinv now startedAt newId studentId. rewrite startQuizAttempt_unfold.
      cbn [quizzes set_quizzes]. rewrite lookup_insert_eq.
      cbn [quiz_startTime quiz_endTime].
      assert ((now <? s) || (now >? e) = true) as ->; [|reflexivity].
      rewrite orb_true_iff, Z.gtb_ltb, !Z.ltb_lt. lia.
  - intros ->. reflexivity.
Qed.

(** The quiz of the scoring example, rescheduled to end before it starts. *)
Lemma scheduleQuiz_sets_the_window_witness :
  exists st' quiz',
    scheduleQuiz Scenario.quizA_id 2000 1000 30 Scenario.two_questions
    = (st', Ok quiz')
    /\ (2000 > 1000 ->
        startQuizAttempt 1500 1501 "att1" Scenario.quizA_id "stud1" st'
        = (st', Err quiz_not_active)).
Proof.
  destruct (proj1 (scheduleQuiz_sets_the_window Scenario.quizA_id 2000 1000 30
                     Scenario.two_questions) Scenario.quizA)
    as (st' & quiz' & Hs & _ & _ & _ & _ & _ & _ & _ & Hinv).
  - vm_compute. reflexivity.
  - exists st', quiz'. split; [exact Hs|]. intros _. apply Hinv. lia.
Defined.

Lemma is_Some_insert {A} (m : gmap string A) i x k :
  is_Some (m !! k) -> is_Some (<[i := x]> m !! k).
Proof.
  intros Hk. destruct (decide (i = k)) as [->|Hne].
  - rewrite lookup_insert_eq. eauto.
  - now rewrite lookup_insert_ne.
Qed.

Lemma references_kept_exec op st :
  references_kept st -> references_kept (exec op st).
Proof.
  intros [Hqs Has].
  destruct op as [row|quizId d|quizId s e dm|newId d|quizId
                 |now startedAt newId quizId studentId
                 |dateNow submittedAt attemptId answers studentId]; cbn [exec].
  - unfold prisma_quiz_create.
    destruct (quizzes st !! quiz_id row); [now split|].
    split; cbn [quizzes questions attempts set_quizzes fst].
    + eapply Forall_impl; [exact Hqs|]. intros x. apply is_Some_insert.
    + intros i a Hi. apply is_Some_insert. eauto.
  - unfold updateQuiz, prisma_quiz_update.
    destruct (quizzes st !! quizId) as [quiz0|]; [|now split].
    split; cbn [quizzes questions attempts set_quizzes fst].
    + eapply Forall_impl; [exact Hqs|]. intros x. apply is_Some_insert.
    + intros i a Hi. apply is_Some_insert. eauto.
  - rewrite scheduleQuiz_unfold.
    destruct (quizzes st !! quizId) as [quiz0|]; [|now split].
    split; cbn [quizzes questions attempts set_quizzes fst].
    + eapply Forall_impl; [exact Hqs|]. intros x. apply is_Some_insert.
    + intros i a Hi. apply is_Some_insert. eauto.
  - rewrite addQuestion_unfold.
    destruct (questionCreate_violations d); [|now split].
    destruct (quizzes st !! qc_quizId d) eqn:Hq; [|now split].
    destruct (existsb _ _); [now split|].
    split; cbn [quizzes questions attempts set_questions fst]; [|exact Has].
    apply Forall_app. split; [exact Hqs|].
    constructor; [|constructor]. cbn [q_quizId]. rewrite Hq. eauto.
  - rewrite deleteQuiz_unfold.
    destruct (attempts_of st quizId) as [|b l] eqn:Hnone; [|now split].
    cbn [length Nat.ltb Nat.leb]. cbn zeta.
    assert (Hkept :
              Forall (fun q => is_Some (quizzes st !! q_quizId q)
                               /\ q_quizId q <> quizId)
                (List.filter (fun q => negb (bool_decide (q_quizId q = quizId)))
                   (questions st))).
    { apply Forall_forall. intros q Hq.
      apply list_elem_of_In, filter_In in Hq as [Hq Hne].
      rewrite Forall_forall in Hqs. split.
      - apply Hqs. now apply list_elem_of_In.
      - apply negb_true_iff, bool_decide_eq_false in Hne. exact Hne. }
    pose proof (proj1 (attempts_of_nil st quizId) Hnone) as Hno.
    destruct (quizzes st !! quizId) as [quiz0|];
      split; cbn [quizzes questions attempts set_questions fst].
    + eapply Forall_impl; [exact Hkept|]. intros x [Hx Hne].
      now rewrite lookup_delete_ne.
    + intros i a Hi. rewrite lookup_delete_ne; [eauto|].
      intros ->. exact (Hno i a Hi eq_refl).
    + eapply Forall_impl; [exact Hkept|]. now intros x [Hx _].
    + exact Has.
  - rewrite startQuizAttempt_unfold.
    destruct (quizzes st !! quizId) eqn:Hq; [|now split].
    destruct (_ || _); [now split|].
    destruct (List.find _ _); [now split|].
    destruct (attempts st !! newId); [now split|].
    split; cbn [quizzes questions attempts set_attempts fst]; [exact Hqs|].
    intros i a. destruct (decide (newId = i)) as [<-|Hne].
    + rewrite lookup_insert_eq. intros [= <-]. cbn. rewrite Hq. eauto.
    + rewrite lookup_insert_ne by assumption. apply Has.
  - rewrite submitQuizAttempt_unfold.
    destruct (attempts st !! attemptId) as [a0|] eqn:Ha0; [|now split].
    destruct (negb _); [now split|].
    destruct (att_completed a0); [now split|].
    split; cbn [quizzes questions attempts set_attempts fst]; [exact Hqs|].
    intros i a. destruct (decide (attemptId = i)) as [<-|Hne].
    + rewrite lookup_insert_eq. intros [= <-]. cbn. eauto.
    + rewrite lookup_insert_ne by assumption. apply Has.
Qed.

(** X9. The service calls keep the references between the tables: in every
    store they reach from the empty one, each question and each attempt
    belongs to a stored quiz, because questions and attempts are only added
    to a quiz that was found, and a quiz is only deleted together with its
    questions and when no attempt refers to it. *)
Theorem references_are_kept :
  (forall ops, references_kept (run ops empty_store))
  /\ (forall op st, references_kept st -> references_kept (exec op st)).
Proof.
  split; [|apply references_kept_exec].
  intros ops.
  assert (Hrun : forall st, references_kept st -> references_kept (run ops st)).
  { induction ops as [|op ops IH]; intros st Hst; [exact Hst|].
    cbn. apply IH, references_kept_exec, Hst. }
  apply Hrun. split; [constructor|].
  intros i a Hi. cbn in Hi. rewrite lookup_empty in Hi. discriminate.
Qed.

Lemma references_are_kept_witness :
  references_kept
    (exec (OpDeleteQuiz Scenario.quizA_id) Scenario.two_questions_started).
Proof.
  apply (proj2 references_are_kept).
  exact (proj1 references_are_kept
           [OpCreateQuiz Scenario.quizA;
            OpAddQuestion "q1" (Scenario.ask "What is 2 + 2?" "4" 1);
            OpAddQuestion "q2" (Scenario.ask "What is 2 + 3?" "5" 2);
            OpStart 1500 1501 "att1" Scenario.quizA_id "stud1"]).
Defined.

End QuizMaintenance.

(** ** More on the attempt lifecycle *)

Section LifecycleComposition.
Import Js QuizService.

(** X14. The code holds no limit on retakes: once a student's attempt in
    progress has been submitted, a new [startQuizAttempt] of the same
    student on the same quiz returns, given a time inside the window and a
    fresh id; the completed attempt stays beside the new one. *)
Theorem start_again_after_submission
    dateNow submittedAt attemptId answers studentId st st1 r
    now startedAt newId quiz a :
  at_most_one_active st ->
  attempts st !! attemptId = Some a ->
  submitQuizAttempt dateNow submittedAt attemptId answers studentId st = (st1, Ok r) ->
  quizzes st !! att_quizId a = Some quiz ->
  quiz_startTime quiz <= now <= quiz_endTime quiz ->
  attempts st !! newId = None ->
  exists st2 r2 a1,
    startQuizAttempt now startedAt newId (att_quizId a) studentId st1 = (st2, Ok r2)
    /\ start_attemptId r2 = newId
    /\ attempts st2 !! newId
       = Some (new_attempt newId (att_quizId a) studentId
                 (total_points (questions_of st (att_quizId a))) startedAt)
    /\ attempts st2 !! attemptId = Some a1
    /\ att_completed a1 = true
    /\ att_score a1 = res_score r.
Proof.
  intros Hinv Ha Hsub Hquiz Hwin Hnew. revert Hsub.
  rewrite submitQuizAttempt_unfold, Ha.
  destruct (bool_decide (att_studentId a = studentId)) eqn:Hown; [|discriminate].
  apply bool_decide_eq_true in Hown. cbn [negb].
  destruct (att_completed a) eqn:Hc; [discriminate|].
  intros [= <- <-].
  assert (Hne : attemptId <> newId) by (intros ->; congruence).
  match goal with |- context [startQuizAttempt _ _ _ _ _ ?s] => set (st1 := s) end.
  assert (Hq1 : quizzes st1 = quizzes st) by reflexivity.
  assert (Hqs1 : questions_of st1 (att_quizId a) = questions_of st (att_quizId a))
    by reflexivity.
  assert (Ha1 : exists a1, attempts st1 = <[attemptId := a1]> (attempts st)
                           /\ att_completed a1 = true
                           /\ att_score a1
                              = (score_answers answers
                                   (questions_of st (att_quizId a))).1)
    by (eexists; repeat split).
  destruct Ha1 as (a1 & Ha1 & Hc1 & Hs1). clearbody st1.
  assert (Hnone : List.find (is_active_for (att_quizId a) studentId)
                    (attempt_rows st1) = None).
  { apply find_active_None. intros i b Hi. rewrite Ha1 in Hi.
    destruct (is_active_for (att_quizId a) studentId b) eqn:Hact; [|reflexivity].
    exfalso. apply is_active_for_true in Hact as (Hq & Hs & Hcb).
    destruct (decide (attemptId = i)) as [<-|Hi'].
    - rewrite lookup_insert_eq in Hi. injection Hi as <-. congruence.
    - rewrite lookup_insert_ne in Hi by assumption.
      apply Hi'. eapply (Hinv attemptId i a b); eauto; congruence. }
  assert (Hfresh : attempts st1 !! newId = None)
    by (rewrite Ha1, lookup_insert_ne by assumption; exact Hnew).
  rewrite startQuizAttempt_unfold, Hq1, Hquiz,
    (proj2 (outside_window now quiz) Hwin), Hnone, Hfresh, Hqs1.
  exists (set_attempts st1
            (<[newId := new_attempt newId (att_quizId a) studentId
                          (total_points (questions_of st (att_quizId a))) startedAt]>
               (attempts st1))).
  eexists. exists a1. split; [reflexivity|].
  cbn [attempts set_attempts start_attemptId res_score].
  split; [reflexivity|]. split; [apply lookup_insert_eq|].
  rewrite lookup_insert_ne by congruence. rewrite Ha1, lookup_insert_eq.
  repeat split; assumption.
Qed.

(** The scoring example, submitted and started again. *)
Lemma start_again_after_submission_witness :
  exists st2 r2 a1,
    startQuizAttempt 1700 1701 "att2" Scenario.quizA_id "stud1"
      (exec (OpSubmit 70000 70001 "att1" Scenario.answers_4_6 "stud1")
         Scenario.two_questions_started) = (st2, Ok r2)
    /\ start_attemptId r2 = "att2"
    /\ attempts st2 !! "att2"
       = Some (new_attempt "att2" Scenario.quizA_id "stud1"
                 (total_points
                    (questions_of Scenario.two_questions_started Scenario.quizA_id))
                 1701)
    /\ attempts st2 !! "att1" = Some a1
    /\ att_completed a1 = true
    /\ att_score a1 = 1.
Proof.
  refine (start_again_after_submission 70000 70001 "att1" Scenario.answers_4_6
            "stud1" Scenario.two_questions_started
            (exec (OpSubmit 70000 70001 "att1" Scenario.answers_4_6 "stud1")
               Scenario.two_questions_started)
            {| res_attemptId := "att1";
               res_score := 1;
               res_maxScore := 3;
               res_percentage := number_of_Z 33;
               res_timeSpent := Some 1;
               res_completed := true |}
            1700 1701 "att2" Scenario.quizA
            (new_attempt "att1" Scenario.quizA_id "stud1" 3 1501) _ _ _ _ _ _).
  - apply (at_most_one_active_run
             [OpCreateQuiz Scenario.quizA;
              OpAddQuestion "q1" (Scenario.ask "What is 2 + 2?" "4" 1);
              OpAddQuestion "q2" (Scenario.ask "What is 2 + 3?" "5" 2);
              OpStart 1500 1501 "att1" Scenario.quizA_id "stud1"]
             empty_store at_most_one_active_empty).
  - vm_compute. reflexivity.
  - vm_compute. reflexivity.
  - vm_compute. reflexivity.
  - cbn. lia.
  - vm_compute. reflexivity.
Defined.

(** X15. The two attempt calls write one row at most.  [startQuizAttempt]
    leaves quizzes, questions and every stored attempt as they are.
    [submitQuizAttempt] leaves quizzes, questions and every other attempt as
    they are, and of its own attempt keeps the id, quiz, student, maximal
    score and start time; called for an unknown attempt or by somebody
    other than the attempt's student it throws (404, 403) and writes
    nothing at all. *)
Theorem attempt_calls_write_one_row :
  (forall now startedAt newId quizId studentId st,
      let st' := (startQuizAttempt now startedAt newId quizId studentId st).1 in
      quizzes st' = quizzes st /\ questions st' = questions st
      /\ forall i a, attempts st !! i = Some a -> attempts st' !! i = Some a)
  /\ (forall dateNow submittedAt attemptId answers studentId st,
        let st' :=
          (submitQuizAttempt dateNow submittedAt attemptId answers studentId st).1 in
        quizzes st' = quizzes st /\ questions st' = questions st
        /\ (forall i, i <> attemptId -> attempts st' !! i = attempts st !! i)
        /\ (forall a, attempts st !! attemptId = Some a ->
              exists a', attempts st' !! attemptId = Some a'
                         /\ att_id a' = att_id a /\ att_quizId a' = att_quizId a
                         /\ att_studentId a' = att_studentId a
                         /\ att_maxScore a' = att_maxScore a
                         /\ att_startedAt a' = att_startedAt a)
        /\ (attempts st !! attemptId = None ->
            submitQuizAttempt dateNow submittedAt attemptId answers studentId st
            = (st, Err attempt_not_found))
        /\ (forall a, attempts st !! attemptId = Some a ->
              att_studentId a <> studentId ->
              submitQuizAttempt dateNow submittedAt attemptId answers studentId st
              = (st, Err unauthorized_attempt))).
Proof.
  split.
  - intros now startedAt newId quizId studentId st. cbn zeta.
    rewrite startQuizAttempt_unfold.
    destruct (quizzes st !! quizId); [|now auto].
    destruct (_ || _); [now auto|].
    destruct (List.find _ _); [now auto|].
    destruct (attempts st !! newId) eqn:Hn; [now auto|].
    cbn [fst quizzes questions attempts set_attempts].
    split; [reflexivity|]. split; [reflexivity|]. intros i a Hi.
    rewrite lookup_insert_ne; [assumption|]. intros ->. congruence.
  - intros dateNow submittedAt attemptId answers studentId st. cbn zeta.
    rewrite submitQuizAttempt_unfold.
    destruct (attempts st !! attemptId) as [a|] eqn:Ha.
    + destruct (bool_decide (att_studentId a = studentId)) eqn:Hown; cbn [negb].
      * apply bool_decide_eq_true in Hown.
        destruct (att_completed a); cbn [fst].
        -- split; [reflexivity|]. split; [reflexivity|].
           split; [reflexivity|].
           split; [intros a0 Ha0; exists a0; repeat split; congruence|].
           split; [intros; congruence|].
           intros a0 Ha0 Hne. congruence.
        -- cbn zeta. cbn [quizzes questions attempts set_attempts].
           split; [reflexivity|]. split; [reflexivity|].
           split; [intros i Hi; now rewrite lookup_insert_ne|].
           split.
           { intros a0 Ha0. assert (a0 = a) as -> by congruence.
             rewrite lookup_insert_eq. eexists.
             split; [reflexivity|]. cbn. auto 10. }
           split; [intros; congruence|].
           intros a0 Ha0 Hne. congruence.
      * cbn [fst]. split; [reflexivity|]. split; [reflexivity|].
        split; [reflexivity|].
        split; [intros a0 Ha0; exists a0; repeat split; congruence|].
        split; [intros; congruence|]. reflexivity.
    + cbn [fst]. split; [reflexivity|]. split; [reflexivity|].
      split; [reflexivity|]. split; [intros; congruence|].
      split; [reflexivity|]. intros; congruence.
Qed.

Lemma attempt_calls_write_one_row_witness :
  submitQuizAttempt 70000 70001 "att1" Scenario.answers_4_6 "stud2"
    Scenario.two_questions_started
  = (Scenario.two_questions_started, Err unauthorized_attempt).
Proof.
  apply (proj2 (proj2 (proj2 (proj2 (proj2
           (proj2 attempt_calls_write_one_row 70000 70001 "att1"
              Scenario.answers_4_6 "stud2" Scenario.two_questions_started)))))
           (new_attempt "att1" Scenario.quizA_id "stud1" 3 1501)).
  - vm_compute. reflexivity.
  - cbn. discriminate.
Defined.

End LifecycleComposition.

(** ** Quiz results *)

Section ResultsProperties.
Import Js AuthUtils QuizService QuizResults.

Variable students : string -> option StudentInfo.

Lemma attempts_of_In st quizId a :
  In a (attempts_of st quizId)
  <-> exists i, attempts st !! i = Some a /\ att_quizId a = quizId.
Proof.
  unfold attempts_of. rewrite filter_In, attempt_rows_In, bool_decide_eq_true.
  split.
  - intros [[i Hi] Hq]. eauto.
  - intros (i & Hi & Hq). eauto.
Qed.

Lemma find_own_attempt st quizId userId w :
  List.find (fun a => bool_decide (att_studentId (with_attempt a) = userId))
    (List.map (fun a => mkWithStudent a (students (att_studentId a)))
       (attempts_of st quizId)) = Some w ->
  exists i a,
    w = mkWithStudent a (students userId)
    /\ attempts st !! i = Some a
    /\ att_studentId a = userId /\ att_quizId a = quizId.
Proof.
  intros Hf. apply find_some in Hf as [Hin Hown].
  apply bool_decide_eq_true in Hown.
  apply in_map_iff in Hin as (a & <- & Ha).
  apply attempts_of_In in Ha as (i & Hi & Hq). cbn in Hown.
  exists i, a. rewrite Hown. auto.
Qed.

(** X12. A STUDENT who did not create the quiz receives from
    [getQuizResults] one attempt only, an own attempt on that quiz, without
    statistics, and never an attempt of somebody else; without an own
    attempt on the quiz the call throws "No attempt found for this quiz"
    (404).  The store is only read. *)
Theorem results_show_a_student_own_attempt quizId userId st quiz :
  quizzes st !! quizId = Some quiz ->
  quiz_createdById quiz <> userId ->
  (forall st' r,
      getQuizResults students quizId userId STUDENT st = (st', Ok r) ->
      st' = st
      /\ results_statistics r = None
      /\ exists i a,
           results_attempts r = [mkWithStudent a (students userId)]
           /\ attempts st !! i = Some a
           /\ att_studentId a = userId /\ att_quizId a = quizId)
  /\ ((forall i a, attempts st !! i = Some a -> att_quizId a = quizId ->
                   att_studentId a <> userId) ->
      getQuizResults students quizId userId STUDENT st = (st, Err no_attempt_found))
  /\ (forall i a, attempts st !! i = Some a -> att_quizId a = quizId ->
                  att_studentId a = userId ->
                  is_ok (getQuizResults students quizId userId STUDENT st).2 = true).
Proof.
  intros Hquiz Hcreator.
  assert (Hunfold :
            getQuizResults students quizId userId STUDENT st =
            match List.find
                    (fun a => bool_decide (att_studentId (with_attempt a) = userId))
                    (List.map (fun a => mkWithStudent a (students (att_studentId a)))
                       (attempts_of st quizId)) with
            | None => (st, Err no_attempt_found)
            | Some w =>
                (st, Ok {| results_quiz :=
                             mkResultsQuiz (quiz_id quiz) (quiz_title quiz)
                               (quiz_description quiz) None None;
                           results_attempts := [w];
                           results_statistics := None |})
            end).
  { unfold getQuizResults. rewrite Hquiz. cbn zeta.
    rewrite (bool_decide_eq_false_2 _ Hcreator). reflexivity. }
  rewrite Hunfold. split; [|split].
  - intros st' r.
    destruct (List.find _ _) as [w|] eqn:Hf; [|discriminate].
    intros [= <- <-]. split; [reflexivity|]. split; [reflexivity|].
    destruct (find_own_attempt st quizId userId w Hf) as (i & a & -> & H).
    exists i, a. split; [reflexivity|exact H].
  - intros Hnone. destruct (List.find _ _) as [w|] eqn:Hf; [|reflexivity].
    destruct (find_own_attempt st quizId userId w Hf) as (i & a & _ & Hi & Hs & Hq).
    exfalso. exact (Hnone i a Hi Hq Hs).
  - intros i a Hi Hq Hs. destruct (List.find _ _) as [w|] eqn:Hf; [reflexivity|].
    exfalso.
    assert (In (mkWithStudent a (students (att_studentId a)))
              (List.map (fun a => mkWithStudent a (students (att_studentId a)))
                 (attempts_of st quizId))) as Hin.
    { apply (in_map (fun a => mkWithStudent a (students (att_studentId a)))).
      apply attempts_of_In. eauto. }
    pose proof (find_none _ _ Hf _ Hin) as Hno. cbn in Hno.
    apply bool_decide_eq_false in Hno. contradiction.
Qed.

(** X13. Staff of any institution (every role but STUDENT) and the quiz's
    creator receive from [getQuizResults] all attempts on the quiz and no
    attempt on another quiz, each with its student, and statistics over
    them; the service itself checks no institution.  On a quiz without
    attempts the averages are 0, not NaN: both divisions are guarded. *)
Theorem results_show_staff_all_attempts quizId userId userRole st quiz :
  quizzes st !! quizId = Some quiz ->
  userRole <> STUDENT \/ quiz_createdById quiz = userId ->
  exists r stats,
    getQuizResults students quizId userId userRole st = (st, Ok r)
    /\ List.map with_attempt (results_attempts r) = attempts_of st quizId
    /\ (forall w, In w (results_attempts r) ->
                  att_quizId (with_attempt w) = quizId
                  /\ with_student w = students (att_studentId (with_attempt w)))
    /\ (forall i a, attempts st !! i = Some a -> att_quizId a = quizId ->
                    In (mkWithStudent a (students (att_studentId a)))
                      (results_attempts r))
    /\ results_statistics r = Some stats
    /\ stat_totalAttempts stats = length (attempts_of st quizId)
    /\ (attempts_of st quizId = [] ->
        stats = mkStatistics 0 (number_of_Z 0) (number_of_Z 0)).
Proof.
  intros Hquiz Hwho.
  assert (Hguard :
            negb (includes [SUPER_ADMIN; GLOBAL_CONTENT_CREATOR; ADMIN; TEACHER]
                    userRole)
            && negb (bool_decide (quiz_createdById quiz = userId)) = false).
  { destruct Hwho as [Hrole | Hcreator].
    - destruct userRole; try reflexivity. congruence.
    - rewrite (bool_decide_eq_true_2 _ Hcreator). apply andb_false_r. }
  unfold getQuizResults. rewrite Hquiz. cbn zeta. rewrite Hguard.
  do 2 eexists. split; [reflexivity|].
  cbn [results_attempts results_statistics].
  split.
  { rewrite map_map. cbn. apply map_id. }
  split.
  { intros w Hw. apply in_map_iff in Hw as (a & <- & Ha).
    apply attempts_of_In in Ha as (i & Hi & Hq). cbn. auto. }
  split.
  { intros i a Hi Hq.
    apply (in_map (fun a => mkWithStudent a (students (att_studentId a)))).
    apply attempts_of_In. eauto. }
  split; [reflexivity|].
  split.
  { cbn. apply length_map. }
  intros Hnil. rewrite Hnil. reflexivity.
Qed.

End ResultsProperties.

Section ResultsWitnesses.
Import Js AuthUtils QuizService QuizResults.

(** Another student asks for the results of the started scoring example. *)
Lemma results_show_a_student_own_attempt_witness :
  getQuizResults (fun i => Some (mkStudentInfo i "Stu" "+4915112345678"))
    Scenario.quizA_id "stud2" STUDENT Scenario.two_questions_started
  = (Scenario.two_questions_started, Err no_attempt_found).
Proof.
  refine (proj1 (proj2 (results_show_a_student_own_attempt
            (fun i => Some (mkStudentInfo i "Stu" "+4915112345678"))
            Scenario.quizA_id "stud2" Scenario.two_questions_started
            Scenario.quizA _ _)) _).
  - vm_compute. reflexivity.
  - cbn. discriminate.
  - intros i a Hi Hq.
    assert (E : attempts Scenario.two_questions_started
                = {[ "att1" := new_attempt "att1" Scenario.quizA_id "stud1" 3 1501 ]})
      by (vm_compute; reflexivity).
    rewrite E in Hi. apply lookup_singleton_Some in Hi as [_ <-].
    cbn. discriminate.
Defined.

(** A teacher of another institution asks for them. *)
Lemma results_show_staff_all_attempts_witness :
  exists r stats,
    getQuizResults (fun i => Some (mkStudentInfo i "Stu" "+4915112345678"))
      Scenario.quizA_id "u7" TEACHER Scenario.two_questions_started
    = (Scenario.two_questions_started, Ok r)
    /\ List.map with_attempt (results_attempts r)
       = attempts_of Scenario.two_questions_started Scenario.quizA_id
    /\ results_statistics r = Some stats
    /\ stat_totalAttempts stats = 1%nat.
Proof.
  destruct (results_show_staff_all_attempts
              (fun i => Some (mkStudentInfo i "Stu" "+4915112345678"))
              Scenario.quizA_id "u7" TEACHER Scenario.two_questions_started
              Scenario.quizA)
    as (r & stats & H1 & H2 & _ & _ & H5 & H6 & _).
  - vm_compute. reflexivity.
  - left. discriminate.
  - exists r, stats. split; [exact H1|]. split; [exact H2|]. split; [exact H5|].
    rewrite H6. vm_compute. reflexivity.
Defined.

End ResultsWitnesses.

(** ** One-time passwords *)

Section OtpProperties.
Import QuizService OtpService.

Lemma matches_phone_nonempty phone :
  matches_phone phone = true -> (String.length phone =? 0)%nat = false.
Proof. destruct phone; [discriminate|reflexivity]. Qed.

Lemma js_length_digits s :
  forallb is_digit (String.list_ascii_of_string s) = true ->
  Js.js_length s = String.length s.
Proof.
  induction s as [|c s IH]; [reflexivity|]. cbn [String.list_ascii_of_string forallb].
  intros H. apply andb_true_iff in H as [Hc Hs].
  cbn [Js.js_length String.length]. rewrite (IH Hs).
  unfold is_digit in Hc. unfold Js.code_units.
  apply andb_true_iff in Hc as [_ Hc]. apply Nat.leb_le in Hc.
  destruct (Nat.ltb_spec (Ascii.nat_of_ascii c) 128); [reflexivity|lia].
Qed.

Lemma validate_otp_ok phone code :
  matches_phone phone = true -> matches_six_digits code = true ->
  validate_otpVerification phone code = Ok (phone, code).
Proof.
  intros Hp Hc. unfold validate_otpVerification, otpVerification_violations.
  rewrite (matches_phone_nonempty phone Hp), Hp, Hc.
  unfold matches_six_digits in Hc. apply andb_true_iff in Hc as [Hlen Hd].
  rewrite (js_length_digits code Hd), Hlen. apply Nat.eqb_eq in Hlen.
  destruct code; [discriminate|reflexivity].
Qed.

Lemma validate_otp_phone phone code r :
  validate_otpVerification phone code = Ok r ->
  r = (phone, code) /\ matches_phone phone = true.
Proof.
  unfold validate_otpVerification, otpVerification_violations.
  destruct (String.length phone =? 0)%nat; [discriminate|].
  destruct (matches_phone phone); [|discriminate].
  destruct (_ ++ _)%list; [|discriminate]. intros [= <-]. auto.
Qed.

Lemma delete_by_id_lookup rowId (table : gmap string OTP) k :
  delete_by_id rowId table !! k
  = match table !! k with
    | Some row => if bool_decide (otp_id row = rowId) then None else Some row
    | None => None
    end.
Proof.
  unfold delete_by_id. destruct (table !! k) as [row|] eqn:Hk.
  - destruct (decide (otp_id row = rowId)) as [Hid|Hid].
    + rewrite (bool_decide_eq_true_2 _ Hid).
      apply map_lookup_filter_None. right. intros x Hx. cbn.
      assert (x = row) as -> by congruence. auto.
    + rewrite (bool_decide_eq_false_2 _ Hid).
      apply map_lookup_filter_Some. auto.
  - apply map_lookup_filter_None. auto.
Qed.

Lemma verifyOTP_unfold now phone code (table : gmap string OTP) :
  matches_phone phone = true -> matches_six_digits code = true ->
  verifyOTP now phone code table =
  match table !! phone with
  | None => (table, Err otp_not_found)
  | Some otpRecord =>
      if now >? otp_expiresAt otpRecord
      then (delete_by_id (otp_id otpRecord) table, Err otp_expired)
      else if negb (bool_decide (otp_code otpRecord = code))
      then (table, Err otp_invalid)
      else (delete_by_id (otp_id otpRecord) table, Ok "OTP verified successfully")
  end.
Proof.
  intros Hp Hc. unfold verifyOTP. now rewrite (validate_otp_ok phone code Hp Hc).
Qed.

(** Without a stored code for the number no verification returns. *)
Lemma verifyOTP_absent now phone code (table : gmap string OTP) :
  table !! phone = None ->
  exists e, verifyOTP now phone code table = (table, Err e).
Proof.
  intros Hnone. unfold verifyOTP.
  destruct (validate_otpVerification phone code) as [[p c]|e] eqn:Hv; [|eauto].
  apply validate_otp_phone in Hv as [[= -> ->] _]. rewrite Hnone. eauto.
Qed.

Lemma sendOTP_stores now otpCode newId phone (table table1 : gmap string OTP) msg :
  sendOTP now otpCode newId phone table = (table1, Ok msg) ->
  matches_phone phone = true
  /\ exists row,
       table1 = <[phone := row]> table
       /\ otp_code row = otpCode
       /\ otp_expiresAt row = now + 10 * 60 * 1000
       /\ otp_id row = match table !! phone with
                       | Some old => otp_id old
                       | None => newId
                       end.
Proof.
  unfold sendOTP.
  destruct (validate_otpVerification phone "000000") as [[p c]|e] eqn:Hv;
    [|discriminate].
  apply validate_otp_phone in Hv as [[= -> ->] Hp].
  destruct (table !! phone) as [old|].
  - intros [= <- _]. split; [exact Hp|]. eexists. repeat split.
  - destruct (existsb _ _); [discriminate|].
    intros [= <- _]. split; [exact Hp|]. eexists. repeat split.
Qed.

(** X16. A code sent by [sendOTP] verifies once: [verifyOTP] with that
    code, up to and including ten minutes after the sending, returns and
    deletes the stored code, after which no verification for that number
    returns until a new code is sent. *)
Theorem otp_verifies_once
    now otpCode newId phone (table table1 : gmap string OTP) msg now' :
  sendOTP now otpCode newId phone table = (table1, Ok msg) ->
  matches_six_digits otpCode = true ->
  now' <= now + 600000 ->
  exists table2,
    verifyOTP now' phone otpCode table1 = (table2, Ok "OTP verified successfully")
    /\ table2 !! phone = None
    /\ (forall now'' code,
          exists e, verifyOTP now'' phone code table2 = (table2, Err e))
    /\ (forall now'',
          verifyOTP now'' phone otpCode table2 = (table2, Err otp_not_found)).
Proof.
  intros Hsend Hcode Hnow.
  apply sendOTP_stores in Hsend as (Hp & row & -> & Hc & He & _).
  rewrite (verifyOTP_unfold now' phone otpCode _ Hp Hcode), lookup_insert_eq.
  assert ((now' >? otp_expiresAt row) = false) as ->.
  { rewrite Z.gtb_ltb. apply Z.ltb_ge. lia. }
  rewrite (bool_decide_eq_true_2 _ Hc). cbn [negb].
  eexists. split; [reflexivity|].
  assert (Hgone : delete_by_id (otp_id row) (<[phone := row]> table) !! phone = None).
  { rewrite delete_by_id_lookup, lookup_insert_eq.
    now rewrite bool_decide_eq_true_2. }
  split; [exact Hgone|]. split.
  - intros now'' code. now apply verifyOTP_absent.
  - intros now''. rewrite (verifyOTP_unfold now'' phone otpCode _ Hp Hcode).
    now rewrite Hgone.
Qed.

Lemma otp_verifies_once_witness :
  exists table2,
    verifyOTP 600000 "+4915112345678" "123456"
      {[ "+4915112345678" := mkOTP "otp1" "+4915112345678" "123456" 600000 ]}
    = (table2, Ok "OTP verified successfully")
    /\ table2 !! "+4915112345678" = None.
Proof.
  destruct (otp_verifies_once 0 "123456" "otp1" "+4915112345678" ∅
              {[ "+4915112345678" := mkOTP "otp1" "+4915112345678" "123456" 600000 ]}
              "OTP sent successfully" 600000)
    as (table2 & H1 & H2 & _).
  - vm_compute. reflexivity.
  - reflexivity.
  - lia.
  - exists table2. auto.
Defined.

(** X17. For a stored code, [verifyOTP] with a well-formed input: after the
    expiry time the stored code is deleted and "OTP has expired" is thrown,
    even for the right code; before it, a wrong code throws "Invalid OTP
    code" and leaves the table as it is, so that the same code can still be
    verified afterwards, any number of wrong tries later. *)
Theorem otp_expiry_and_wrong_code now phone code (table : gmap string OTP) row :
  table !! phone = Some row ->
  matches_phone phone = true -> matches_six_digits code = true ->
  (otp_expiresAt row < now ->
   exists table',
     verifyOTP now phone code table = (table', Err otp_expired)
     /\ table' !! phone = None)
  /\ (now <= otp_expiresAt row -> otp_code row <> code ->
      verifyOTP now phone code table = (table, Err otp_invalid)
      /\ (matches_six_digits (otp_code row) = true ->
          (verifyOTP now phone (otp_code row)
             (verifyOTP now phone code table).1).2
          = Ok "OTP verified successfully")).
Proof.
  intros Hrow Hp Hc. rewrite (verifyOTP_unfold now phone code table Hp Hc), Hrow.
  split.
  - intros Hexp.
    assert ((now >? otp_expiresAt row) = true) as ->
        by (rewrite Z.gtb_ltb; apply Z.ltb_lt; lia).
    eexists. split; [reflexivity|].
    rewrite delete_by_id_lookup, Hrow. now rewrite bool_decide_eq_true_2.
  - intros Hlive Hwrong.
    assert ((now >? otp_expiresAt row) = false) as Hg
        by (rewrite Z.gtb_ltb; apply Z.ltb_ge; lia).
    rewrite Hg, (bool_decide_eq_false_2 _ Hwrong). cbn [negb fst].
    split; [reflexivity|]. intros Hc'.
    rewrite (verifyOTP_unfold now phone (otp_code row) table Hp Hc'), Hrow, Hg.
    now rewrite bool_decide_eq_true_2.
Qed.

Lemma otp_expiry_and_wrong_code_witness :
  verifyOTP 1000 "+4915112345678" "654321"
    {[ "+4915112345678" := mkOTP "otp1" "+4915112345678" "123456" 600000 ]}
  = ({[ "+4915112345678" := mkOTP "otp1" "+4915112345678" "123456" 600000 ]},
     Err otp_invalid).
Proof.
  refine (proj1 (proj2 (otp_expiry_and_wrong_code 1000 "+4915112345678" "654321"
            {[ "+4915112345678" := mkOTP "otp1" "+4915112345678" "123456" 600000 ]}
            (mkOTP "otp1" "+4915112345678" "123456" 600000) _ _ _) _ _)).
  - vm_compute. reflexivity.
  - reflexivity.
  - reflexivity.
  - cbn. lia.
  - cbn. discriminate.
Defined.

(** X18. Sending again replaces the code: after a second [sendOTP] to the
    same number, which always returns, the number's row keeps its id,
    carries the new code and expires ten minutes after the second sending;
    the first code, when different, is refused as "Invalid OTP code" and the
    new one verifies. *)
Theorem otp_resend_replaces_code
    now1 code1 id1 now2 code2 id2 phone (table table1 : gmap string OTP) msg now' :
  sendOTP now1 code1 id1 phone table = (table1, Ok msg) ->
  exists table2 row1 row2,
    sendOTP now2 code2 id2 phone table1 = (table2, Ok "OTP sent successfully")
    /\ table1 !! phone = Some row1
    /\ table2 = <[phone := row2]> table1
    /\ otp_id row2 = otp_id row1
    /\ otp_code row2 = code2
    /\ otp_expiresAt row2 = now2 + 600000
    /\ (matches_six_digits code1 = true -> matches_six_digits code2 = true ->
        code1 <> code2 -> now' <= now2 + 600000 ->
        verifyOTP now' phone code1 table2 = (table2, Err otp_invalid)
        /\ (verifyOTP now' phone code2 table2).2 = Ok "OTP verified successfully").
Proof.
  intros Hsend.
  apply sendOTP_stores in Hsend as (Hp & row1 & -> & Hc1 & He1 & Hid1).
  unfold sendOTP at 1.
  rewrite (validate_otp_ok phone "000000" Hp eq_refl), lookup_insert_eq.
  exists (<[phone := mkOTP (otp_id row1) (otp_phoneNumber row1) code2
                       (now2 + 10 * 60 * 1000)]> (<[phone := row1]> table)),
    row1, (mkOTP (otp_id row1) (otp_phoneNumber row1) code2 (now2 + 10 * 60 * 1000)).
  split; [reflexivity|]. split; [reflexivity|].
  split; [reflexivity|]. cbn [otp_id otp_code otp_expiresAt].
  split; [reflexivity|]. split; [reflexivity|]. split; [lia|].
  intros H1 H2 Hne Hnow.
  rewrite !verifyOTP_unfold by assumption. rewrite !lookup_insert_eq.
  cbn [otp_expiresAt otp_code].
  assert ((now' >? now2 + 10 * 60 * 1000) = false) as ->
      by (rewrite Z.gtb_ltb; apply Z.ltb_ge; lia).
  rewrite bool_decide_eq_false_2 by congruence.
  rewrite bool_decide_eq_true_2 by reflexivity. split; reflexivity.
Qed.

Lemma otp_resend_replaces_code_witness :
  exists table2 row1 row2,
    sendOTP 1000 "654321" "otp2" "+4915112345678"
      {[ "+4915112345678" := mkOTP "otp1" "+4915112345678" "123456" 600000 ]}
    = (table2, Ok "OTP sent successfully")
    /\ otp_id row2 = otp_id row1
    /\ otp_code row2 = "654321".
Proof.
  destruct (otp_resend_replaces_code 0 "123456" "otp1" 1000 "654321" "otp2"
              "+4915112345678" ∅
              {[ "+4915112345678" := mkOTP "otp1" "+4915112345678" "123456" 600000 ]}
              "OTP sent successfully" 1000)
    as (table2 & row1 & row2 & H1 & _ & _ & H4 & H5 & _).
  - vm_compute. reflexivity.
  - exists table2, row1, row2. auto.
Defined.

End OtpProperties.

(** ** Accounts *)

Section AccountProperties.
Import AuthUtils AccessChecks QuizService Accounts.

Variable comparePassword : string -> string -> bool.
Variable generateToken : IJWTPayload -> string.
Variable hashPassword : string -> string.

(** X19. For a well-formed input, [login] returns only for a stored,
    approved user whose password compares equal, with that user's public
    columns and a token for its id, role and institution.  An unknown
    number and a wrong password throw the same error (401); an account
    that is not approved is refused with 403 before the password is looked
    at, whatever the password. *)
Theorem login_needs_approved_account phoneNumber password users :
  userLogin_violations phoneNumber password = [] ->
  (List.find (fun u => bool_decide (user_phoneNumber u = phoneNumber)) users = None ->
   login comparePassword generateToken phoneNumber password users
   = Err invalid_credentials)
  /\ (forall u,
        List.find (fun u => bool_decide (user_phoneNumber u = phoneNumber)) users
        = Some u ->
        (user_approved u = false ->
         login comparePassword generateToken phoneNumber password users
         = Err pending_approval)
        /\ (user_approved u = true ->
            comparePassword password (user_password u) = false ->
            login comparePassword generateToken phoneNumber password users
            = Err invalid_credentials)
        /\ (user_approved u = true ->
            comparePassword password (user_password u) = true ->
            login comparePassword generateToken phoneNumber password users
            = Ok (public u,
                  generateToken (mkPayload (user_id u) (user_role u)
                                   (user_institutionId u)))))
  /\ (forall pu token,
        login comparePassword generateToken phoneNumber password users
        = Ok (pu, token) ->
        exists u, In u users /\ user_phoneNumber u = phoneNumber
                  /\ user_approved u = true
                  /\ comparePassword password (user_password u) = true
                  /\ pu = public u).
Proof using comparePassword generateToken.
  intros Hvalid. unfold login. rewrite Hvalid. split; [|split].
  - intros ->. reflexivity.
  - intros u ->. split; [|split].
    + intros ->. reflexivity.
    + intros -> ->. reflexivity.
    + intros -> ->. reflexivity.
  - intros pu token.
    destruct (List.find _ users) as [u|] eqn:Hf; [|discriminate].
    destruct (user_approved u) eqn:Ha; [|discriminate]. cbn [negb].
    destruct (comparePassword password (user_password u)) eqn:Hc; [|discriminate].
    intros [= <- _]. apply find_some in Hf as [Hin Hp].
    apply bool_decide_eq_true in Hp. exists u. auto.
Qed.

(** X20. [updateProfile] never changes the id, the phone number, the role
    or the approval of a user, whatever the payload carries, and touches no
    other user; it does store the payload's institution id, so that a user
    can move the own account to another institution.  For an unknown id it
    fails with P2025 and writes nothing. *)
Theorem updateProfile_keeps_role_and_approval userId (d : ProfileUpdate) users :
  Forall2 (fun u u' =>
             user_id u' = user_id u /\ user_phoneNumber u' = user_phoneNumber u
             /\ user_role u' = user_role u /\ user_approved u' = user_approved u
             /\ (user_id u <> userId -> u' = u))
    users (updateProfile hashPassword userId d users).1
  /\ (forall pu,
        (updateProfile hashPassword userId d users).2 = Ok pu ->
        exists u,
          In u users /\ user_id u = userId
          /\ pub_id pu = userId
          /\ pub_role pu = user_role u /\ pub_approved pu = user_approved u
          /\ pub_phoneNumber pu = user_phoneNumber u
          /\ pub_institutionId pu
             = match pu_institutionId d with
               | Some i => Some i
               | None => user_institutionId u
               end)
  /\ ((forall u, In u users -> user_id u <> userId) ->
      updateProfile hashPassword userId d users
      = (users, Err (PrismaClientKnownRequestError "P2025"))).
Proof using hashPassword.
  clear comparePassword generateToken.
  unfold updateProfile. split; [|split].
  - destruct (List.find _ users) as [row|]; cbn [fst].
    + induction users as [|u l IH]; cbn; constructor; [|exact IH].
      destruct (decide (user_id u = userId)) as [Hu|Hu].
      * rewrite (bool_decide_eq_true_2 _ Hu). cbn. tauto.
      * rewrite (bool_decide_eq_false_2 _ Hu). tauto.
    + induction users as [|u l IH]; constructor; [tauto|exact IH].
  - intros pu. destruct (List.find _ users) as [row|] eqn:Hf; [|discriminate].
    cbn [snd]. intros [= <-]. apply find_some in Hf as [Hin Hid].
    apply bool_decide_eq_true in Hid. exists row. cbn. auto 10.
  - intros Hnone. destruct (List.find _ users) as [row|] eqn:Hf; [|reflexivity].
    apply find_some in Hf as [Hin Hid]. apply bool_decide_eq_true in Hid.
    exfalso. exact (Hnone row Hin Hid).
Qed.

End AccountProperties.

Section AccountWitnesses.
Import AuthUtils AccessChecks QuizService Accounts.

(** A teacher who signed up and is not approved yet, with the right
    password. *)
Lemma login_needs_approved_account_witness :
  let row := mkUserRow "u7" "+4915112345678" None "Tom" "hash-of-Secret1!"
               TEACHER (Some "inst1") false None in
  login (fun p h => bool_decide (h = String.append "hash-of-" p))
    (fun payload => String.append "token-for-" (payload_userId payload))
    "+4915112345678" "Secret1!" [row]
  = Err pending_approval.
Proof.
  intros row.
  refine (proj1 (proj1 (proj2 (login_needs_approved_account
            (fun p h => bool_decide (h = String.append "hash-of-" p))
            (fun payload => String.append "token-for-" (payload_userId payload))
            "+4915112345678" "Secret1!" [row] _)) row _) _).
  - reflexivity.
  - reflexivity.
  - reflexivity.
Defined.

(** A student's payload that asks for the ADMIN role and another
    institution. *)
Lemma updateProfile_keeps_role_and_approval_witness :
  let row := mkUserRow "u8" "+4915112345679" None "Sue" "hash-of-Secret1!"
               STUDENT (Some "inst1") true None in
  let payload := mkProfileUpdate None None None None (Some ADMIN) (Some "inst2")
                   (Some true) None None in
  exists u,
    In u [row] /\ user_id u = "u8"
    /\ pub_role (public (apply_profile_update (String.append "hash-of-") payload row))
       = user_role u
    /\ pub_institutionId
         (public (apply_profile_update (String.append "hash-of-") payload row))
       = Some "inst2".
Proof.
  intros row payload.
  destruct (proj1 (proj2 (updateProfile_keeps_role_and_approval
                            (String.append "hash-of-") "u8" payload [row]))
              (public (apply_profile_update (String.append "hash-of-") payload row)))
    as (u & Hin & Hid & _ & Hrole & _ & _ & Hinst).
  - reflexivity.
  - exists u. auto.
Defined.

End AccountWitnesses.
